(** * Kodi repository generator: a model of [generate_repo.py]

    The script collects the [addon.xml] manifests of a set of add-on
    archives, merges them into one [addons.xml], writes MD5 side files and
    static directory listings under [dist/].

    Python values are modelled as follows.
    - A [str] is a list of Unicode code points ([N]).
    - A [bytes] object is a list of [Byte.byte].
    - An exception is a value of [exn]; a call that may raise returns a
      [result].
    - The output directory is a tree of named entries, in directory
      iteration order. *)

From Stdlib Require Import List NArith ZArith Bool Lia Sorted Permutation.
From Stdlib.Strings Require Import String Ascii Byte.
From Equations Require Import Equations.
Import ListNotations.

Local Open Scope N_scope.
Local Open Scope list_scope.

(** ** Python [str] *)

Definition char := N.
Definition str := list char.

(** ASCII literals. *)
Definition py (s : string) : str :=
  List.map N_of_ascii (list_ascii_of_string s).

Definition LF : char := 0x0a.
Definition CR : char := 0x0d.
Definition DQUOTE : char := 0x22.
Definition SLASH : char := 0x2f.
Definition DOT : char := 0x2e.

Fixpoint str_eqb (a b : str) : bool :=
  match a, b with
  | [], [] => true
  | x :: a', y :: b' => (x =? y) && str_eqb a' b'
  | _, _ => false
  end.

(** [Py_UNICODE_ISSPACE]: the characters removed by [str.strip()]. *)
Definition is_space (c : char) : bool :=
  ((0x09 <=? c) && (c <=? 0x0d)) || ((0x1c <=? c) && (c <=? 0x20))
  || (c =? 0x85) || (c =? 0xa0) || (c =? 0x1680)
  || ((0x2000 <=? c) && (c <=? 0x200a))
  || (c =? 0x2028) || (c =? 0x2029) || (c =? 0x202f) || (c =? 0x205f)
  || (c =? 0x3000).

(** [Py_UNICODE_ISLINEBREAK]: the line boundaries of [str.splitlines()]. *)
Definition is_linebreak (c : char) : bool :=
  ((0x0a <=? c) && (c <=? 0x0d)) || ((0x1c <=? c) && (c <=? 0x1e))
  || (c =? 0x85) || (c =? 0x2028) || (c =? 0x2029).

Fixpoint lstrip (s : str) : str :=
  match s with
  | c :: s' => if is_space c then lstrip s' else s
  | [] => []
  end.

Definition rstrip (s : str) : str := rev (lstrip (rev s)).

(** [s.strip()] *)
Definition strip (s : str) : str := rstrip (lstrip s).

(** [s.rstrip(chars)] for a one-character [chars]. *)
Fixpoint lstrip_char (x : char) (s : str) : str :=
  match s with
  | c :: s' => if c =? x then lstrip_char x s' else s
  | [] => []
  end.

Definition rstrip_char (x : char) (s : str) : str :=
  rev (lstrip_char x (rev s)).

(** [s.splitlines()]: a line ends at a line boundary, [CR LF] counts as
    one boundary, and a final boundary opens no further line. *)
Fixpoint splitlines (s : str) : list str :=
  match s with
  | [] => []
  | c :: s' =>
      if is_linebreak c then
        [] :: match s' with
              | d :: s'' =>
                  if (c =? CR) && (d =? LF) then splitlines s''
                  else splitlines s'
              | [] => []
              end
      else
        match splitlines s' with
        | [] => [[c]]
        | l :: ls => (c :: l) :: ls
        end
  end.

(** [sep.join(parts)] *)
Fixpoint join (sep : str) (parts : list str) : str :=
  match parts with
  | [] => []
  | [p] => p
  | p :: ps => p ++ sep ++ join sep ps
  end.

(** [s.startswith(prefix)] *)
Fixpoint startswith (s prefix : str) : bool :=
  match prefix, s with
  | [], _ => true
  | p :: prefix', c :: s' => (c =? p) && startswith s' prefix'
  | _ :: _, [] => false
  end.

(** [s.endswith(suffix)] *)
Definition endswith (s suffix : str) : bool :=
  startswith (rev s) (rev suffix).

(** [needle in s] *)
Fixpoint contains (s needle : str) : bool :=
  startswith s needle ||
  match s with
  | [] => false
  | _ :: s' => contains s' needle
  end.

(** ** The manifest merger: [generate_addons_xml] *)

Definition xml_marker : str := py "<?xml".

Definition addons_open : str :=
  py "<?xml version=" ++ [DQUOTE] ++ py "1.0" ++ [DQUOTE]
  ++ py " encoding=" ++ [DQUOTE] ++ py "UTF-8" ++ [DQUOTE] ++ py "?>"
  ++ [LF] ++ py "<addons>".

Definition addons_close : str := py "</addons>" ++ [LF].

(** The inner loop: [filtered] grows by the lines that are kept. *)
Fixpoint filter_lines (lines : list str) (filtered : list str) : list str :=
  match lines with
  | [] => filtered
  | line :: rest =>
      let stripped := strip line in
      if startswith stripped xml_marker then filter_lines rest filtered
      else filter_lines rest (filtered ++ [line])
  end.

(** The outer loop: one part is appended per manifest. *)
Fixpoint merge_loop (addon_xmls : list str) (parts : list str) : list str :=
  match addon_xmls with
  | [] => parts
  | xml_content :: rest =>
      let lines := splitlines (strip xml_content) in
      let filtered := filter_lines lines [] in
      merge_loop rest (parts ++ [join [LF] filtered])
  end.

Definition generate_addons_xml (addon_xmls : list str) : str :=
  let parts := [addons_open] in
  let parts := merge_loop addon_xmls parts in
  let parts := parts ++ [addons_close] in
  join [LF] parts.

(** A line is kept unless, trimmed, it starts with the marker. *)
Definition keep_line (line : str) : bool :=
  negb (startswith (strip line) xml_marker).

(** The part the merger makes of one manifest. *)
Definition merge_block (xml_content : str) : str :=
  join [LF] (filter keep_line (splitlines (strip xml_content))).

(** Some line of the text, trimmed, starts with the marker. *)
Definition has_declaration_line (s : str) : bool :=
  existsb (fun line => startswith (strip line) xml_marker) (splitlines s).

(** Every line boundary of the text is a newline. *)
Definition lf_only (s : str) : bool :=
  forallb (fun c => negb (is_linebreak c) || (c =? LF)) s.

(** The merger as the specification words it: the lines of each fragment
    without the declaration lines, re-joined, and a blank line between
    neighbouring parts. *)
Definition spec_block (fragment : str) : str :=
  join [LF] (filter keep_line (splitlines fragment)).

Definition spec_generate_addons_xml (fragments : list str) : str :=
  join [LF; LF]
       ([addons_open] ++ List.map spec_block fragments ++ [addons_close]).

(** The first line of the document. *)
Definition xml_declaration : str :=
  py "<?xml version=" ++ [DQUOTE] ++ py "1.0" ++ [DQUOTE]
  ++ py " encoding=" ++ [DQUOTE] ++ py "UTF-8" ++ [DQUOTE] ++ py "?>".

(** No character of the text is a line boundary. *)
Definition no_linebreak (l : str) : bool :=
  forallb (fun c => negb (is_linebreak c)) l.

(** The lines one manifest contributes to the document: the lines kept,
    or one empty line when none is. *)
Definition block_lines (xml_content : str) : list str :=
  match filter keep_line (splitlines (strip xml_content)) with
  | [] => [[]]
  | line :: lines => line :: lines
  end.

(** ** Python [bytes] and the UTF-8 codec *)

Definition bytes := list byte.

Definition byte_of_N (n : N) : byte :=
  match Byte.of_N (n mod 256) with
  | Some b => b
  | None => x00
  end.

(** The bytes of one code point; [None] for a surrogate or a value above
    U+10FFFF, which the strict encoder refuses. *)
Definition encode_char (c : char) : option (list N) :=
  if c <? 0x80 then Some [c]
  else if c <? 0x800 then Some [0xc0 + c / 64; 0x80 + c mod 64]
  else if c <? 0x10000 then
    if (0xd800 <=? c) && (c <=? 0xdfff) then None
    else Some [0xe0 + c / 4096; 0x80 + (c / 64) mod 64; 0x80 + c mod 64]
  else if c <? 0x110000 then
    Some [0xf0 + c / 262144; 0x80 + (c / 4096) mod 64;
          0x80 + (c / 64) mod 64; 0x80 + c mod 64]
  else None.

(** [s.encode("utf-8")]; [None] stands for [UnicodeEncodeError]. *)
Fixpoint utf8_encode (s : str) : option bytes :=
  match s with
  | [] => Some []
  | c :: s' =>
      match encode_char c, utf8_encode s' with
      | Some bs, Some rest => Some (List.map byte_of_N bs ++ rest)
      | _, _ => None
      end
  end.


(** Text the strict encoder accepts. *)
Definition encodable (s : str) : Prop :=
  exists data, utf8_encode s = Some data.

Definition between (lo x hi : N) : bool := (lo <=? x) && (x <=? hi).

Definition is_cont (b : N) : bool := between 0x80 b 0xbf.

Fixpoint utf8_decode_N (bs : list N) : option str :=
  match bs with
  | [] => Some []
  | b0 :: r0 =>
      if b0 <? 0x80 then option_map (cons b0) (utf8_decode_N r0)
      else if between 0xc2 b0 0xdf then
        match r0 with
        | b1 :: r1 =>
            if is_cont b1 then
              option_map (cons ((b0 - 0xc0) * 64 + (b1 - 0x80)))
                         (utf8_decode_N r1)
            else None
        | _ => None
        end
      else if between 0xe0 b0 0xef then
        match r0 with
        | b1 :: b2 :: r2 =>
            let lo := if b0 =? 0xe0 then 0xa0 else 0x80 in
            let hi := if b0 =? 0xed then 0x9f else 0xbf in
            if between lo b1 hi && is_cont b2 then
              option_map
                (cons ((b0 - 0xe0) * 4096 + (b1 - 0x80) * 64 + (b2 - 0x80)))
                (utf8_decode_N r2)
            else None
        | _ => None
        end
      else if between 0xf0 b0 0xf4 then
        match r0 with
        | b1 :: b2 :: b3 :: r3 =>
            let lo := if b0 =? 0xf0 then 0x90 else 0x80 in
            let hi := if b0 =? 0xf4 then 0x8f else 0xbf in
            if between lo b1 hi && is_cont b2 && is_cont b3 then
              option_map
                (cons ((b0 - 0xf0) * 262144 + (b1 - 0x80) * 4096
                       + (b2 - 0x80) * 64 + (b3 - 0x80)))
                (utf8_decode_N r3)
            else None
        | _ => None
        end
      else None
  end.

(** [data.decode("utf-8")]; [None] stands for [UnicodeDecodeError]. *)
Definition utf8_decode (data : bytes) : option str :=
  utf8_decode_N (List.map Byte.to_N data).

(** ** [hashlib.md5]

    The digest is RFC 1321's; a hash object is modelled by the bytes fed
    to it so far, which is what [update] is documented to mean. *)

Module MD5.

Definition shifts : list N :=
  [7; 12; 17; 22; 7; 12; 17; 22; 7; 12; 17; 22; 7; 12; 17; 22;
   5; 9; 14; 20; 5; 9; 14; 20; 5; 9; 14; 20; 5; 9; 14; 20;
   4; 11; 16; 23; 4; 11; 16; 23; 4; 11; 16; 23; 4; 11; 16; 23;
   6; 10; 15; 21; 6; 10; 15; 21; 6; 10; 15; 21; 6; 10; 15; 21].

Definition sines : list N :=
  [0xd76aa478; 0xe8c7b756; 0x242070db; 0xc1bdceee;
   0xf57c0faf; 0x4787c62a; 0xa8304613; 0xfd469501;
   0x698098d8; 0x8b44f7af; 0xffff5bb1; 0x895cd7be;
   0x6b901122; 0xfd987193; 0xa679438e; 0x49b40821;
   0xf61e2562; 0xc040b340; 0x265e5a51; 0xe9b6c7aa;
   0xd62f105d; 0x02441453; 0xd8a1e681; 0xe7d3fbc8;
   0x21e1cde6; 0xc33707d6; 0xf4d50d87; 0x455a14ed;
   0xa9e3e905; 0xfcefa3f8; 0x676f02d9; 0x8d2a4c8a;
   0xfffa3942; 0x8771f681; 0x6d9d6122; 0xfde5380c;
   0xa4beea44; 0x4bdecfa9; 0xf6bb4b60; 0xbebfbc70;
   0x289b7ec6; 0xeaa127fa; 0xd4ef3085; 0x04881d05;
   0xd9d4d039; 0xe6db99e5; 0x1fa27cf8; 0xc4ac5665;
   0xf4292244; 0x432aff97; 0xab9423a7; 0xfc93a039;
   0x655b59c3; 0x8f0ccc92; 0xffeff47d; 0x85845dd1;
   0x6fa87e4f; 0xfe2ce6e0; 0xa3014314; 0x4e0811a1;
   0xf7537e82; 0xbd3af235; 0x2ad7d2bb; 0xeb86d391].

Definition add32 (x y : N) : N := (x + y) mod 0x100000000.
Definition not32 (x : N) : N := N.lxor x 0xffffffff.
Definition rotl32 (x c : N) : N :=
  N.lor (N.shiftl x c mod 0x100000000) (N.shiftr x (32 - c)).

Fixpoint words_le (bs : list N) : list N :=
  match bs with
  | b0 :: b1 :: b2 :: b3 :: r =>
      (b0 + 256 * b1 + 65536 * b2 + 16777216 * b3) :: words_le r
  | _ => []
  end.

Definition le_bytes (n : nat) (x : N) : list N :=
  List.map (fun i => (x / 256 ^ N.of_nat i) mod 256) (seq 0 n).

Definition pad (msg : list N) : list N :=
  let len := N.of_nat (List.length msg) in
  let zeros := N.to_nat ((119 - len mod 64) mod 64) in
  msg ++ [0x80] ++ repeat 0 zeros ++ le_bytes 8 ((8 * len) mod 2 ^ 64).

Definition state := (N * N * N * N)%type.

Definition step (M : list N) (st : state) (i : nat) : state :=
  let '(a, b, c, d) := st in
  let n := N.of_nat i in
  let '(f, g) :=
    if n <? 16 then (N.lor (N.land b c) (N.land (not32 b) d), n)
    else if n <? 32 then
      (N.lor (N.land d b) (N.land (not32 d) c), (5 * n + 1) mod 16)
    else if n <? 48 then (N.lxor (N.lxor b c) d, (3 * n + 5) mod 16)
    else (N.lxor c (N.lor b (not32 d)), (7 * n) mod 16) in
  let f := add32 (add32 (add32 f a) (nth i sines 0)) (nth (N.to_nat g) M 0) in
  (d, add32 b (rotl32 f (nth i shifts 0)), b, c).

Definition block (st : state) (M : list N) : state :=
  let '(a0, b0, c0, d0) := st in
  let '(a, b, c, d) := fold_left (step M) (seq 0 64) st in
  (add32 a0 a, add32 b0 b, add32 c0 c, add32 d0 d).

Fixpoint blocks (n : nat) (ws : list N) (st : state) : state :=
  match n with
  | O => st
  | S n' => blocks n' (skipn 16 ws) (block st (firstn 16 ws))
  end.

Definition init : state := (0x67452301, 0xefcdab89, 0x98badcfe, 0x10325476).

Definition digest (msg : bytes) : bytes :=
  let ws := words_le (pad (List.map Byte.to_N msg)) in
  let '(a, b, c, d) := blocks (List.length ws / 16) ws init in
  List.map byte_of_N
    (le_bytes 4 a ++ le_bytes 4 b ++ le_bytes 4 c ++ le_bytes 4 d).

End MD5.

Definition hex_digit (n : N) : char :=
  if n <? 10 then 0x30 + n else 0x61 + (n - 10).

Definition hex_byte (b : byte) : str :=
  [hex_digit (Byte.to_N b / 16); hex_digit (Byte.to_N b mod 16)].

Definition hex (data : bytes) : str := flat_map hex_byte data.

(** A digit or one of [a] to [f]. *)
Definition is_lower_hex (c : char) : bool :=
  between 0x30 c 0x39 || between 0x61 c 0x66.

(** [h = hashlib.md5()], [h.update(chunk)], [h.hexdigest()] *)
Record md5_hash := { fed : bytes }.

Definition md5_new : md5_hash := {| fed := [] |}.
Definition md5_update (h : md5_hash) (chunk : bytes) : md5_hash :=
  {| fed := fed h ++ chunk |}.
Definition md5_hexdigest (h : md5_hash) : str := hex (MD5.digest (fed h)).

(** ** The checksum engine: [md5sum] and [md5_string] *)

Definition CHUNK : nat := N.to_nat 8192.

(** [f.read(8192)] on a binary file of which [unread] is left: the chunk
    and what is left after it. *)
Definition read_chunk (unread : bytes) : bytes * bytes :=
  (firstn CHUNK unread, skipn CHUNK unread).

Lemma CHUNK_pos : (0 < CHUNK)%nat.
Proof. apply Nat.ltb_lt. vm_compute. reflexivity. Qed.

Lemma read_chunk_shorter (unread : bytes) b chunk :
  fst (read_chunk unread) = b :: chunk ->
  (List.length (snd (read_chunk unread)) < List.length unread)%nat.
Proof.
  unfold read_chunk. generalize CHUNK_pos. generalize CHUNK.
  cbn [fst snd]. intros n Hn Hc. rewrite length_skipn.
  destruct unread as [|x u].
  - rewrite firstn_nil in Hc. discriminate.
  - cbn [List.length]. lia.
Qed.

Definition inspect {A} (a : A) : {b : A | a = b} := exist _ a eq_refl.

Opaque CHUNK read_chunk.

(** [for chunk in iter(lambda: f.read(8192), b""): h.update(chunk)] *)
Equations read_loop (unread : bytes) (h : md5_hash) : md5_hash
  by wf (List.length unread) lt :=
  read_loop unread h with inspect (fst (read_chunk unread)) := {
    | exist _ [] _ => h
    | exist _ (b :: chunk) E =>
        read_loop (snd (read_chunk unread)) (md5_update h (b :: chunk)) }.
Next Obligation. eapply read_chunk_shorter; eassumption. Qed.

Transparent CHUNK read_chunk.

(** [md5sum(filepath)], for the bytes stored in the file. *)
Definition md5sum (content : bytes) : str :=
  let h := md5_new in
  let h := read_loop content h in
  md5_hexdigest h.

(** [md5_string(content)]; [None] when [encode] raises. *)
Definition md5_string (content : str) : option str :=
  match utf8_encode content with
  | Some data => Some (md5_hexdigest (md5_update md5_new data))
  | None => None
  end.

(** ** Exceptions and results *)

Inductive exn : Type :=
| OSError                  (* also its subclasses: FileNotFoundError, ... *)
| JSONDecodeError
| CalledProcessError (stderr : str)
| BadZipFile
| UnicodeDecodeError
| UnicodeEncodeError
| ParseError
| KeyError
| TypeError
| RuntimeError
| NotImplementedError
| ZlibError                (* zlib.error *)
| SystemExit (code : Z).

Inductive result (A : Type) : Type :=
| Ok (a : A)
| Raise (e : exn).

Arguments Ok {A} a.
Arguments Raise {A} e.

(** ** [os.path] on POSIX paths *)

(** [p[:i]] and [p[i:]] for [i = p.rfind("/") + 1]. *)
Fixpoint split_last_slash (p : str) : str * str :=
  match p with
  | [] => ([], [])
  | c :: p' =>
      let (head, tail) := split_last_slash p' in
      match head with
      | [] => if c =? SLASH then ([c], tail) else ([], c :: tail)
      | _ :: _ => (c :: head, tail)
      end
  end.

Definition basename (p : str) : str := snd (split_last_slash p).

Definition dirname (p : str) : str :=
  let head := fst (split_last_slash p) in
  if forallb (N.eqb SLASH) head then head else rstrip_char SLASH head.


Definition no_slash (s : str) : bool :=
  forallb (fun c => negb (c =? SLASH)) s.

(** A single path component: [OUTPUT_DIR / name] is then the entry of
    [OUTPUT_DIR] called [name], and no other name gives that entry. *)
Definition is_component (name : str) : bool :=
  negb (str_eqb name []) && negb (str_eqb name (py "."))
  && negb (str_eqb name (py "..")) && no_slash name
  && forallb (fun c => negb (c =? 0)) name.

(** Empty, or with a last character other than [x]. *)
Definition ends_clear (x : char) (s : str) : Prop :=
  s = [] \/ exists r c, s = r ++ [c] /\ c <> x.

(** ** The archive inspector: [extract_addon_xml] *)

(** Why [zf.read] fails on a member that is there: the member is
    encrypted ([RuntimeError]), its compression is not supported
    ([NotImplementedError]), its header or checksum is wrong
    ([BadZipFile]), or its compressed data cannot be inflated
    ([zlib.error]). *)
Inductive read_error : Type := Encrypted | Unsupported | BadCRC | Corrupt.

Definition exn_of_read_error (why : read_error) : exn :=
  match why with
  | Encrypted => RuntimeError
  | Unsupported => NotImplementedError
  | BadCRC => BadZipFile
  | Corrupt => ZlibError
  end.

(** What reading one member gives. *)
Inductive payload : Type :=
| Stored (content : bytes)
| Unreadable (why : read_error).

(** An open [zipfile.ZipFile]: its members in the order of the central
    directory, each a name and what reading it gives.  A name may occur
    more than once. *)
Definition ZipFile : Type := list (str * payload).

(** [zf.namelist()] *)
Definition namelist (zf : ZipFile) : list str := List.map fst zf.

(** [zf.getinfo(name)]: the archive keeps one entry per name, and a later
    member of the same name replaces an earlier one. *)
Fixpoint getinfo (zf : ZipFile) (name : str) : option payload :=
  match zf with
  | [] => None
  | (n, p) :: rest =>
      match getinfo rest name with
      | Some later => Some later
      | None => if str_eqb n name then Some p else None
      end
  end.

(** [zf.read(name)] *)
Definition read (zf : ZipFile) (name : str) : result bytes :=
  match getinfo zf name with
  | Some (Stored content) => Ok content
  | Some (Unreadable why) => Raise (exn_of_read_error why)
  | None => Raise KeyError
  end.

(** A regular file: its bytes, and the archive [zipfile.ZipFile] finds in
    them, if they are an archive at all. *)
Record file : Type := {
  data : bytes;
  as_zip : option ZipFile
}.

Definition addon_xml_name : str := py "addon.xml".

(** The test of the loop body. *)
Definition is_addon_xml (addon_id name : str) : bool :=
  let basename := basename name in
  let dirname := rstrip_char SLASH (dirname name) in
  str_eqb basename addon_xml_name
  && (str_eqb dirname [] || str_eqb dirname addon_id).

(** [for name in zf.namelist(): ...], returning from inside the loop. *)
Fixpoint find_addon_xml (zf : ZipFile) (addon_id : str) (names : list str)
  : result (option str) :=
  match names with
  | [] => Ok None
  | name :: rest =>
      if is_addon_xml addon_id name then
        match read zf name with
        | Ok content =>
            match utf8_decode content with
            | Some text => Ok (Some text)
            | None => Raise UnicodeDecodeError
            end
        | Raise e => Raise e
        end
      else find_addon_xml zf addon_id rest
  end.

Definition extract_addon_xml (zip : file) (addon_id : str)
  : result (option str) :=
  match as_zip zip with
  | None => Raise BadZipFile
  | Some zf => find_addon_xml zf addon_id (namelist zf)
  end.

(** ** The output tree *)

#[warnings="-register-all"]
Inductive node : Type :=
| File (f : file)
| Dir (entries : list (str * node)).

Definition listing := list (str * node).

Fixpoint lookup (name : str) (es : listing) : option node :=
  match es with
  | [] => None
  | (n, x) :: es' => if str_eqb n name then Some x else lookup name es'
  end.

(** Replace the entry called [name], or add it at the end. *)
Fixpoint put (name : str) (x : node) (es : listing) : listing :=
  match es with
  | [] => [(name, x)]
  | (n, y) :: es' =>
      if str_eqb n name then (n, x) :: es' else (n, y) :: put name x es'
  end.

Fixpoint node_at (path : list str) (n : node) : option node :=
  match path with
  | [] => Some n
  | d :: path' =>
      match n with
      | File _ => None
      | Dir es =>
          match lookup d es with
          | Some child => node_at path' child
          | None => None
          end
      end
  end.

(** Writing a regular file into a directory; a directory of that name is
    in the way. *)
Definition write_file (name : str) (f : file) (es : listing)
  : result listing :=
  match lookup name es with
  | Some (Dir _) => Raise OSError
  | _ => Ok (put name (File f) es)
  end.

(** A file written as text is no archive. *)
Definition text_file (content : bytes) : file :=
  {| data := content; as_zip := None |}.

(** [path.mkdir(parents=True, exist_ok=True)] below an existing parent. *)
Definition mkdir (name : str) (es : listing) : result listing :=
  match lookup name es with
  | Some (Dir _) => Ok es
  | Some (File _) => Raise OSError
  | None => Ok (es ++ [(name, Dir [])])
  end.

(** Apply [f] to the listing of the directory at [path]. *)
Fixpoint update_at (path : list str) (f : listing -> result listing)
  (n : node) : result node :=
  match n with
  | File _ => Raise OSError
  | Dir es =>
      match path with
      | [] =>
          match f es with
          | Ok es' => Ok (Dir es')
          | Raise e => Raise e
          end
      | d :: path' =>
          match lookup d es with
          | Some child =>
              match update_at path' f child with
              | Ok child' => Ok (Dir (put d child' es))
              | Raise e => Raise e
              end
          | None => Raise OSError
          end
      end
  end.

Fixpoint dirnames (es : listing) : list str :=
  match es with
  | [] => []
  | (n, Dir _) :: es' => n :: dirnames es'
  | (_, File _) :: es' => dirnames es'
  end.

Fixpoint filenames (es : listing) : list str :=
  match es with
  | [] => []
  | (n, File _) :: es' => n :: filenames es'
  | (_, Dir _) :: es' => filenames es'
  end.

(** ** Directory listings: [generate_index_pages] *)

(** [a <= b] on [str]: code points, lexicographically. *)
Fixpoint str_leb (a b : str) : bool :=
  match a, b with
  | [], _ => true
  | _ :: _, [] => false
  | x :: a', y :: b' => (x <? y) || ((x =? y) && str_leb a' b')
  end.

Fixpoint insert_sorted (x : str) (l : list str) : list str :=
  match l with
  | [] => [x]
  | y :: l' => if str_leb x y then x :: l else y :: insert_sorted x l'
  end.

(** [sorted(names)] *)
Definition sorted (names : list str) : list str :=
  fold_right insert_sorted [] names.

Definition index_name : str := py "index.html".
Definition zip_ext : str := py ".zip".

Definition dir_link (d : str) : str :=
  py "<a href=" ++ [DQUOTE] ++ d ++ py "/" ++ [DQUOTE] ++ py ">"
  ++ d ++ py "/</a>".

Definition file_link (f : str) : str :=
  py "<a href=" ++ [DQUOTE] ++ f ++ [DQUOTE] ++ py ">" ++ f ++ py "</a>".

(** [for d in sorted(dirnames): entries.append(...)] *)
Fixpoint dir_entries (ds : list str) (entries : list str) : list str :=
  match ds with
  | [] => entries
  | d :: rest => dir_entries rest (entries ++ [dir_link d])
  end.

(** [for f in sorted(filenames): ...] with its two [continue]s. *)
Fixpoint file_entries (is_root : bool) (fs : list str) (entries : list str)
  : list str :=
  match fs with
  | [] => entries
  | f :: rest =>
      if str_eqb f index_name then file_entries is_root rest entries
      else if is_root && negb (endswith f zip_ext) then
        file_entries is_root rest entries
      else file_entries is_root rest (entries ++ [file_link f])
  end.

(** The files that get a link. *)
Definition listed (is_root : bool) (f : str) : bool :=
  negb (str_eqb f index_name)
  && negb (is_root && negb (endswith f zip_ext)).

(** The [entries] of one directory. *)
Definition index_entries (is_root : bool) (dirs files : list str)
  : list str :=
  let entries := [] in
  let entries := if is_root then entries
                 else dir_entries (sorted dirs) entries in
  file_entries is_root (sorted files) entries.

Definition index_html (is_root : bool) (dirs files : list str) : str :=
  let links := join [LF] (index_entries is_root dirs files) in
  py "<html><body>" ++ [LF] ++ links ++ [LF] ++ py "</body></html>" ++ [LF].

Section Visit.

(** What is done at a subdirectory. *)
Variable walk_dir : node -> result unit * node.

(** The subdirectories of a listing, one after the other, until one
    fails; regular files are passed by. *)
Fixpoint visit (l : listing) : result unit * listing :=
  match l with
  | [] => (Ok tt, [])
  | (name, child) :: l' =>
      match child with
      | File _ => let (r, l'') := visit l' in (r, (name, child) :: l'')
      | Dir _ =>
          match walk_dir child with
          | (Ok _, child') =>
              let (r, l'') := visit l' in (r, (name, child') :: l'')
          | (Raise e, child') => (Raise e, (name, child') :: l')
          end
      end
  end.

End Visit.

(** [os.walk], top down, with the loop body run at each directory: the
    page is written from the names found on arrival, then the
    subdirectories are visited in listing order.  [write_text] opens the
    page for writing, which creates or empties it, and then encodes the
    text: a directory called like the page stops the walk with the tree as
    it is, a text that cannot be encoded stops it with an empty page.  A
    failure further down leaves what was written so far.  Visiting
    rewrites subdirectories only, so the page, a regular file, is put in
    place on the way out. *)
Fixpoint walk (is_root : bool) (n : node) : result unit * node :=
  match n with
  | File f => (Ok tt, File f)
  | Dir es =>
      let html := index_html is_root (dirnames es) (filenames es) in
      match write_file index_name (text_file []) es with
      | Raise e => (Raise e, Dir es)
      | Ok opened =>
          match utf8_encode html with
          | None => (Raise UnicodeEncodeError, Dir opened)
          | Some page =>
              let (r, es') := visit (walk false) es in
              (r, Dir (put index_name (File (text_file page)) es'))
          end
      end
  end.


(** A tree in which every page can be written: no directory holds a
    directory called [index.html], and every name can be encoded. *)
Fixpoint indexable (n : node) : Prop :=
  match n with
  | File _ => True
  | Dir es =>
      (forall sub, lookup index_name es <> Some (Dir sub))
      /\ Forall encodable (List.map fst es)
      /\ (fix each (es : listing) : Prop :=
            match es with
            | [] => True
            | (_, child) :: es' => indexable child /\ each es'
            end) es
  end.

(** Names in ascending order. *)
Definition ascending (names : list str) : Prop :=
  StronglySorted (fun a b => str_leb a b = true) names.

(** [dirpath == root_dir] for the directory reached by [path]. *)
Definition root_at (is_root : bool) (path : list str) : bool :=
  match path with
  | [] => is_root
  | _ :: _ => false
  end.

(** ** The run: [main] *)

Record addon_entry : Type := {
  repo : str;
  addon_id : str;
  asset_pattern : str
}.

Record release : Type := { tagName : str }.

(** What [gh release view] does: it cannot be started, or it ends with a
    return code, the release that [json.loads] reads from its output
    ([None]: the output is no JSON), and its error output. *)
Inductive gh_view : Type :=
| ViewNotStarted
| ViewEnded (returncode : Z) (stdout : option release) (stderr : str).

(** What [gh release download] does: it cannot be started, or it ends with
    a return code, having written some files into the destination, each
    under its file name. *)
Inductive gh_download : Type :=
| DownloadNotStarted
| DownloadEnded (returncode : Z) (written : list (str * file)).

(** The directory [repository.dangerouslaser], when its [addon.xml]
    exists. *)
Record self_package : Type := {
  sp_addon_xml : bytes;
  sp_files : list (str * bytes);        (* the other files *)
  sp_root : option (option str * option str);
    (* [ET.parse]: the root's [id] and [version]; [None]: [ParseError] *)
  sp_zip_data : bytes                   (* the bytes [zipfile] writes *)
}.

(** Why a subscript fails on what [json.load] gave: a mapping has no such
    key ([KeyError]), or the value is no mapping ([TypeError]; this is
    also what a [for] over a value that cannot be iterated raises). *)
Inductive shape_error : Type := NoKey | WrongType.

Definition exn_of_shape_error (why : shape_error) : exn :=
  match why with
  | NoKey => KeyError
  | WrongType => TypeError
  end.

(** A value looked into by subscripts: what they give, or the failure of
    the first one that fails. *)
Inductive shaped (A : Type) : Type :=
| Shaped (a : A)
| Misshaped (why : shape_error).

Arguments Shaped {A} a.
Arguments Misshaped {A} why.

Definition subscript {A} (v : shaped A) : result A :=
  match v with
  | Shaped a => Ok a
  | Misshaped why => Raise (exn_of_shape_error why)
  end.

(** What [json.load] gave, as [main] looks into it: [config["addons"]]
    with its elements in order, and for each element the three subscripts
    [addon["repo"]], [addon["addon_id"]] and [addon["asset_pattern"]].
    The values under the three keys are taken to be strings. *)
Record config : Type := {
  addons : shaped (list (shaped addon_entry))
}.

(** The configuration of the documented shape with the given entries. *)
Definition documented (entries : list addon_entry) : config :=
  {| addons := Shaped (List.map Shaped entries) |}.

(** Everything the run reads from outside.  The model of [dist/] takes an
    identifier as the name of one entry of [dist/], which is what
    [OUTPUT_DIR / addon_id] is for a single path component
    ([is_component]); the theorems that depend on it say so. *)
Record environment : Type := {
  config_file : result config;               (* [load_config()] *)
  repo_addon : option self_package;
  gh_release_view : str -> gh_view;
  gh_release_download : str -> str -> str -> gh_download;
  output_dir : str                           (* [str(OUTPUT_DIR)] *)
}.

(** What the run changes: [dist/] and the standard output. *)
Record world : Type := {
  dist : option node;
  printed : list str
}.

Definition M (A : Type) : Type := world -> result A * world.

Definition ret {A} (a : A) : M A := fun w => (Ok a, w).

Definition raise {A} (e : exn) : M A := fun w => (Raise e, w).

Definition bind {A B} (m : M A) (k : A -> M B) : M B :=
  fun w =>
    match m w with
    | (Ok a, w') => k a w'
    | (Raise e, w') => (Raise e, w')
    end.

Definition lift {A} (r : result A) : M A := fun w => (r, w).

Declare Scope run_scope.
Delimit Scope run_scope with run.
Notation "x <- m ;; k" := (bind m (fun x => k))
  (at level 61, m at next level, right associativity) : run_scope.
Notation "m ;; k" := (bind m (fun _ => k))
  (at level 61, right associativity) : run_scope.
Local Open Scope run_scope.

Definition print (line : str) : M unit :=
  fun w => (Ok tt, {| dist := dist w; printed := printed w ++ [line] |}).

(** Run [f] on the listing of the directory [path] below [dist/].  The
    path is a list of entry names; a name the program joins to
    [OUTPUT_DIR] is used as one entry, which is what the join gives when
    [is_component] holds of the name. *)
Definition in_dir (path : list str) (f : listing -> result listing)
  : M unit :=
  fun w =>
    match dist w with
    | None => (Raise OSError, w)
    | Some root =>
        match update_at path f root with
        | Ok root' => (Ok tt, {| dist := Some root'; printed := printed w |})
        | Raise e => (Raise e, w)
        end
    end.

(** Open the regular file at [path] below [dist/]. *)
Definition open_file (path : list str) : M file :=
  fun w =>
    match dist w with
    | Some root =>
        match node_at path root with
        | Some (File f) => (Ok f, w)
        | _ => (Raise OSError, w)
        end
    | None => (Raise OSError, w)
    end.

Definition load_config (env : environment) : M config :=
  lift (config_file env).

Definition fetch_latest_release (env : environment) (repo : str)
  : result release :=
  match gh_release_view env repo with
  | ViewNotStarted => Raise OSError
  | ViewEnded returncode stdout stderr =>
      if (returncode =? 0)%Z then
        match stdout with
        | Some release => Ok release
        | None => Raise JSONDecodeError
        end
      else Raise (CalledProcessError stderr)
  end.

(** [p.rpartition(x)], when [x] occurs. *)
Fixpoint rpartition (x : char) (p : str) : option (str * str) :=
  match p with
  | [] => None
  | c :: p' =>
      match rpartition x p' with
      | Some (a, b) => Some (c :: a, b)
      | None => if c =? x then Some ([], p') else None
      end
  end.

(** [PurePath.suffix] of a file name. *)
Definition suffix (name : str) : str :=
  match rpartition DOT name with
  | Some (_ :: _, (_ :: _) as b) => DOT :: b
  | _ => []
  end.

Definition written_to (written : list (str * file)) (es : listing)
  : listing :=
  fold_left (fun es nf => put (fst nf) (File (snd nf)) es) written es.

(** [for f in dest_dir.iterdir(): if f.suffix == ".zip": return f] *)
Fixpoint first_zip (es : listing) : option str :=
  match es with
  | [] => None
  | (name, _) :: es' =>
      if str_eqb (suffix name) zip_ext then Some name else first_zip es'
  end.

Definition listing_of (path : list str) : M listing :=
  fun w =>
    match dist w with
    | Some root =>
        match node_at path root with
        | Some (Dir es) => (Ok es, w)
        | _ => (Raise OSError, w)
        end
    | None => (Raise OSError, w)
    end.

(** Returns the name of the archive in [dest_dir]. *)
Definition download_asset (env : environment) (repo tag pattern : str)
  (dest_dir : str) : M (option str) :=
  in_dir [] (mkdir dest_dir) ;;
  match gh_release_download env repo tag pattern with
  | DownloadNotStarted => raise OSError
  | DownloadEnded returncode written =>
      in_dir [dest_dir] (fun es => Ok (written_to written es)) ;;
      if negb (returncode =? 0)%Z then ret None
      else es <- listing_of [dest_dir] ;; ret (first_zip es)
  end.

(** [open(path, "w")]: the file is created, or emptied if it is there. *)
Definition open_w (path : list str) (name : str) : M unit :=
  in_dir path (write_file name (text_file [])).

(** [f.write(content)] on the file opened: the text is encoded, then
    written. *)
Definition write (path : list str) (name content : str) : M unit :=
  match utf8_encode content with
  | None => raise UnicodeEncodeError
  | Some bs => in_dir path (write_file name (text_file bs))
  end.

(** [path.write_text(content, "utf-8")] *)
Definition write_text (path : list str) (name content : str) : M unit :=
  open_w path name ;;
  write path name content.

(** [with open(str(zip_path) + ".md5", "w") as f: f.write(md5sum(zip_path))] *)
Definition write_md5 (dir zip_name : str) : M unit :=
  open_w [dir] (zip_name ++ py ".md5") ;;
  zip <- open_file [dir; zip_name] ;;
  write [dir] (zip_name ++ py ".md5") (md5sum (data zip)).

Fixpoint digits (d : Decimal.uint) : str :=
  match d with
  | Decimal.Nil => []
  | Decimal.D0 d => 0x30 :: digits d
  | Decimal.D1 d => 0x31 :: digits d
  | Decimal.D2 d => 0x32 :: digits d
  | Decimal.D3 d => 0x33 :: digits d
  | Decimal.D4 d => 0x34 :: digits d
  | Decimal.D5 d => 0x35 :: digits d
  | Decimal.D6 d => 0x36 :: digits d
  | Decimal.D7 d => 0x37 :: digits d
  | Decimal.D8 d => 0x38 :: digits d
  | Decimal.D9 d => 0x39 :: digits d
  end.

(** [str(n)] *)
Definition str_of_nat (n : nat) : str := digits (Nat.to_uint n).

Definition default (d : str) (o : option str) : str :=
  match o with
  | Some s => s
  | None => d
  end.

Definition self_id : str := py "repository.dangerouslaser".

(** The archive written for the repository add-on: every file of the
    directory, under [addon_id/]. *)
Definition self_zip (sp : self_package) (addon_id : str) : file :=
  {| data := sp_zip_data sp;
     as_zip :=
       Some (List.map (fun nb => (addon_id ++ py "/" ++ fst nb,
                                  Stored (snd nb)))
                      ((addon_xml_name, sp_addon_xml sp) :: sp_files sp)) |}.

(** What reading in text mode makes of the decoded text: [CR LF] and a
    lone [CR] become [LF]. *)
Fixpoint universal_newlines (s : str) : str :=
  match s with
  | [] => []
  | c :: s' =>
      if c =? CR then
        LF :: match s' with
              | d :: s'' =>
                  if d =? LF then universal_newlines s''
                  else universal_newlines s'
              | [] => []
              end
      else c :: universal_newlines s'
  end.

(** [path.read_text("utf-8")] of a file with the given bytes. *)
Definition read_text (content : bytes) : option str :=
  option_map universal_newlines (utf8_decode content).

(** The first block of [main]: the repository add-on itself. *)
Definition process_repo_addon (env : environment) (addon_xmls : list str)
  : M (list str) :=
  match repo_addon env with
  | None => ret addon_xmls
  | Some sp =>
      match sp_root sp with
      | None => raise ParseError
      | Some (id, version) =>
          let version := default (py "1.0.0") version in
          let addon_id := default self_id id in
          in_dir [] (mkdir addon_id) ;;
          let zip_name := addon_id ++ py "-" ++ version ++ zip_ext in
          let zip := self_zip sp addon_id in
          in_dir [addon_id] (write_file zip_name zip) ;;
          zip <- open_file [addon_id; zip_name] ;;
          in_dir [] (write_file zip_name zip) ;;
          match read_text (sp_addon_xml sp) with
          | None => raise UnicodeDecodeError
          | Some text =>
              let addon_xmls := addon_xmls ++ [text] in
              write_md5 addon_id zip_name ;;
              print (py "  [repo] " ++ addon_id ++ py " v" ++ version) ;;
              ret addon_xmls
          end
      end
  end.

(** The body of [for addon in config["addons"]]; every [continue] returns
    the list unchanged. *)
Definition process_addon (env : environment) (addon : addon_entry)
  (addon_xmls : list str) : M (list str) :=
  let repo := repo addon in
  let addon_id := addon_id addon in
  let pattern := asset_pattern addon in
  print (py "  Fetching latest release from " ++ repo ++ py "...") ;;
  match fetch_latest_release env repo with
  | Raise (CalledProcessError stderr) =>
      print (py "  WARNING: Could not fetch release for " ++ repo
             ++ py ": " ++ stderr) ;;
      ret addon_xmls
  | Raise e => raise e
  | Ok release =>
      let tag := tagName release in
      print (py "  Found " ++ tag) ;;
      zip_path <- download_asset env repo tag pattern addon_id ;;
      match zip_path with
      | None =>
          print (py "  WARNING: No zip found matching '" ++ pattern
                 ++ py "' in " ++ repo ++ py " " ++ tag) ;;
          ret addon_xmls
      | Some zip_name =>
          zip <- open_file [addon_id; zip_name] ;;
          xml_content <- lift (extract_addon_xml zip addon_id) ;;
          match xml_content with
          | None | Some [] =>
              print (py "  WARNING: No addon.xml found in " ++ zip_name) ;;
              ret addon_xmls
          | Some ((_ :: _) as xml_content) =>
              let addon_xmls := addon_xmls ++ [xml_content] in
              write_md5 addon_id zip_name ;;
              print (py "  " ++ addon_id ++ py " " ++ tag ++ py " -> "
                     ++ zip_name) ;;
              ret addon_xmls
          end
      end
  end.

(** [for addon in ...]: the three subscripts, then the body. *)
Fixpoint process_addons (env : environment)
  (addons : list (shaped addon_entry)) (addon_xmls : list str)
  : M (list str) :=
  match addons with
  | [] => ret addon_xmls
  | addon :: rest =>
      addon <- lift (subscript addon) ;;
      addon_xmls <- process_addon env addon addon_xmls ;;
      process_addons env rest addon_xmls
  end.

(** [if OUTPUT_DIR.exists(): shutil.rmtree(OUTPUT_DIR)] and
    [OUTPUT_DIR.mkdir(parents=True)] *)
Definition clean_output : M unit :=
  fun w =>
    match dist w with
    | Some (File _) => (Raise OSError, w)
    | _ => (Ok tt, {| dist := Some (Dir []); printed := printed w |})
    end.

Definition generate_index_pages : M unit :=
  fun w =>
    match dist w with
    | None => (Ok tt, w)
    | Some root =>
        let (r, root') := walk true root in
        (r, {| dist := Some root'; printed := printed w |})
    end.

(** The manifest the first block of [main] adds. *)
Definition own_manifest (env : environment) : list str :=
  match repo_addon env with
  | Some sp =>
      match read_text (sp_addon_xml sp) with
      | Some text => [text]
      | None => []
      end
  | None => []
  end.

(** The manifest the loop body adds for a project whose folder is new:
    the one of the first archive among the files downloaded; none when a
    step on the way gives nothing. *)
Definition manifest_of (env : environment) (addon : addon_entry)
  : list str :=
  match fetch_latest_release env (repo addon) with
  | Ok release =>
      match gh_release_download env (repo addon) (tagName release)
                                (asset_pattern addon) with
      | DownloadEnded returncode written =>
          let folder := written_to written [] in
          if negb (returncode =? 0)%Z then []
          else
            match first_zip folder with
            | Some zip_name =>
                match lookup zip_name folder with
                | Some (File zip) =>
                    match extract_addon_xml zip (addon_id addon) with
                    | Ok (Some ((_ :: _) as xml_content)) => [xml_content]
                    | _ => []
                    end
                | _ => []
                end
            | None => []
            end
      | DownloadNotStarted => []
      end
  | Raise _ => []
  end.

(** Everything of [main] up to the test of [addon_xmls]. *)
Definition collect (env : environment) : M (list str) :=
  config <- load_config env ;;
  clean_output ;;
  addon_xmls <- process_repo_addon env [] ;;
  addons <- lift (subscript (addons config)) ;;
  process_addons env addons addon_xmls.

(** Everything of [main] after the test of [addon_xmls]. *)
Definition publish (env : environment) (addon_xmls : list str) : M unit :=
  let addons_xml := generate_addons_xml addon_xmls in
  write_text [] (py "addons.xml") addons_xml ;;
  match md5_string addons_xml with
  | None => raise UnicodeEncodeError
  | Some digest =>
      write_text [] (py "addons.xml.md5") digest ;;
      generate_index_pages ;;
      print ([LF] ++ py "Repository generated in " ++ output_dir env
             ++ py "/") ;;
      print (py "  addons.xml (" ++ str_of_nat (List.length addon_xmls)
             ++ py " addons)") ;;
      print (py "  addons.xml.md5") ;;
      print (py "  index.html (directory listings)")
  end.

Definition main (env : environment) : M unit :=
  addon_xmls <- collect env ;;
  match addon_xmls with
  | [] =>
      print (py "ERROR: No addons found!") ;;
      raise (SystemExit 1)
  | _ :: _ => publish env addon_xmls
  end.

(** The exit status of the process for the way [main] ends: an exception
    that reaches the top level ends the interpreter with status 1. *)
Definition exit_status (r : result unit) : Z :=
  match r with
  | Ok _ => 0
  | Raise (SystemExit code) => code
  | Raise _ => 1
  end.


(** An exception other than [SystemExit]. *)
Definition plain (e : exn) : Prop := forall code, e <> SystemExit code.

(** A step that raises no [SystemExit]. *)
Definition no_exit {A} (m : M A) : Prop :=
  forall w e w', m w = (Raise e, w') -> plain e.

Definition plain_result {A} (r : result A) : Prop :=
  forall e, r = Raise e -> plain e.

(** ** Inputs for worked examples *)

(** ASCII text as bytes. *)
Definition ascii_bytes (s : string) : bytes :=
  List.map (fun a => byte_of_N (N_of_ascii a)) (list_ascii_of_string s).

(** An archive with the given members, all readable. *)
Definition zip_of (members : list (str * bytes)) : ZipFile :=
  List.map (fun m => (fst m, Stored (snd m))) members.

(** A file that holds an archive; its bytes stand for the packed form. *)
Definition zip_file (packed : bytes) (members : list (str * bytes)) : file :=
  {| data := packed; as_zip := Some (zip_of members) |}.

Definition plugin_zip : file :=
  zip_file (ascii_bytes "PK-plugin")
    [(py "README.md", ascii_bytes "read me");
     (py "plugin.x/icon.png", ascii_bytes "png");
     (py "plugin.x/addon.xml", ascii_bytes "<addon id='plugin.x'/>");
     (py "addon.xml", ascii_bytes "<addon id='other'/>")].

Definition bare_zip : file :=
  zip_file (ascii_bytes "PK-bare")
    [(py "README.md", ascii_bytes "read me");
     (py "other/addon.xml", ascii_bytes "<addon id='other'/>")].

Definition example_tree : node :=
  Dir [(py "addons.xml", File (text_file (ascii_bytes "<addons/>")));
       (py "repository.x-1.0.0.zip", File bare_zip);
       (py "plugin.x",
        Dir [(py "plugin.x-2.1.zip", File plugin_zip);
             (py "plugin.x-2.1.zip.md5",
              File (text_file (ascii_bytes "0f343b0931126a20f133d67c2b018a3b")));
             (py "index.html", File (text_file (ascii_bytes "old")))])].


(** The names the repository add-on is published under at the root of
    [dist/]: its folder and the copy of its archive. *)
Definition self_names (env : environment) : list str :=
  match repo_addon env with
  | Some sp =>
      match sp_root sp with
      | Some (id, version) =>
          let addon_id := default self_id id in
          [addon_id;
           addon_id ++ py "-" ++ default (py "1.0.0") version ++ zip_ext]
      | None => []
      end
  | None => []
  end.

(** A step that ends without exception keeps [dist/] a directory, only
    adds to the output, and leaves every entry of the root alone but the
    ones called as in [names]. *)
Definition touches {A} (names : list str) (m : M A) : Prop :=
  forall w a w' es,
    m w = (Ok a, w') ->
    dist w = Some (Dir es) ->
    exists es' more,
      dist w' = Some (Dir es')
      /\ printed w' = printed w ++ more
      /\ forall x, ~ In x names -> lookup x es' = lookup x es.

(** A step that ends without exception keeps [dist/] a directory and
    leaves every regular file at its top as it is. *)
Definition keeps_files {A} (m : M A) : Prop :=
  forall w a w' es,
    m w = (Ok a, w') ->
    dist w = Some (Dir es) ->
    exists es',
      dist w' = Some (Dir es')
      /\ forall x f, lookup x es = Some (File f) ->
                     lookup x es' = Some (File f).

Definition plugin_x : addon_entry :=
  {| repo := py "someone/plugin.x";
     addon_id := py "plugin.x";
     asset_pattern := py "plugin.x-*.zip" |}.

Definition plugin_y : addon_entry :=
  {| repo := py "someone/plugin.y";
     addon_id := py "plugin.y";
     asset_pattern := py "plugin.y-*.zip" |}.

Definition own_addon : self_package :=
  {| sp_addon_xml :=
       ascii_bytes "<addon id='repository.x' version='1.0.0'/>";
     sp_files := [(py "icon.png", ascii_bytes "png")];
     sp_root := Some (Some (py "repository.x"), Some (py "1.0.0"));
     sp_zip_data := ascii_bytes "PK-own" |}.

(** A file called like an archive that is none. *)
Definition broken_zip : file :=
  {| data := ascii_bytes "<html>rate limit</html>"; as_zip := None |}.

(** An empty [dist/] is all there is before the run. *)
Definition fresh : world := {| dist := None; printed := [] |}.

(** A tree of an earlier run is there before the run. *)
Definition published : world :=
  {| dist := Some example_tree; printed := [] |}.

(** The configuration does not load. *)
Definition env_bad_config : environment :=
  {| config_file := Raise JSONDecodeError;
     repo_addon := Some own_addon;
     gh_release_view := fun _ => ViewNotStarted;
     gh_release_download := fun _ _ _ => DownloadNotStarted;
     output_dir := py "/srv/repo/dist" |}.

(** The configuration loads, but is the JSON object [{}]. *)
Definition env_no_addons_key : environment :=
  {| config_file := Ok {| addons := Misshaped NoKey |};
     repo_addon := Some own_addon;
     gh_release_view := fun _ => ViewNotStarted;
     gh_release_download := fun _ _ _ => DownloadNotStarted;
     output_dir := py "/srv/repo/dist" |}.

(** Nothing is configured and the repository add-on is missing. *)
Definition env_nothing : environment :=
  {| config_file := Ok (documented []);
     repo_addon := None;
     gh_release_view := fun _ => ViewNotStarted;
     gh_release_download := fun _ _ _ => DownloadNotStarted;
     output_dir := py "/srv/repo/dist" |}.

(** The repository add-on is there; [plugin.x] has no release. *)
Definition env_no_release : environment :=
  {| config_file := Ok (documented [plugin_x]);
     repo_addon := Some own_addon;
     gh_release_view :=
       fun _ => ViewEnded 1 None (py "release not found");
     gh_release_download := fun _ _ _ => DownloadNotStarted;
     output_dir := py "/srv/repo/dist" |}.

(** The repository add-on is there; the asset of [plugin.x] is no
    archive. *)
Definition env_broken_zip : environment :=
  {| config_file := Ok (documented [plugin_x]);
     repo_addon := Some own_addon;
     gh_release_view :=
       fun _ => ViewEnded 0 (Some {| tagName := py "v2.1" |}) [];
     gh_release_download :=
       fun _ _ _ => DownloadEnded 0 [(py "plugin.x-2.1.zip", broken_zip)];
     output_dir := py "/srv/repo/dist" |}.



(** The archive of [plugin.x] has no manifest where it is looked for;
    [plugin.y] is fine.  With [others] set to [false], [plugin.x] is all
    there is. *)
Definition env_no_manifest (others : bool) : environment :=
  {| config_file :=
       Ok (documented (if others then [plugin_x; plugin_y] else [plugin_x]));
     repo_addon := None;
     gh_release_view :=
       fun _ => ViewEnded 0 (Some {| tagName := py "v2.1" |}) [];
     gh_release_download :=
       fun repo _ _ =>
         if str_eqb repo (py "someone/plugin.x") then
           DownloadEnded 0 [(py "plugin.x-2.1.zip", bare_zip)]
         else
           DownloadEnded 0
             [(py "plugin.y-2.1.zip",
               zip_file (ascii_bytes "PK-y")
                 [(py "plugin.y/addon.xml",
                   ascii_bytes "<addon id='plugin.y'/>")])];
     output_dir := py "/srv/repo/dist" |}.

(** * Theorems *)

(** ** The library functions on small inputs *)

Example strip_blanks :
  strip ([0x20; 0x09] ++ py "<a>" ++ [LF; 0x20]) = py "<a>"
  /\ strip (py " x" ++ [0xa0]) = py "x".
Proof. split; reflexivity. Qed.

Example splitlines_boundaries :
  splitlines (py "a" ++ [CR; LF] ++ py "b" ++ [LF; LF] ++ py "c" ++ [LF])
  = [py "a"; py "b"; []; py "c"]
  /\ splitlines [] = []
  /\ splitlines [LF; CR] = [[]; []].
Proof. repeat split; reflexivity. Qed.

Example dirname_basename :
  (dirname (py "x//addon.xml"), basename (py "x//addon.xml"))
  = (py "x", py "addon.xml")
  /\ (dirname (py "/addon.xml"), basename (py "/addon.xml"))
     = (py "/", py "addon.xml")
  /\ (dirname (py "addon.xml"), basename (py "x/")) = ([], []).
Proof. repeat split; reflexivity. Qed.

Example is_addon_xml_paths :
  List.map (is_addon_xml (py "plugin.x"))
           [py "addon.xml"; py "plugin.x/addon.xml"; py "plugin.x//addon.xml";
            py "/addon.xml"; py "other/addon.xml";
            py "plugin.x/sub/addon.xml"; py "plugin.x/addon.xml.bak"]
  = [true; true; true; true; false; false; false].
Proof. reflexivity. Qed.

Example suffix_of_names :
  List.map suffix [py "a.zip"; py ".zip"; py "..zip"; py "a.zip.md5";
                   py "a."; py "zip"]
  = [py ".zip"; []; py ".zip"; py ".md5"; []; []].
Proof. reflexivity. Qed.

Example sorted_names :
  sorted [py "b.zip"; py "a.zip.md5"; py "a.zip"; py "Z"; py "index.html"]
  = [py "Z"; py "a.zip"; py "a.zip.md5"; py "b.zip"; py "index.html"].
Proof. reflexivity. Qed.

Example utf8_of_text :
  utf8_encode [0x20ac; 0x1f600; 0xe9; 0x41]
  = Some [xe2; x82; xac; xf0; x9f; x98; x80; xc3; xa9; x41]
  /\ utf8_decode [xe2; x82; xac; xf0; x9f; x98; x80; xc3; xa9; x41]
     = Some [0x20ac; 0x1f600; 0xe9; 0x41]
  /\ utf8_encode [0xd800] = None
  /\ utf8_decode [xc0; x80] = None.
Proof. repeat split; reflexivity. Qed.

Example md5_test_vectors :
  md5_string [] = Some (py "d41d8cd98f00b204e9800998ecf8427e")
  /\ md5_string (py "message digest")
     = Some (py "f96b697d7cb7938d525a2f31aaf161d0")
  /\ md5sum (repeat x78 (N.to_nat 8200))
     = py "604fb217d2e10e1abbc0f5567c5f9785".
Proof. split; [|split]; vm_compute; reflexivity. Qed.

(** ** Strings *)

Lemma str_eqb_eq (a b : str) : str_eqb a b = true <-> a = b.
Proof.
  revert b. induction a as [|x a IH]; intros [|y b]; simpl;
    try (split; intros; (reflexivity || discriminate)).
  rewrite andb_true_iff, N.eqb_eq, IH. split.
  - intros [-> ->]. reflexivity.
  - intros H. injection H as -> ->. split; reflexivity.
Qed.

Lemma str_eqb_refl (a : str) : str_eqb a a = true.
Proof. apply str_eqb_eq. reflexivity. Qed.

Lemma str_eqb_neq (a b : str) : str_eqb a b = false <-> a <> b.
Proof.
  rewrite <- str_eqb_eq. destruct (str_eqb a b); split; congruence.
Qed.

Lemma join_cons (sep p : str) (ps : list str) :
  ps <> [] -> join sep (p :: ps) = p ++ sep ++ join sep ps.
Proof. destruct ps; [congruence | reflexivity]. Qed.

Lemma join_snoc (sep : str) (ps : list str) (p : str) :
  ps <> [] -> join sep (ps ++ [p]) = join sep ps ++ sep ++ p.
Proof.
  induction ps as [|q ps IH]; [congruence | intros _].
  destruct ps as [|r ps].
  - reflexivity.
  - change ((q :: r :: ps) ++ [p]) with (q :: (r :: ps) ++ [p]).
    rewrite join_cons by (destruct ps; discriminate).
    rewrite IH by discriminate.
    rewrite (join_cons sep q (r :: ps)) by discriminate.
    rewrite <- !app_assoc. reflexivity.
Qed.

(** ** The manifest merger *)

Lemma filter_lines_filter (lines filtered : list str) :
  filter_lines lines filtered = filtered ++ filter keep_line lines.
Proof.
  revert filtered. induction lines as [|l lines IH]; intros filtered; simpl.
  - rewrite app_nil_r. reflexivity.
  - unfold keep_line at 1. destruct (startswith (strip l) xml_marker); simpl.
    + apply IH.
    + rewrite IH, <- app_assoc. reflexivity.
Qed.

Lemma merge_loop_map (addon_xmls parts : list str) :
  merge_loop addon_xmls parts = parts ++ List.map merge_block addon_xmls.
Proof.
  revert parts. induction addon_xmls as [|x xs IH]; intros parts; simpl.
  - rewrite app_nil_r. reflexivity.
  - rewrite IH, filter_lines_filter, <- app_assoc. reflexivity.
Qed.

Lemma join_blocks (first : str) (blocks : list str) (last : str) :
  join [LF] (first :: blocks ++ [last])
  = first ++ [LF] ++ flat_map (fun b => b ++ [LF]) blocks ++ last.
Proof.
  revert first. induction blocks as [|b blocks IH]; intros first.
  - reflexivity.
  - change (first :: (b :: blocks) ++ [last])
      with (first :: (b :: blocks ++ [last])).
    rewrite join_cons by discriminate. rewrite IH. simpl.
    rewrite <- !app_assoc. reflexivity.
Qed.

Lemma generate_addons_xml_blocks (addon_xmls : list str) :
  generate_addons_xml addon_xmls
  = addons_open ++ [LF]
    ++ flat_map (fun b => b ++ [LF]) (List.map merge_block addon_xmls)
    ++ addons_close.
Proof.
  unfold generate_addons_xml. rewrite merge_loop_map.
  change ([addons_open] ++ List.map merge_block addon_xmls)
    with (addons_open :: List.map merge_block addon_xmls).
  change ((addons_open :: List.map merge_block addon_xmls) ++ [addons_close])
    with (addons_open :: List.map merge_block addon_xmls ++ [addons_close]).
  apply join_blocks.
Qed.

(** C1, as the code has it: the output is the fixed declaration and
    opening tag, then, each on a new line, the part of every manifest in
    input order: the manifest trimmed, split into lines, the lines whose
    trimmed text starts with the declaration marker dropped and the rest
    joined by newlines; a single newline (no blank line) separates
    neighbouring parts, and the closing tag and a newline end the
    document. *)
Theorem generate_addons_xml_layout (addon_xmls : list str) :
  generate_addons_xml addon_xmls
  = addons_open ++ [LF]
    ++ flat_map
         (fun xml_content =>
            join [LF] (filter (fun line =>
                                 negb (startswith (strip line) xml_marker))
                              (splitlines (strip xml_content)))
            ++ [LF])
         addon_xmls
    ++ addons_close.
Proof.
  rewrite generate_addons_xml_blocks.
  assert (E : forall l,
             flat_map (fun b => b ++ [LF]) (List.map merge_block l)
             = flat_map (fun x => merge_block x ++ [LF]) l).
  { induction l as [|x xs IH]; simpl; [reflexivity|].
    rewrite IH. reflexivity. }
  rewrite E. reflexivity.
Qed.

(** C1 as stated fails: two manifests end up on neighbouring lines, no
    blank line between them, and the first one's leading blank is gone. *)
Lemma generate_addons_xml_no_blank_line :
  let out := generate_addons_xml [py " <a/>"; py "<b/>"] in
  out = addons_open ++ [LF] ++ py "<a/>" ++ [LF] ++ py "<b/>" ++ [LF]
        ++ addons_close
  /\ out <> spec_generate_addons_xml [py " <a/>"; py "<b/>"]
  /\ ~ In [] (splitlines out).
Proof.
  split; [reflexivity|]. split.
  - intros H. apply str_eqb_eq in H. vm_compute in H. discriminate.
  - intros H.
    assert (E : existsb (fun l => str_eqb l [])
                  (splitlines (generate_addons_xml [py " <a/>"; py "<b/>"]))
                = true).
    { apply existsb_exists. exists []. split; [exact H | reflexivity]. }
    vm_compute in E. discriminate.
Qed.

Lemma lstrip_head (s : str) :
  match lstrip s with
  | [] => True
  | c :: _ => is_space c = false
  end.
Proof.
  induction s as [|c s IH]; simpl; [exact I|].
  destruct (is_space c) eqn:E; [exact IH | exact E].
Qed.

Lemma rstrip_last (s : str) :
  rstrip s = [] \/ is_space (last (rstrip s) 0) = false.
Proof.
  unfold rstrip. pose proof (lstrip_head (rev s)) as H.
  destruct (lstrip (rev s)) as [|c t]; [left; reflexivity | right].
  simpl rev. rewrite last_last. exact H.
Qed.

Lemma splitlines_nil (s : str) : splitlines s = [] -> s = [].
Proof.
  destruct s as [|c s]; [reflexivity | simpl].
  destruct (is_linebreak c); [discriminate|].
  destruct (splitlines s); discriminate.
Qed.

Lemma join_splitlines (s : str) :
  lf_only s = true ->
  join [LF] (splitlines s) ++ (if last s 0 =? LF then [LF] else []) = s.
Proof.
  induction s as [|c s IH]; [reflexivity|].
  unfold lf_only. cbn [forallb]. rewrite andb_true_iff. intros [Hc Hs].
  specialize (IH Hs). cbn [splitlines].
  destruct (is_linebreak c) eqn:Hlb.
  - simpl in Hc. apply N.eqb_eq in Hc. subst c.
    destruct s as [|d s]; [reflexivity|].
    change ((LF =? CR) && (d =? LF)) with false. cbv iota.
    change (last (LF :: d :: s) 0) with (last (d :: s) 0).
    rewrite join_cons.
    + cbn [app]. f_equal. exact IH.
    + intros E. apply splitlines_nil in E. discriminate.
  - assert (Hne : (c =? LF) = false).
    { destruct (c =? LF) eqn:E; [|reflexivity].
      apply N.eqb_eq in E. subst c. discriminate. }
    destruct s as [|d s].
    + simpl. rewrite Hne. reflexivity.
    + change (last (c :: d :: s) 0) with (last (d :: s) 0).
      destruct (splitlines (d :: s)) as [|l ls] eqn:E.
      * apply splitlines_nil in E. discriminate.
      * destruct ls as [|l' ls]; cbn [join app] in *; f_equal; exact IH.
Qed.

Lemma filter_all_kept (lines : list str) :
  existsb (fun line => startswith (strip line) xml_marker) lines = false ->
  filter keep_line lines = lines.
Proof.
  induction lines as [|l lines IH]; [reflexivity|].
  cbn [existsb filter]. rewrite orb_false_iff. intros [Hl Hr].
  unfold keep_line at 1. rewrite Hl. cbn. f_equal. exact (IH Hr).
Qed.

Lemma merge_block_id (fragment : str) :
  has_declaration_line fragment = false ->
  strip fragment = fragment ->
  lf_only fragment = true ->
  merge_block fragment = fragment.
Proof.
  intros Hdecl Hstrip Hlf. unfold merge_block. rewrite Hstrip.
  rewrite (filter_all_kept _ Hdecl).
  pose proof (join_splitlines fragment Hlf) as J.
  assert (Hlast : (last fragment 0 =? LF) = false).
  { unfold strip in Hstrip.
    destruct (rstrip_last (lstrip fragment)) as [E|E];
      rewrite Hstrip in E.
    - subst fragment. reflexivity.
    - destruct (last fragment 0 =? LF) eqn:L; [|reflexivity].
      apply N.eqb_eq in L. rewrite L in E. discriminate. }
  rewrite Hlast, app_nil_r in J. exact J.
Qed.

Lemma str_pair_ind (P : str -> Prop) :
  P [] ->
  (forall c s, P s -> P (tl s) -> P (c :: s)) ->
  forall s, P s.
Proof.
  intros H0 Hstep s.
  assert (H : P s /\ P (tl s)).
  { induction s as [|c s [IH1 IH2]]; [split; exact H0|].
    split; [apply Hstep; assumption | exact IH1]. }
  exact (proj1 H).
Qed.

Lemma linebreak_is_space (c : char) :
  is_linebreak c = true -> is_space c = true.
Proof.
  unfold is_linebreak, is_space. intros H.
  rewrite !orb_true_iff, !andb_true_iff, !N.leb_le, !N.eqb_eq in *. lia.
Qed.

(** A newline after a text that does not end in a line boundary opens no
    further line. *)
Lemma splitlines_final_newline (s : str) :
  s <> [] -> is_linebreak (last s 0) = false ->
  splitlines (s ++ [LF]) = splitlines s.
Proof.
  induction s as [|c s IH IHtl] using str_pair_ind; [congruence|].
  intros _ Hlast. destruct s as [|d s].
  - cbn [last] in Hlast. cbn [app splitlines]. rewrite Hlast. reflexivity.
  - change (last (c :: d :: s) 0) with (last (d :: s) 0) in Hlast.
    specialize (IH ltac:(discriminate) Hlast). cbn [tl] in IHtl.
    change ((c :: d :: s) ++ [LF]) with (c :: d :: (s ++ [LF])).
    change ((d :: s) ++ [LF]) with (d :: (s ++ [LF])) in IH.
    cbn [splitlines]. cbn [splitlines] in IH.
    destruct (is_linebreak c).
    + destruct ((c =? CR) && (d =? LF)) eqn:E.
      * f_equal. apply andb_true_iff in E. destruct E as [_ E].
        apply N.eqb_eq in E. subst d. destruct s as [|e s].
        { cbn [last] in Hlast. discriminate. }
        apply IHtl; [discriminate | exact Hlast].
      * f_equal. exact IH.
    + rewrite IH. reflexivity.
Qed.

Lemma splitlines_leading_newline (s : str) :
  splitlines (LF :: s) = [] :: splitlines s.
Proof. destruct s; reflexivity. Qed.

Lemma lstrip_suffix (s : str) : exists u, s = u ++ lstrip s.
Proof.
  induction s as [|c s (u & E)]; [exists []; reflexivity|].
  cbn [lstrip]. destruct (is_space c).
  - exists (c :: u). cbn [app]. f_equal. exact E.
  - exists []. reflexivity.
Qed.

Lemma rstrip_prefix (s : str) : exists u, s = rstrip s ++ u.
Proof.
  unfold rstrip. destruct (lstrip_suffix (rev s)) as (u & E).
  exists (rev u). rewrite <- rev_app_distr, <- E, rev_involutive.
  reflexivity.
Qed.

(** A text that [strip] leaves alone is empty, or begins and ends with a
    character that is no blank. *)
Lemma strip_fixed (s : str) :
  strip s = s ->
  s = []
  \/ (exists c r, s = c :: r /\ is_space c = false)
     /\ (exists r c, s = r ++ [c] /\ is_space c = false).
Proof.
  intros H. destruct s as [|c0 r0]; [left; reflexivity | right].
  unfold strip in H. split.
  - destruct (rstrip_prefix (lstrip (c0 :: r0))) as (u & E).
    rewrite H in E. pose proof (lstrip_head (c0 :: r0)) as Hh.
    rewrite E in Hh. cbn [app] in Hh. exists c0, r0. auto.
  - pose proof (rstrip_last (lstrip (c0 :: r0))) as [E|E];
      rewrite H in E; [discriminate|].
    exists (removelast (c0 :: r0)), (last (c0 :: r0) 0).
    split; [apply app_removelast_last; discriminate | exact E].
Qed.

Lemma rstrip_snoc (r : str) (c : char) :
  is_space c = false -> rstrip (r ++ [c]) = r ++ [c].
Proof.
  intros H. unfold rstrip. rewrite rev_app_distr. cbn [rev app lstrip].
  rewrite H. cbn [rev]. rewrite rev_involutive. reflexivity.
Qed.

Lemma rstrip_newline (s : str) : rstrip (s ++ [LF]) = rstrip s.
Proof. unfold rstrip. rewrite rev_app_distr. reflexivity. Qed.

(** Trimming takes a newline at either end away and nothing else, for a
    text that is trimmed apart from them. *)
Lemma strip_margins (lead core trail : str) :
  lead = [] \/ lead = [LF] -> trail = [] \/ trail = [LF] ->
  strip core = core ->
  strip (lead ++ core ++ trail) = core.
Proof.
  intros Hl Ht Hc.
  assert (L : lstrip (lead ++ core ++ trail) = lstrip (core ++ trail)).
  { destruct Hl as [-> | ->]; reflexivity. }
  unfold strip. rewrite L.
  destruct (strip_fixed core Hc) as [-> | [(c & r & E & Hs) (r' & c' & E' & Hs')]].
  - destruct Ht as [-> | ->]; reflexivity.
  - assert (L' : lstrip (core ++ trail) = core ++ trail).
    { rewrite E. cbn [app lstrip]. rewrite Hs. reflexivity. }
    rewrite L'. destruct Ht as [-> | ->].
    + rewrite app_nil_r, E'. apply rstrip_snoc. exact Hs'.
    + rewrite rstrip_newline, E'. apply rstrip_snoc. exact Hs'.
Qed.

Lemma existsb_incl {A} (p : A -> bool) (l l' : list A) :
  incl l l' -> existsb p l' = false -> existsb p l = false.
Proof.
  intros Hi H. destruct (existsb p l) eqn:E; [|reflexivity].
  apply existsb_exists in E. destruct E as (x & Hx & Hp).
  assert (T : existsb p l' = true)
    by (apply existsb_exists; exists x; auto).
  congruence.
Qed.

(** Newlines around a trimmed text add no declaration line. *)
Lemma has_declaration_line_margins (lead core trail : str) :
  lead = [] \/ lead = [LF] -> trail = [] \/ trail = [LF] ->
  strip core = core ->
  has_declaration_line (lead ++ core ++ trail) = false ->
  has_declaration_line core = false.
Proof.
  intros Hl Ht Hc. unfold has_declaration_line. apply existsb_incl.
  destruct (strip_fixed core Hc) as [-> | [_ (r & c & E & Hs)]].
  { intros x []. }
  assert (T : splitlines (core ++ trail) = splitlines core).
  { destruct Ht as [-> | ->]; [rewrite app_nil_r; reflexivity|].
    apply splitlines_final_newline.
    - rewrite E. destruct r; discriminate.
    - rewrite E, last_last.
      destruct (is_linebreak c) eqn:B; [|reflexivity].
      apply linebreak_is_space in B. congruence. }
  destruct Hl as [-> | ->]; cbn [app].
  - rewrite T. apply incl_refl.
  - rewrite splitlines_leading_newline, T. apply incl_tl, incl_refl.
Qed.

Lemma blocks_end_in_newline (blocks : list str) :
  exists P,
    addons_open ++ [LF] ++ flat_map (fun x => merge_block x ++ [LF]) blocks
    = P ++ [LF].
Proof.
  destruct blocks as [|b blocks] using rev_ind.
  - exists addons_open. reflexivity.
  - exists (addons_open ++ [LF]
            ++ flat_map (fun x => merge_block x ++ [LF]) blocks
            ++ merge_block b).
    rewrite flat_map_app. cbn [flat_map]. rewrite app_nil_r, <- !app_assoc.
    reflexivity.
Qed.

(** C5, as the code has it: a manifest without declaration line that has
    only newlines as line boundaries and no blank at either end, apart
    from at most one newline there, is in the merged document unchanged;
    a newline at its start is the one that ends the part before it, a
    newline at its end the one that ends its own part. *)
Theorem merge_keeps_plain_fragment (before after : list str)
  (lead core trail : str) :
  let fragment := lead ++ core ++ trail in
  lead = [] \/ lead = [LF] ->
  trail = [] \/ trail = [LF] ->
  strip core = core ->
  has_declaration_line fragment = false ->
  lf_only fragment = true ->
  merge_block fragment = core
  /\ exists P S,
       generate_addons_xml (before ++ fragment :: after)
       = P ++ fragment ++ S
       /\ P ++ lead
          = addons_open ++ [LF]
            ++ flat_map (fun x => merge_block x ++ [LF]) before
       /\ trail ++ S
          = [LF] ++ flat_map (fun x => merge_block x ++ [LF]) after
            ++ addons_close.
Proof.
  intros fragment Hl Ht Hc Hdecl Hlf.
  assert (Hlfc : lf_only core = true).
  { unfold lf_only, fragment in *. rewrite !forallb_app in Hlf.
    apply andb_true_iff in Hlf. destruct Hlf as [_ Hlf].
    apply andb_true_iff in Hlf. apply Hlf. }
  pose proof (has_declaration_line_margins lead core trail Hl Ht Hc Hdecl)
    as Hdc.
  assert (E : merge_block fragment = core).
  { unfold merge_block, fragment. rewrite (strip_margins _ _ _ Hl Ht Hc).
    pose proof (merge_block_id core Hdc Hc Hlfc) as M.
    unfold merge_block in M. rewrite Hc in M. exact M. }
  split; [exact E|].
  assert (G : generate_addons_xml (before ++ fragment :: after)
              = (addons_open ++ [LF]
                 ++ flat_map (fun x => merge_block x ++ [LF]) before)
                ++ core ++ [LF]
                ++ flat_map (fun x => merge_block x ++ [LF]) after
                ++ addons_close).
  { rewrite generate_addons_xml_blocks, map_app, flat_map_app.
    cbn [List.map flat_map]. rewrite E, <- !app_assoc.
    assert (F : forall l,
               flat_map (fun b => b ++ [LF]) (List.map merge_block l)
               = flat_map (fun x => merge_block x ++ [LF]) l).
    { induction l as [|x xs IH]; simpl; [reflexivity|].
      rewrite IH. reflexivity. }
    rewrite !F. reflexivity. }
  destruct (blocks_end_in_newline before) as (P0 & EP).
  rewrite G. unfold fragment.
  set (Pre := addons_open ++ [LF]
              ++ flat_map (fun x => merge_block x ++ [LF]) before) in *.
  set (Post := flat_map (fun x => merge_block x ++ [LF]) after
               ++ addons_close).
  destruct Hl as [-> | ->], Ht as [-> | ->].
  - exists Pre, ([LF] ++ Post). rewrite !app_nil_r. repeat split.
  - exists Pre, Post. rewrite app_nil_r, <- !app_assoc. repeat split.
  - exists P0, ([LF] ++ Post). rewrite EP, app_nil_r, <- !app_assoc.
    repeat split.
  - exists P0, Post. rewrite EP, <- !app_assoc. repeat split.
Qed.

Lemma merge_keeps_plain_fragment_witness :
  exists P S,
    generate_addons_xml
      [py "<x/>"; [] ++ (py "<addon id='a'>" ++ [LF] ++ py "</addon>") ++ [LF]]
    = P ++ ([] ++ (py "<addon id='a'>" ++ [LF] ++ py "</addon>") ++ [LF]) ++ S
    /\ P ++ []
       = addons_open ++ [LF]
         ++ flat_map (fun x => merge_block x ++ [LF]) [py "<x/>"]
    /\ [LF] ++ S = [LF] ++ flat_map (fun x => merge_block x ++ [LF]) []
                   ++ addons_close.
Proof.
  exact (proj2 (merge_keeps_plain_fragment
                  [py "<x/>"] [] []
                  (py "<addon id='a'>" ++ [LF] ++ py "</addon>") [LF]
                  (or_introl eq_refl) (or_intror eq_refl)
                  eq_refl eq_refl eq_refl)).
Defined.

(** C5 as stated fails: a manifest without declaration line whose lines
    end in CR LF does not occur in the output, its line ends come out as
    newlines; neither does one that begins with a blank, which is
    dropped, nor one that ends in two newlines, of which one is left. *)
Lemma merge_rewrites_crlf :
  let fragment := py "<a>" ++ [CR; LF] ++ py "</a>" in
  let padded := py " <a/>" in
  let doubled := py "<a/>" ++ [LF; LF] in
  has_declaration_line fragment = false
  /\ generate_addons_xml [fragment]
     = addons_open ++ [LF] ++ py "<a>" ++ [LF] ++ py "</a>" ++ [LF]
       ++ addons_close
  /\ contains (generate_addons_xml [fragment]) fragment = false
  /\ has_declaration_line padded = false
  /\ lf_only padded = true
  /\ contains (generate_addons_xml [padded]) padded = false
  /\ has_declaration_line doubled = false
  /\ lf_only doubled = true
  /\ contains (generate_addons_xml [doubled]) doubled = false.
Proof.
  repeat (split; [vm_compute; reflexivity|]). vm_compute. reflexivity.
Qed.

(** C6 as stated fails: for no manifest at all the merger returns a
    document, the declaration and an empty [addons] element. *)
Lemma generate_addons_xml_of_nothing :
  generate_addons_xml [] = addons_open ++ [LF] ++ py "</addons>" ++ [LF].
Proof. reflexivity. Qed.

(** ** The checksum engine *)

Lemma read_chunk_split (unread : bytes) :
  fst (read_chunk unread) ++ snd (read_chunk unread) = unread.
Proof. unfold read_chunk. cbn [fst snd]. apply firstn_skipn. Qed.

Lemma read_chunk_eof (unread : bytes) :
  fst (read_chunk unread) = [] -> unread = [].
Proof.
  unfold read_chunk. generalize CHUNK_pos. generalize CHUNK.
  cbn [fst]. intros n Hn H. destruct unread as [|b u]; [reflexivity|].
  destruct n as [|n]; [lia | discriminate].
Qed.

(** The loop feeds the hash object the whole file, chunk after chunk. *)
Lemma read_loop_fed (unread : bytes) (h : md5_hash) :
  fed (read_loop unread h) = fed h ++ unread.
Proof.
  funelim (read_loop unread h).
  - match goal with
    | E : fst (read_chunk ?u) = [] |- _ =>
        rewrite (read_chunk_eof u E), app_nil_r; reflexivity
    end.
  - match goal with
    | IH : fed (read_loop _ _) = _, E : fst (read_chunk _) = _ :: _ |- _ =>
        rewrite IH; cbn [md5_update fed]; rewrite <- app_assoc, <- E
    end.
    rewrite read_chunk_split. reflexivity.
Qed.

Lemma md5sum_one_shot (content : bytes) :
  md5sum content = md5_hexdigest (md5_update md5_new content).
Proof.
  unfold md5sum, md5_hexdigest. rewrite read_loop_fed. reflexivity.
Qed.

Lemma hex_digit_lower (n : N) : n < 16 -> is_lower_hex (hex_digit n) = true.
Proof.
  intros H. unfold hex_digit, is_lower_hex, between.
  destruct (N.ltb_spec n 10).
  - apply orb_true_iff. left. apply andb_true_iff.
    split; apply N.leb_le; lia.
  - apply orb_true_iff. right. apply andb_true_iff.
    split; apply N.leb_le; lia.
Qed.

Lemma hex_lower (content : bytes) : forallb is_lower_hex (hex content) = true.
Proof.
  induction content as [|b content IH]; [reflexivity|].
  unfold hex in *. cbn [flat_map hex_byte app forallb].
  pose proof (Byte.to_N_bounded b) as Hb.
  rewrite IH, !hex_digit_lower; [reflexivity | |].
  - apply N.mod_lt. discriminate.
  - apply N.Div0.div_lt_upper_bound. lia.
Qed.

(** C4: for every string that has a UTF-8 encoding, [md5_string] of it is
    [md5sum] of a file holding that encoding; both are the hexadecimal MD5
    digest of the bytes, in lower case, and equal bytes give equal
    digests, whichever of the two is called. *)
Theorem md5_string_md5sum (s s' : str) (content : bytes) :
  utf8_encode s = Some content ->
  utf8_encode s' = Some content ->
  md5_string s = Some (md5sum content)
  /\ md5_string s' = md5_string s
  /\ md5sum content = hex (MD5.digest content)
  /\ forallb is_lower_hex (md5sum content) = true.
Proof.
  intros E E'. unfold md5_string. rewrite E, E', md5sum_one_shot.
  repeat split. apply hex_lower.
Qed.

Lemma md5_string_md5sum_witness :
  md5_string (py "abc") = Some (md5sum [x61; x62; x63])
  /\ md5sum [x61; x62; x63] = py "900150983cd24fb0d6963f7d28e17f72".
Proof.
  split.
  - exact (proj1 (md5_string_md5sum (py "abc") (py "abc") [x61; x62; x63]
                    eq_refl eq_refl)).
  - vm_compute. reflexivity.
Defined.

(** ** The archive inspector *)

Lemma find_addon_xml_none (zf : ZipFile) (addon_id : str) (names : list str) :
  forallb (fun name => negb (is_addon_xml addon_id name)) names = true ->
  find_addon_xml zf addon_id names = Ok None.
Proof.
  induction names as [|n names IH]; [reflexivity|].
  cbn [forallb find_addon_xml]. rewrite andb_true_iff. intros [Hn Hr].
  destruct (is_addon_xml addon_id n); [discriminate | exact (IH Hr)].
Qed.

Lemma find_addon_xml_first (zf : ZipFile) (addon_id : str)
  (before : list str) (name : str) (after : list str) :
  forallb (fun name => negb (is_addon_xml addon_id name)) before = true ->
  is_addon_xml addon_id name = true ->
  find_addon_xml zf addon_id (before ++ name :: after)
  = match read zf name with
    | Ok content =>
        match utf8_decode content with
        | Some text => Ok (Some text)
        | None => Raise UnicodeDecodeError
        end
    | Raise e => Raise e
    end.
Proof.
  intros Hb Hn. induction before as [|n before IH].
  - cbn [app find_addon_xml]. rewrite Hn. reflexivity.
  - cbn [forallb] in Hb. apply andb_true_iff in Hb as [Hx Hb].
    cbn [app find_addon_xml].
    destruct (is_addon_xml addon_id n); [discriminate | exact (IH Hb)].
Qed.

Lemma getinfo_none (zf : ZipFile) (name : str) :
  ~ In name (namelist zf) -> getinfo zf name = None.
Proof.
  induction zf as [|[n p] zf IH]; [reflexivity|].
  cbn [namelist List.map fst In getinfo]. intros H.
  rewrite IH by (intros X; apply H; right; exact X).
  destruct (str_eqb n name) eqn:E; [|reflexivity].
  apply str_eqb_eq in E. exfalso. apply H. left. exact E.
Qed.

(** Reading under a name gives the last member of that name. *)
Lemma getinfo_last (front : ZipFile) (name : str) (p : payload)
  (back : ZipFile) :
  ~ In name (namelist back) ->
  getinfo (front ++ (name, p) :: back) name = Some p.
Proof.
  intros H. induction front as [|[n q] front IH].
  - cbn [app getinfo]. rewrite (getinfo_none back name H), str_eqb_refl.
    reflexivity.
  - cbn [app getinfo]. rewrite IH. reflexivity.
Qed.

(** C3, as the code has it: for a file that opens as an archive and an
    identifier, the inspector returns [None], raising nothing, when no
    name of the archive is [addon.xml] at the root or in the folder called
    like the identifier.  When there are such names, it reads the archive
    under the first of them in the order of [namelist()]; what is read is
    the last member of that name, and the outcome is its content decoded,
    [UnicodeDecodeError] when the content is not UTF-8, and the exception
    of [read] when the member cannot be read. *)
Theorem extract_addon_xml_first_match (zip : file) (zf : ZipFile)
  (addon_id : str) :
  as_zip zip = Some zf ->
  (forallb (fun name => negb (is_addon_xml addon_id name)) (namelist zf)
   = true ->
   extract_addon_xml zip addon_id = Ok None)
  /\ (forall before name after front p back,
        namelist zf = before ++ name :: after ->
        forallb (fun name => negb (is_addon_xml addon_id name)) before
        = true ->
        is_addon_xml addon_id name = true ->
        zf = front ++ (name, p) :: back ->
        ~ In name (namelist back) ->
        extract_addon_xml zip addon_id
        = match p with
          | Stored content =>
              match utf8_decode content with
              | Some text => Ok (Some text)
              | None => Raise UnicodeDecodeError
              end
          | Unreadable why => Raise (exn_of_read_error why)
          end).
Proof.
  intros Hzip. unfold extract_addon_xml. rewrite Hzip. split.
  - apply find_addon_xml_none.
  - intros before name after front p back Hnames Hb Hn Hzf Hlast.
    rewrite Hnames, (find_addon_xml_first zf addon_id before name after Hb Hn).
    unfold read. rewrite Hzf, (getinfo_last front name p back Hlast).
    destruct p; reflexivity.
Qed.

Lemma extract_addon_xml_first_match_witness :
  extract_addon_xml plugin_zip (py "plugin.x")
  = Ok (Some (py "<addon id='plugin.x'/>"))
  /\ extract_addon_xml bare_zip (py "plugin.x") = Ok None.
Proof.
  split.
  - refine (proj2 (extract_addon_xml_first_match plugin_zip _ (py "plugin.x")
                     eq_refl)
                  [py "README.md"; py "plugin.x/icon.png"]
                  (py "plugin.x/addon.xml") [py "addon.xml"]
                  (zip_of [(py "README.md", ascii_bytes "read me");
                           (py "plugin.x/icon.png", ascii_bytes "png")])
                  (Stored (ascii_bytes "<addon id='plugin.x'/>"))
                  (zip_of [(py "addon.xml", ascii_bytes "<addon id='other'/>")])
                  eq_refl eq_refl eq_refl eq_refl _).
    intros H. vm_compute in H. intuition discriminate.
  - exact (proj1 (extract_addon_xml_first_match bare_zip _ (py "plugin.x")
                    eq_refl) eq_refl).
Defined.

(** Where C3 is wrong: of two members of one name it is the last that is
    read, not the first; and the inspector raises when the first name that
    qualifies holds no UTF-8, also when a later one would do. *)
Lemma extract_addon_xml_reads_last_of_a_name :
  extract_addon_xml
    (zip_file (ascii_bytes "PK-twice")
       [(py "addon.xml", ascii_bytes "<addon id='a' version='1'/>");
        (py "icon.png", ascii_bytes "png");
        (py "addon.xml", ascii_bytes "<addon id='a' version='2'/>")])
    (py "a")
  = Ok (Some (py "<addon id='a' version='2'/>"))
  /\ extract_addon_xml
       (zip_file (ascii_bytes "PK-latin")
          [(py "addon.xml", [xe9]);
           (py "a/addon.xml", ascii_bytes "<addon id='a'/>")])
       (py "a")
     = Raise UnicodeDecodeError.
Proof. split; reflexivity. Qed.

(** ** Directory listings *)

Lemma In_insert_sorted (x y : str) (l : list str) :
  In y (insert_sorted x l) <-> y = x \/ In y l.
Proof.
  induction l as [|z l IH]; simpl.
  - intuition congruence.
  - destruct (str_leb x z); simpl; [intuition congruence|].
    rewrite IH. intuition congruence.
Qed.

Lemma In_sorted (y : str) (l : list str) : In y (sorted l) <-> In y l.
Proof.
  induction l as [|x l IH]; simpl; [reflexivity|].
  rewrite In_insert_sorted, IH. intuition congruence.
Qed.

Lemma dir_entries_map (ds entries : list str) :
  dir_entries ds entries = entries ++ List.map dir_link ds.
Proof.
  revert entries. induction ds as [|d ds IH]; intros entries; simpl.
  - rewrite app_nil_r. reflexivity.
  - rewrite IH, <- app_assoc. reflexivity.
Qed.

Lemma file_entries_map (is_root : bool) (fs entries : list str) :
  file_entries is_root fs entries
  = entries ++ List.map file_link (filter (listed is_root) fs).
Proof.
  revert entries. induction fs as [|f fs IH]; intros entries; simpl.
  - rewrite app_nil_r. reflexivity.
  - unfold listed at 1. destruct (str_eqb f index_name); simpl.
    + apply IH.
    + destruct (is_root && negb (endswith f zip_ext)); simpl.
      * apply IH.
      * rewrite IH, <- app_assoc. reflexivity.
Qed.

Lemma index_entries_links (is_root : bool) (dirs files : list str) :
  index_entries is_root dirs files
  = (if is_root then [] else List.map dir_link (sorted dirs))
    ++ List.map file_link (filter (listed is_root) (sorted files)).
Proof.
  unfold index_entries. rewrite file_entries_map.
  destruct is_root; [reflexivity|]. rewrite dir_entries_map. reflexivity.
Qed.

Lemma app_eq_length {A} (a b c d : list A) :
  a ++ b = c ++ d -> List.length a = List.length c -> a = c /\ b = d.
Proof.
  revert c. induction a as [|x a IH]; intros [|y c] H L;
    try discriminate L.
  - split; [reflexivity | exact H].
  - injection H as -> H. injection L as L.
    destruct (IH c H L) as [-> ->]. split; reflexivity.
Qed.

Lemma file_link_inj (f g : str) : file_link f = file_link g -> f = g.
Proof.
  unfold file_link. intros H.
  apply app_inv_head in H. apply app_inv_head in H.
  assert (L : List.length f = List.length g).
  { apply (f_equal (@List.length char)) in H.
    rewrite ?length_app in H. cbn [List.length] in H.
    rewrite ?length_app in H. lia. }
  exact (proj1 (app_eq_length _ _ _ _ H L)).
Qed.

Lemma dir_link_not_index (d : str) : dir_link d <> file_link index_name.
Proof.
  unfold dir_link, file_link. intros H.
  apply app_inv_head in H. apply app_inv_head in H.
  rewrite (app_assoc d (py "/")) in H.
  assert (L : List.length (d ++ py "/") = List.length index_name).
  { apply (f_equal (@List.length char)) in H.
    rewrite ?length_app in H. cbn [List.length] in H.
    rewrite ?length_app in H. cbn [List.length] in *.
    change (List.length (py "/")) with 1%nat in *.
    change (List.length (py "/</a>")) with 5%nat in H.
    change (List.length (py ">")) with 1%nat in H.
    change (List.length (py "</a>")) with 4%nat in H.
    rewrite length_app. change (List.length (py "/")) with 1%nat. lia. }
  destruct (app_eq_length _ _ _ _ H L) as [E _].
  apply (f_equal (@rev char)) in E. rewrite rev_app_distr in E.
  vm_compute in E. discriminate.
Qed.

(** What the entries of a listing link. *)
Lemma index_entries_spec (is_root : bool) (dirs files : list str) :
  let entries := index_entries is_root dirs files in
  (is_root = true ->
   forall e, In e entries ->
     exists f, In f files /\ endswith f zip_ext = true /\ e = file_link f)
  /\ (is_root = false ->
      forall f, In f files -> f <> index_name -> In (file_link f) entries)
  /\ ~ In (file_link index_name) entries.
Proof.
  cbv zeta. rewrite index_entries_links. repeat split.
  - intros -> e He. cbn [app] in He. apply in_map_iff in He as (f & <- & Hf).
    apply filter_In in Hf as [Hf Hl]. exists f.
    rewrite In_sorted in Hf. unfold listed in Hl.
    apply andb_true_iff in Hl as [_ Hz]. cbn [andb] in Hz.
    rewrite negb_involutive in Hz. repeat split; assumption.
  - intros -> f Hf Hne. apply in_or_app. right. apply in_map.
    apply filter_In. split; [rewrite In_sorted; exact Hf|].
    unfold listed. cbn [andb negb]. rewrite andb_true_r.
    apply negb_true_iff, str_eqb_neq. exact Hne.
  - intros H. apply in_app_or in H as [H|H].
    + destruct is_root; [exact H|].
      apply in_map_iff in H as (d & E & _).
      exact (dir_link_not_index d E).
    + apply in_map_iff in H as (f & E & Hf).
      apply file_link_inj in E. subst f.
      apply filter_In in Hf as [_ Hl]. unfold listed in Hl.
      rewrite str_eqb_refl in Hl. discriminate.
Qed.

(** ** The output tree *)

Lemma lookup_put_same (name : str) (x : node) (es : listing) :
  lookup name (put name x es) = Some x.
Proof.
  induction es as [|[n y] es IH]; simpl.
  - rewrite str_eqb_refl. reflexivity.
  - destruct (str_eqb n name) eqn:E; simpl; rewrite E; [reflexivity | exact IH].
Qed.

Lemma lookup_put_other (name other : str) (x : node) (es : listing) :
  name <> other -> lookup other (put name x es) = lookup other es.
Proof.
  intros Hne. induction es as [|[n y] es IH]; simpl.
  - apply str_eqb_neq in Hne. rewrite Hne. reflexivity.
  - destruct (str_eqb n name) eqn:E; simpl.
    + apply str_eqb_eq in E. subst n.
      apply str_eqb_neq in Hne. rewrite Hne. reflexivity.
    + rewrite IH. reflexivity.
Qed.

Lemma visit_ok (w : node -> result unit * node) (l l' : listing)
  (d : str) (child : node) :
  visit w l = (Ok tt, l') ->
  lookup d l = Some child ->
  match child with
  | File _ => lookup d l' = Some child
  | Dir _ => exists child', w child = (Ok tt, child')
                            /\ lookup d l' = Some child'
  end.
Proof.
  revert l'. induction l as [|[n x] l IH]; intros l' Hv Hl;
    [discriminate|].
  cbn [visit lookup] in *.
  destruct x as [f|sub].
  - destruct (visit w l) as [r l''] eqn:V. injection Hv as -> <-.
    cbn [lookup]. destruct (str_eqb n d).
    + injection Hl as <-. reflexivity.
    + exact (IH l'' eq_refl Hl).
  - destruct (w (Dir sub)) as [[[]|e] x'] eqn:W; [|discriminate].
    destruct (visit w l) as [r l''] eqn:V. injection Hv as -> <-.
    cbn [lookup]. destruct (str_eqb n d).
    + injection Hl as <-. exists x'. split; [exact W | reflexivity].
    + exact (IH l'' eq_refl Hl).
Qed.

Lemma walk_ok_inv (is_root : bool) (es : listing) (n' : node) :
  walk is_root (Dir es) = (Ok tt, n') ->
  exists page es',
    utf8_encode (index_html is_root (dirnames es) (filenames es))
    = Some page
    /\ (forall sub, lookup index_name es <> Some (Dir sub))
    /\ visit (walk false) es = (Ok tt, es')
    /\ n' = Dir (put index_name (File (text_file page)) es').
Proof.
  cbn [walk]. unfold write_file.
  destruct (lookup index_name es) as [[f|sub]|] eqn:L; try discriminate;
    (destruct (utf8_encode (index_html is_root (dirnames es) (filenames es)))
       as [page|]; [|discriminate]);
    (destruct (visit (walk false) es) as [r es'] eqn:V);
    intros H; injection H as -> <-;
    exists page, es'; repeat split; congruence.
Qed.

(** After a walk that did not fail, every directory holds its page. *)
Lemma walk_page_at (path : list str) :
  forall (is_root : bool) (n n' : node) (es : listing),
    walk is_root n = (Ok tt, n') ->
    node_at path n = Some (Dir es) ->
    exists page,
      utf8_encode (index_html (root_at is_root path)
                              (dirnames es) (filenames es)) = Some page
      /\ node_at (path ++ [index_name]) n' = Some (File (text_file page)).
Proof.
  induction path as [|d path IH]; intros is_root n n' es Hw Hn.
  - cbn [node_at] in Hn. injection Hn as ->.
    destruct (walk_ok_inv _ _ _ Hw) as (page & es' & Hp & _ & _ & ->).
    exists page. split; [exact Hp|].
    cbn [app node_at]. rewrite lookup_put_same. reflexivity.
  - cbn [node_at] in Hn. destruct n as [f|es0]; [discriminate|].
    destruct (lookup d es0) as [child|] eqn:L; [|discriminate].
    destruct (walk_ok_inv _ _ _ Hw) as (page & es' & _ & Hidx & Hv & ->).
    pose proof (visit_ok _ _ _ _ _ Hv L) as Hc.
    destruct child as [f|sub].
    { destruct path; discriminate. }
    destruct Hc as (child' & Hwc & Hl').
    destruct (IH false _ _ _ Hwc Hn) as (p & Hp & Hat).
    assert (R : root_at false path = false) by (destruct path; reflexivity).
    rewrite R in Hp.
    exists p. split; [exact Hp|].
    cbn [app node_at]. rewrite lookup_put_other.
    + rewrite Hl'. exact Hat.
    + intros E. subst d. exact (Hidx sub L).
Qed.

(** A walk that did not fail leaves every other regular file as it was. *)
Lemma walk_file_at (path : list str) :
  forall (is_root : bool) (n n' : node) (name : str) (f : file),
    walk is_root n = (Ok tt, n') ->
    node_at (path ++ [name]) n = Some (File f) ->
    name <> index_name ->
    node_at (path ++ [name]) n' = Some (File f).
Proof.
  induction path as [|d path IH]; intros is_root n n' name f Hw Hn Hne.
  - cbn [app node_at] in *. destruct n as [f0|es]; [discriminate|].
    destruct (lookup name es) as [child|] eqn:L; [|discriminate].
    injection Hn as ->.
    destruct (walk_ok_inv _ _ _ Hw) as (page & es' & _ & _ & Hv & ->).
    pose proof (visit_ok _ _ _ _ _ Hv L) as Hc. cbn in Hc.
    rewrite lookup_put_other by congruence. rewrite Hc. reflexivity.
  - cbn [app node_at] in Hn. destruct n as [f0|es0]; [discriminate|].
    destruct (lookup d es0) as [child|] eqn:L; [|discriminate].
    destruct (walk_ok_inv _ _ _ Hw) as (page & es' & _ & Hidx & Hv & ->).
    pose proof (visit_ok _ _ _ _ _ Hv L) as Hc.
    destruct child as [f1|sub].
    { destruct path; discriminate. }
    destruct Hc as (child' & Hwc & Hl').
    cbn [app node_at]. rewrite lookup_put_other.
    + rewrite Hl'. exact (IH false _ _ _ _ Hwc Hn Hne).
    + intros E. subst d. exact (Hidx sub L).
Qed.

Lemma lookup_filenames (name : str) (f : file) (es : listing) :
  lookup name es = Some (File f) -> In name (filenames es).
Proof.
  induction es as [|[n x] es IH]; [discriminate|]. cbn [lookup filenames].
  destruct (str_eqb n name) eqn:E.
  - intros H. injection H as ->. apply str_eqb_eq in E. subst n.
    left. reflexivity.
  - intros H. specialize (IH H). destruct x; [right|]; exact IH.
Qed.

(** C9: after the listing pages are generated over an output tree, every
    directory of the tree holds the page made from the names found in it;
    the root's page links only files whose names end in [.zip], a
    subdirectory's page links every file of the directory but the page
    itself, and no page links [index.html]. *)
Theorem generate_index_pages_links (root root' : node)
  (path : list str) (es : listing) :
  walk true root = (Ok tt, root') ->
  node_at path root = Some (Dir es) ->
  let is_root := root_at true path in
  let entries := index_entries is_root (dirnames es) (filenames es) in
  (exists page,
     utf8_encode (py "<html><body>" ++ [LF] ++ join [LF] entries ++ [LF]
                  ++ py "</body></html>" ++ [LF]) = Some page
     /\ node_at (path ++ [index_name]) root' = Some (File (text_file page)))
  /\ (path = [] ->
      forall e, In e entries ->
        exists f, In f (filenames es) /\ endswith f zip_ext = true
                  /\ e = file_link f)
  /\ (path <> [] ->
      forall f, In f (filenames es) -> f <> index_name ->
        In (file_link f) entries)
  /\ ~ In (file_link index_name) entries.
Proof.
  intros Hw Hn is_root entries.
  destruct (index_entries_spec is_root (dirnames es) (filenames es))
    as (Hroot & Hsub & Hidx).
  split; [exact (walk_page_at path true root root' es Hw Hn)|].
  repeat split.
  - intros ->. exact (Hroot eq_refl).
  - intros Hp. apply Hsub. destruct path; [congruence | reflexivity].
  - exact Hidx.
Qed.

Lemma generate_index_pages_links_witness :
  exists page,
    node_at [py "plugin.x"; index_name] (snd (walk true example_tree))
    = Some (File (text_file page)).
Proof.
  destruct (proj1 (generate_index_pages_links
                     example_tree (snd (walk true example_tree))
                     [py "plugin.x"]
                     [(py "plugin.x-2.1.zip", File plugin_zip);
                      (py "plugin.x-2.1.zip.md5",
                       File (text_file
                               (ascii_bytes "0f343b0931126a20f133d67c2b018a3b")));
                      (py "index.html", File (text_file (ascii_bytes "old")))]
                     eq_refl eq_refl))
    as (page & _ & H).
  exists page. exact H.
Defined.

(** ** The run *)

(** C7, as the code has it: when loading the configuration raises, which
    it does for a file that cannot be read or holds no JSON, the run ends
    with that exception and [dist/] is as it was: nothing has been
    deleted, created or printed by [main]. *)
Theorem config_error_keeps_output (env : environment) (w : world) (e : exn) :
  config_file env = Raise e ->
  main env w = (Raise e, w).
Proof.
  intros H. unfold main, collect, bind, load_config, lift.
  rewrite H. reflexivity.
Qed.

Lemma config_error_keeps_output_witness :
  main env_bad_config published = (Raise JSONDecodeError, published).
Proof.
  exact (config_error_keeps_output env_bad_config published JSONDecodeError
           eq_refl).
Defined.

(** C7 as stated fails for a configuration that is malformed and yet
    loads: the JSON object [{}] has no key [addons], which [main] finds
    out only after the output of the earlier run was deleted. *)
Lemma malformed_config_wipes_output :
  config_file env_no_addons_key = Ok {| addons := Misshaped NoKey |}
  /\ node_at [py "plugin.x"; py "plugin.x-2.1.zip"] example_tree
     = Some (File plugin_zip)
  /\ fst (main env_no_addons_key published) = Raise KeyError
  /\ exists root,
       dist (snd (main env_no_addons_key published)) = Some root
       /\ node_at [py "plugin.x"] root = None
       /\ node_at [py "addons.xml"] root = None.
Proof.
  split; [reflexivity|]. split; [reflexivity|].
  split; [vm_compute; reflexivity|].
  eexists. split; [vm_compute; reflexivity|].
  split; vm_compute; reflexivity.
Qed.

(** C6, as the code has it: the merger itself returns a document for no
    manifest; it is [main] that ends the run, with exit status 1 and a
    message, before the merger is called and before anything more is
    written. *)
Theorem no_addons_is_fatal_in_main (env : environment) (w w1 : world) :
  collect env w = (Ok [], w1) ->
  main env w
  = (Raise (SystemExit 1),
     {| dist := dist w1;
        printed := printed w1 ++ [py "ERROR: No addons found!"] |})
  /\ exit_status (fst (main env w)) = 1%Z
  /\ generate_addons_xml [] = addons_open ++ [LF] ++ addons_close.
Proof.
  intros H.
  assert (E : main env w
              = (Raise (SystemExit 1),
                 {| dist := dist w1;
                    printed := printed w1 ++ [py "ERROR: No addons found!"] |})).
  { unfold main, bind. rewrite H. reflexivity. }
  rewrite E. repeat split.
Qed.

Lemma no_addons_is_fatal_in_main_witness :
  main env_nothing published
  = (Raise (SystemExit 1),
     {| dist := Some (Dir []); printed := [py "ERROR: No addons found!"] |}).
Proof.
  exact (proj1 (no_addons_is_fatal_in_main env_nothing published
                  {| dist := Some (Dir []); printed := [] |} eq_refl)).
Defined.

(** C2, as the code has it: in a run that gets to the test of the
    accumulated manifests and, from there, to the end without an exception,
    the exit status is non-zero exactly when no manifest was accumulated;
    projects skipped on the way do not change it. *)
Theorem exit_status_of_run (env : environment) (w w1 : world)
  (addon_xmls : list str) :
  collect env w = (Ok addon_xmls, w1) ->
  (addon_xmls <> [] -> exists w2, publish env addon_xmls w1 = (Ok tt, w2)) ->
  (exit_status (fst (main env w)) <> 0%Z <-> addon_xmls = []).
Proof.
  intros Hc Hp. unfold main, bind. rewrite Hc.
  destruct addon_xmls as [|x xs].
  - cbn. split; [reflexivity | discriminate].
  - destruct (Hp ltac:(discriminate)) as (w2 & E). rewrite E. cbn.
    split; [congruence | discriminate].
Qed.

Lemma exit_status_of_run_witness :
  collect env_no_release fresh
  = (Ok [py "<addon id='repository.x' version='1.0.0'/>"],
     snd (collect env_no_release fresh))
  /\ (exit_status (fst (main env_no_release fresh)) <> 0%Z
      <-> [py "<addon id='repository.x' version='1.0.0'/>"] = []).
Proof.
  assert (C : collect env_no_release fresh
              = (Ok [py "<addon id='repository.x' version='1.0.0'/>"],
                 snd (collect env_no_release fresh)))
    by (vm_compute; reflexivity).
  split; [exact C|].
  apply (exit_status_of_run env_no_release fresh _ _ C).
  intros _.
  exists (snd (publish env_no_release
                 [py "<addon id='repository.x' version='1.0.0'/>"]
                 (snd (collect env_no_release fresh)))).
  vm_compute. reflexivity.
Defined.

(** C2 as stated fails: with the repository add-on's manifest already
    accumulated, an asset that is no archive ends the run with an uncaught
    exception, hence a non-zero exit status. *)
Lemma exit_status_nonzero_with_a_manifest :
  fst ((clean_output ;; process_repo_addon env_broken_zip [])%run fresh)
  = Ok [py "<addon id='repository.x' version='1.0.0'/>"]
  /\ fst (main env_broken_zip fresh) = Raise BadZipFile
  /\ exit_status (fst (main env_broken_zip fresh)) = 1%Z.
Proof. repeat split; vm_compute; reflexivity. Qed.

Lemma lookup_app_new (name : str) (x : node) (es : listing) :
  lookup name es = None -> lookup name (es ++ [(name, x)]) = Some x.
Proof.
  induction es as [|[n y] es IH]; simpl.
  - rewrite str_eqb_refl. reflexivity.
  - destruct (str_eqb n name); [discriminate | exact IH].
Qed.

Lemma lookup_app_other (name other : str) (x : node) (es : listing) :
  name <> other -> lookup other (es ++ [(name, x)]) = lookup other es.
Proof.
  intros Hne. induction es as [|[n y] es IH]; simpl.
  - apply str_eqb_neq in Hne. rewrite Hne. reflexivity.
  - destruct (str_eqb n other); [reflexivity | exact IH].
Qed.





(** ** Steps of the run and the entries they touch *)

Lemma bind_ok {A B} (m : M A) (k : A -> M B) (w w' : world) (b : B) :
  bind m k w = (Ok b, w') ->
  exists a w1, m w = (Ok a, w1) /\ k a w1 = (Ok b, w').
Proof.
  unfold bind. destruct (m w) as [[a|e] w1]; [|discriminate].
  intros H. exists a, w1. split; [reflexivity | exact H].
Qed.

Lemma touches_same {A} (names : list str) (m : M A) :
  (forall w a w', m w = (Ok a, w') -> w' = w) -> touches names m.
Proof.
  intros H w a w' es Hm Hd. rewrite (H _ _ _ Hm).
  exists es, []. rewrite app_nil_r. repeat split. exact Hd.
Qed.

Lemma touches_ret {A} (names : list str) (a : A) : touches names (ret a).
Proof. apply touches_same. intros w x w' H. injection H as _ <-. reflexivity. Qed.

Lemma touches_raise {A} (names : list str) (e : exn) :
  touches names (@raise A e).
Proof. apply touches_same. intros w x w' H. discriminate. Qed.

Lemma touches_lift {A} (names : list str) (r : result A) :
  touches names (lift r).
Proof. apply touches_same. intros w x w' H. injection H as _ <-. reflexivity. Qed.

Lemma touches_open_file (names : list str) (path : list str) :
  touches names (open_file path).
Proof.
  apply touches_same. intros w x w'. unfold open_file.
  destruct (dist w) as [root|]; [|discriminate].
  destruct (node_at path root) as [[f|es]|]; try discriminate.
  intros H. injection H as _ <-. reflexivity.
Qed.

Lemma touches_listing_of (names : list str) (path : list str) :
  touches names (listing_of path).
Proof.
  apply touches_same. intros w x w'. unfold listing_of.
  destruct (dist w) as [root|]; [|discriminate].
  destruct (node_at path root) as [[f|es]|]; try discriminate.
  intros H. injection H as _ <-. reflexivity.
Qed.

Lemma touches_print (names : list str) (line : str) :
  touches names (print line).
Proof.
  intros w a w' es H Hd. injection H as _ <-.
  exists es, [line]. repeat split. exact Hd.
Qed.

Lemma touches_bind {A B} (names : list str) (m : M A) (k : A -> M B) :
  touches names m -> (forall a, touches names (k a)) ->
  touches names (bind m k).
Proof.
  intros Hm Hk w b w' es H Hd.
  destruct (bind_ok _ _ _ _ _ H) as (a & w1 & H1 & H2).
  destruct (Hm _ _ _ _ H1 Hd) as (es1 & more1 & Hd1 & Hp1 & Hl1).
  destruct (Hk a _ _ _ _ H2 Hd1) as (es2 & more2 & Hd2 & Hp2 & Hl2).
  exists es2, (more1 ++ more2). repeat split.
  - exact Hd2.
  - rewrite Hp2, Hp1, app_assoc. reflexivity.
  - intros x Hx. rewrite (Hl2 x Hx). exact (Hl1 x Hx).
Qed.

Lemma in_dir_root_ok (f : listing -> result listing) (w w' : world)
  (es : listing) :
  in_dir [] f w = (Ok tt, w') ->
  dist w = Some (Dir es) ->
  exists es', f es = Ok es'
              /\ w' = {| dist := Some (Dir es'); printed := printed w |}.
Proof.
  unfold in_dir. intros H Hd. rewrite Hd in H. cbn [update_at] in H.
  destruct (f es) as [es'|e] eqn:F; [|discriminate].
  injection H as <-. exists es'. split; reflexivity.
Qed.

Lemma in_dir_sub_ok (d : str) (f : listing -> result listing)
  (w w' : world) (es : listing) :
  in_dir [d] f w = (Ok tt, w') ->
  dist w = Some (Dir es) ->
  exists sub sub',
    lookup d es = Some (Dir sub) /\ f sub = Ok sub'
    /\ w' = {| dist := Some (Dir (put d (Dir sub') es));
               printed := printed w |}.
Proof.
  unfold in_dir. intros H Hd. rewrite Hd in H. cbn [update_at] in H.
  destruct (lookup d es) as [[x|sub]|] eqn:L; try discriminate.
  cbn [update_at] in H. destruct (f sub) as [sub'|e] eqn:F; [|discriminate].
  injection H as <-. exists sub, sub'. repeat split. exact F.
Qed.

Lemma touches_in_dir_root (names : list str)
  (f : listing -> result listing) :
  (forall es es' x, f es = Ok es' -> ~ In x names ->
                    lookup x es' = lookup x es) ->
  touches names (in_dir [] f).
Proof.
  intros Hf w [] w' es H Hd.
  destruct (in_dir_root_ok _ _ _ _ H Hd) as (es' & E & ->).
  exists es', []. rewrite app_nil_r. repeat split.
  intros x Hx. exact (Hf _ _ _ E Hx).
Qed.

Lemma touches_in_dir_sub (names : list str) (d : str)
  (f : listing -> result listing) :
  In d names -> touches names (in_dir [d] f).
Proof.
  intros Hin w [] w' es H Hd.
  destruct (in_dir_sub_ok _ _ _ _ _ H Hd) as (sub & sub' & _ & _ & ->).
  exists (put d (Dir sub') es), []. rewrite app_nil_r. repeat split.
  intros x Hx. apply lookup_put_other. intros ->. exact (Hx Hin).
Qed.

Lemma mkdir_other (name : str) (es es' : listing) (x : str) :
  mkdir name es = Ok es' -> name <> x -> lookup x es' = lookup x es.
Proof.
  unfold mkdir. destruct (lookup name es) as [[f|sub]|]; try discriminate.
  - intros H _. injection H as <-. reflexivity.
  - intros H Hne. injection H as <-. apply lookup_app_other. exact Hne.
Qed.

Lemma write_file_other (name : str) (f : file) (es es' : listing) (x : str) :
  write_file name f es = Ok es' -> name <> x -> lookup x es' = lookup x es.
Proof.
  unfold write_file. intros H Hne.
  assert (E : es' = put name (File f) es).
  { destruct (lookup name es) as [[g|sub]|]; congruence. }
  subst es'. apply lookup_put_other. exact Hne.
Qed.

Lemma write_file_ok (name : str) (f : file) (es es' : listing) :
  write_file name f es = Ok es' ->
  es' = put name (File f) es
  /\ forall sub, lookup name es <> Some (Dir sub).
Proof.
  unfold write_file. destruct (lookup name es) as [[g|sub]|];
    intros H; try discriminate; injection H as <-;
    (split; [reflexivity | intros sub; discriminate]).
Qed.

Lemma put_put (name : str) (x y : node) (es : listing) :
  put name x (put name y es) = put name x es.
Proof.
  induction es as [|[n z] es IH]; cbn [put].
  - rewrite str_eqb_refl. reflexivity.
  - destruct (str_eqb n name) eqn:E; cbn [put]; rewrite E;
      [reflexivity | rewrite IH; reflexivity].
Qed.

(** [write_text] at the top of [dist/], when it ends without exception. *)
Lemma write_text_root_ok (name content : str) (w w' : world)
  (es : listing) :
  write_text [] name content w = (Ok tt, w') ->
  dist w = Some (Dir es) ->
  exists content_bytes,
    utf8_encode content = Some content_bytes
    /\ (forall sub, lookup name es <> Some (Dir sub))
    /\ w' = {| dist := Some (Dir (put name (File (text_file content_bytes))
                                      es));
               printed := printed w |}.
Proof.
  unfold write_text, open_w, write. intros H Hd.
  destruct (bind_ok _ _ _ _ _ H) as ([] & w1 & H1 & H2).
  destruct (in_dir_root_ok _ _ _ _ H1 Hd) as (es1 & E1 & ->).
  apply write_file_ok in E1. destruct E1 as [-> Hsub].
  destruct (utf8_encode content) as [bs|]; [|discriminate].
  destruct (in_dir_root_ok _ _ _ _ H2 eq_refl) as (es2 & E2 & ->).
  apply write_file_ok in E2. destruct E2 as [-> _].
  exists bs. rewrite put_put. repeat split. exact Hsub.
Qed.

Lemma touches_write (names : list str) (d name content : str) :
  In d names -> touches names (write [d] name content).
Proof.
  intros Hin. unfold write.
  destruct (utf8_encode content); [|apply touches_raise].
  apply touches_in_dir_sub. exact Hin.
Qed.

Lemma touches_mkdir (names : list str) (d : str) :
  In d names -> touches names (in_dir [] (mkdir d)).
Proof.
  intros Hin. apply touches_in_dir_root. intros es es' x H Hx.
  apply (mkdir_other _ _ _ _ H). intros ->. exact (Hx Hin).
Qed.

Lemma touches_write_md5 (names : list str) (d zip_name : str) :
  In d names -> touches names (write_md5 d zip_name).
Proof.
  intros Hin. unfold write_md5, open_w. apply touches_bind.
  - apply touches_in_dir_sub. exact Hin.
  - intros _. apply touches_bind; [apply touches_open_file|].
    intros zip. apply touches_write. exact Hin.
Qed.

Lemma touches_download_asset (names : list str) (env : environment)
  (repo tag pattern d : str) :
  In d names -> touches names (download_asset env repo tag pattern d).
Proof.
  intros Hin. unfold download_asset. apply touches_bind.
  - apply touches_mkdir. exact Hin.
  - intros _. destruct (gh_release_download env repo tag pattern).
    + apply touches_raise.
    + apply touches_bind; [apply touches_in_dir_sub; exact Hin|].
      intros _. destruct (negb (returncode =? 0)%Z).
      * apply touches_ret.
      * apply touches_bind; [apply touches_listing_of|].
        intros es. apply touches_ret.
Qed.

Lemma touches_process_addon (names : list str) (env : environment)
  (addon : addon_entry) (addon_xmls : list str) :
  In (addon_id addon) names ->
  touches names (process_addon env addon addon_xmls).
Proof.
  intros Hin. unfold process_addon.
  apply touches_bind; [apply touches_print|]. intros _.
  destruct (fetch_latest_release env (repo addon)) as [release|e].
  - apply touches_bind; [apply touches_print|]. intros _.
    apply touches_bind; [apply touches_download_asset; exact Hin|].
    intros [zip_name|].
    + apply touches_bind; [apply touches_open_file|]. intros zip.
      apply touches_bind; [apply touches_lift|]. intros [[|c text]|].
      * apply touches_bind; [apply touches_print | intros _; apply touches_ret].
      * apply touches_bind; [apply touches_write_md5; exact Hin|]. intros _.
        apply touches_bind; [apply touches_print | intros _; apply touches_ret].
      * apply touches_bind; [apply touches_print | intros _; apply touches_ret].
    + apply touches_bind; [apply touches_print | intros _; apply touches_ret].
  - destruct e; try apply touches_raise.
    apply touches_bind; [apply touches_print | intros _; apply touches_ret].
Qed.

Lemma touches_subscript {A B} (names : list str) (v : shaped A)
  (k : A -> M B) :
  (forall a, v = Shaped a -> touches names (k a)) ->
  touches names (bind (lift (subscript v)) k).
Proof.
  destruct v as [a|why]; intros H w b w' es Hm Hd.
  - exact (H a eq_refl w b w' es Hm Hd).
  - discriminate.
Qed.

Lemma touches_process_addons (env : environment)
  (addons : list (shaped addon_entry)) :
  forall (names : list str) (addon_xmls : list str),
    (forall a, In (Shaped a) addons -> In (addon_id a) names) ->
    touches names (process_addons env addons addon_xmls).
Proof.
  induction addons as [|v addons IH]; intros names addon_xmls Hin.
  - apply touches_ret.
  - cbn [process_addons]. apply touches_subscript. intros a ->.
    apply touches_bind.
    + apply touches_process_addon. apply Hin. left. reflexivity.
    + intros xs. apply IH. intros b Hb. apply Hin. right. exact Hb.
Qed.

Lemma touches_process_repo_addon (env : environment) (addon_xmls : list str) :
  touches (self_names env) (process_repo_addon env addon_xmls).
Proof.
  unfold process_repo_addon, self_names.
  destruct (repo_addon env) as [sp|]; [|apply touches_ret].
  destruct (sp_root sp) as [[id version]|]; [|apply touches_raise].
  cbv zeta.
  set (addon_id := default self_id id).
  set (zip_name := addon_id ++ py "-" ++ default (py "1.0.0") version
                   ++ zip_ext).
  assert (H1 : In addon_id [addon_id; zip_name]) by (left; reflexivity).
  assert (H2 : In zip_name [addon_id; zip_name])
    by (right; left; reflexivity).
  apply touches_bind; [apply touches_mkdir; exact H1|]. intros _.
  apply touches_bind; [apply touches_in_dir_sub; exact H1|]. intros _.
  apply touches_bind; [apply touches_open_file|]. intros zip.
  apply touches_bind.
  { apply touches_in_dir_root. intros es es' x H Hx.
    apply (write_file_other _ _ _ _ _ H). intros ->. exact (Hx H2). }
  intros _. destruct (read_text (sp_addon_xml sp)); [|apply touches_raise].
  apply touches_bind; [apply touches_write_md5; exact H1|]. intros _.
  apply touches_bind; [apply touches_print | intros _; apply touches_ret].
Qed.

Lemma visit_none (w : node -> result unit * node) (l l' : listing) (d : str) :
  visit w l = (Ok tt, l') -> lookup d l = None -> lookup d l' = None.
Proof.
  revert l'. induction l as [|[n x] l IH]; intros l' Hv Hl.
  - injection Hv as <-. reflexivity.
  - cbn [visit lookup] in *. destruct (str_eqb n d) eqn:E; [discriminate|].
    destruct x as [f|sub].
    + destruct (visit w l) as [r l''] eqn:V. injection Hv as -> <-.
      cbn [lookup]. rewrite E. exact (IH l'' eq_refl Hl).
    + destruct (w (Dir sub)) as [[[]|e] x'] eqn:W; [|discriminate].
      destruct (visit w l) as [r l''] eqn:V. injection Hv as -> <-.
      cbn [lookup]. rewrite E. exact (IH l'' eq_refl Hl).
Qed.

(** A walk that did not fail adds nothing but the pages. *)
Lemma walk_none_at (path : list str) :
  forall (is_root : bool) (n n' : node) (es : listing) (name : str),
    walk is_root n = (Ok tt, n') ->
    node_at path n = Some (Dir es) ->
    lookup name es = None ->
    name <> index_name ->
    node_at (path ++ [name]) n' = None.
Proof.
  induction path as [|d path IH]; intros is_root n n' es name Hw Hn Hl Hne.
  - cbn [node_at] in Hn. injection Hn as ->.
    destruct (walk_ok_inv _ _ _ Hw) as (page & es' & _ & _ & Hv & ->).
    cbn [app node_at]. rewrite lookup_put_other by congruence.
    rewrite (visit_none _ _ _ _ Hv Hl). reflexivity.
  - cbn [node_at] in Hn. destruct n as [f|es0]; [discriminate|].
    destruct (lookup d es0) as [child|] eqn:L; [|discriminate].
    destruct (walk_ok_inv _ _ _ Hw) as (page & es' & _ & Hidx & Hv & ->).
    pose proof (visit_ok _ _ _ _ _ Hv L) as Hc.
    destruct child as [f|sub].
    { destruct path; discriminate. }
    destruct Hc as (child' & Hwc & Hl').
    cbn [app node_at]. rewrite lookup_put_other.
    + rewrite Hl'. exact (IH false _ _ _ _ Hwc Hn Hl Hne).
    + intros E. subst d. exact (Hidx sub L).
Qed.

Lemma process_addons_app (env : environment)
  (l1 l2 : list (shaped addon_entry)) :
  forall (addon_xmls : list str) (w : world),
    process_addons env (l1 ++ l2) addon_xmls w
    = bind (process_addons env l1 addon_xmls) (process_addons env l2) w.
Proof.
  induction l1 as [|v l1 IH]; intros addon_xmls w.
  - reflexivity.
  - cbn [app process_addons]. unfold bind, lift.
    destruct (subscript v) as [a|e]; [|reflexivity].
    destruct (process_addon env a addon_xmls w) as [[xs|e] w1];
      [|reflexivity].
    rewrite IH. reflexivity.
Qed.

(** What a run that ends well has gone through. *)
Lemma main_ok (env : environment) (w w' : world) (config : config) :
  main env w = (Ok tt, w') ->
  config_file env = Ok config ->
  exists items xs0 w0 xs wn,
    addons config = Shaped items
    /\ process_repo_addon env []
         {| dist := Some (Dir []); printed := printed w |} = (Ok xs0, w0)
    /\ process_addons env items xs0 w0 = (Ok xs, wn)
    /\ publish env xs wn = (Ok tt, w').
Proof.
  intros H Hc. unfold main in H.
  destruct (bind_ok _ _ _ _ _ H) as (xs & wn & Hcol & Hrest).
  unfold collect, load_config, lift in Hcol.
  unfold bind at 1 in Hcol. rewrite Hc in Hcol.
  destruct (bind_ok _ _ _ _ _ Hcol) as ([] & wc & Hclean & Hcol').
  destruct (bind_ok _ _ _ _ _ Hcol') as (xs0 & w0 & Hself & Hitems).
  destruct (bind_ok _ _ _ _ _ Hitems) as (items & w0' & Hsub & Hadd).
  assert (Ewc : wc = {| dist := Some (Dir []); printed := printed w |}).
  { unfold clean_output in Hclean.
    destruct (dist w) as [[f|es]|]; congruence. }
  subst wc.
  assert (Es : addons config = Shaped items /\ w0' = w0).
  { destruct (addons config) as [l|why]; [|discriminate].
    injection Hsub as <- <-. split; reflexivity. }
  destruct Es as [Es ->].
  exists items, xs0, w0, xs, wn. repeat split; try assumption.
  destruct xs as [|x xs]; [|exact Hrest].
  unfold bind, print, raise in Hrest. discriminate.
Qed.

Lemma publish_ok (env : environment) (xs : list str) (wn w' : world)
  (es : listing) :
  publish env xs wn = (Ok tt, w') ->
  dist wn = Some (Dir es) ->
  exists es' root' more,
    (forall x sub, lookup x es = Some (Dir sub) ->
                   lookup x es' = Some (Dir sub))
    /\ walk true (Dir es') = (Ok tt, root')
    /\ dist w' = Some root'
    /\ printed w' = printed wn ++ more.
Proof.
  intros H Hd. unfold publish in H.
  destruct (bind_ok _ _ _ _ _ H) as ([] & w1 & H1 & H').
  destruct (write_text_root_ok _ _ _ _ _ H1 Hd) as (b1 & _ & N1 & ->).
  destruct (md5_string (generate_addons_xml xs)) as [digest|];
    [|discriminate].
  destruct (bind_ok _ _ _ _ _ H') as ([] & w2 & H2 & H'').
  destruct (write_text_root_ok _ _ _ _ _ H2 eq_refl) as (b2 & _ & N2 & ->).
  destruct (bind_ok _ _ _ _ _ H'') as ([] & w3 & H3 & Hprints).
  unfold generate_index_pages in H3. cbn [dist printed] in H3.
  match type of H3 with
  | context [walk true (Dir ?l)] =>
      destruct (walk true (Dir l)) as [r root'] eqn:W
  end.
  injection H3 as -> <-.
  unfold bind, print in Hprints. cbn [dist printed] in Hprints.
  injection Hprints as <-. cbn [dist printed].
  eexists. exists root'. eexists. split; [|split; [exact W | split]].
  - intros x sub L. rewrite !lookup_put_other; [exact L| |].
    + intros E. subst x. exact (N1 sub L).
    + intros E. subst x. apply (N2 sub).
      rewrite lookup_put_other; [exact L|].
      intros E. rewrite <- E in L. exact (N1 sub L).
  - reflexivity.
  - rewrite <- !app_assoc. reflexivity.
Qed.

(** The step of a project whose archive arrives but has no manifest. *)
Lemma process_addon_no_manifest (env : environment) (addon : addon_entry)
  (addon_xmls : list str) (w : world) (es : listing)
  (release : release) (err : str) (written : list (str * file))
  (zip_name : str) (zip : file) :
  dist w = Some (Dir es) ->
  lookup (addon_id addon) es = None ->
  gh_release_view env (repo addon) = ViewEnded 0 (Some release) err ->
  gh_release_download env (repo addon) (tagName release)
                      (asset_pattern addon) = DownloadEnded 0 written ->
  first_zip (written_to written []) = Some zip_name ->
  lookup zip_name (written_to written []) = Some (File zip) ->
  (extract_addon_xml zip (addon_id addon) = Ok None
   \/ extract_addon_xml zip (addon_id addon) = Ok (Some [])) ->
  exists w',
    process_addon env addon addon_xmls w = (Ok addon_xmls, w')
    /\ dist w'
       = Some (Dir (put (addon_id addon) (Dir (written_to written []))
                        (es ++ [(addon_id addon, Dir [])])))
    /\ printed w'
       = printed w
         ++ [py "  Fetching latest release from " ++ repo addon ++ py "...";
             py "  Found " ++ tagName release;
             py "  WARNING: No addon.xml found in " ++ zip_name].
Proof.
  intros Hd Hl Hview Hdown Hzip Hfile Hxml.
  unfold process_addon, fetch_latest_release. rewrite Hview.
  change (0 =? 0)%Z with true. cbv iota.
  unfold download_asset, bind, print, in_dir, listing_of, open_file, lift,
    ret.
  cbn [dist printed]. rewrite Hd. cbn [update_at]. unfold mkdir.
  rewrite Hl. cbn [dist printed]. rewrite Hdown. cbn [update_at dist printed].
  rewrite (lookup_app_new _ _ _ Hl). cbn [update_at dist printed].
  change (0 =? 0)%Z with true. cbn [negb node_at dist printed].
  rewrite lookup_put_same. rewrite Hzip. cbn [node_at dist printed].
  rewrite lookup_put_same, Hfile.
  destruct Hxml as [-> | ->]; cbn [dist printed];
    (eexists; split; [reflexivity|]; cbn [dist printed];
     split; [reflexivity|]; rewrite <- !app_assoc; reflexivity).
Qed.

Lemma first_zip_suffix (es : listing) (zip_name : str) :
  first_zip es = Some zip_name -> suffix zip_name = zip_ext.
Proof.
  induction es as [|[n x] es IH]; [discriminate|]. cbn [first_zip].
  destruct (str_eqb (suffix n) zip_ext) eqn:E; [|exact IH].
  intros H. injection H as <-. apply str_eqb_eq. exact E.
Qed.

Lemma md5_name_not_index (zip_name : str) :
  zip_name ++ py ".md5" <> index_name.
Proof.
  intros H. apply (f_equal (@rev char)) in H. rewrite rev_app_distr in H.
  vm_compute in H. discriminate.
Qed.

(** C10, as the code has it: in a run that ends well, where the names
    the repository add-on is published under, the identifiers of the
    configured projects and the names of the files downloaded are single
    path components, a project with an identifier of its own whose asset
    arrives but holds no manifest is skipped with a warning; its archive
    stays in its folder of [dist/], the run writes no [.md5] file beside
    it, and the page of the folder links the archive. *)
Theorem archive_without_manifest_stays (env : environment) (w w' : world)
  (before after : list addon_entry) (addon : addon_entry)
  (release : release) (err : str) (written : list (str * file))
  (zip_name : str) (zip : file) :
  main env w = (Ok tt, w') ->
  config_file env = Ok (documented (before ++ addon :: after)) ->
  Forall (fun name => is_component name = true)
         (self_names env ++ List.map addon_id (before ++ addon :: after)
          ++ List.map fst written) ->
  ~ In (addon_id addon) (List.map addon_id (before ++ after)) ->
  ~ In (addon_id addon) (self_names env) ->
  gh_release_view env (repo addon) = ViewEnded 0 (Some release) err ->
  gh_release_download env (repo addon) (tagName release)
                      (asset_pattern addon) = DownloadEnded 0 written ->
  first_zip (written_to written []) = Some zip_name ->
  lookup zip_name (written_to written []) = Some (File zip) ->
  (extract_addon_xml zip (addon_id addon) = Ok None
   \/ extract_addon_xml zip (addon_id addon) = Ok (Some [])) ->
  let folder := written_to written [] in
  let entries := index_entries false (dirnames folder) (filenames folder) in
  exists root page,
    dist w' = Some root
    /\ In (py "  WARNING: No addon.xml found in " ++ zip_name) (printed w')
    /\ node_at [addon_id addon; zip_name] root = Some (File zip)
    /\ (lookup (zip_name ++ py ".md5") folder = None ->
        node_at [addon_id addon; zip_name ++ py ".md5"] root = None)
    /\ node_at [addon_id addon; index_name] root
       = Some (File (text_file page))
    /\ utf8_encode (py "<html><body>" ++ [LF] ++ join [LF] entries ++ [LF]
                    ++ py "</body></html>" ++ [LF]) = Some page
    /\ In (file_link zip_name) entries.
Proof.
  intros Hmain Hcfg _ Hothers Hself Hview Hdown Hzip Hfile Hxml folder
    entries.
  destruct (main_ok _ _ _ _ Hmain Hcfg)
    as (items & xs0 & w0 & xs & wn & Hitems & Hs & Hadd & Hpub).
  cbn [documented addons] in Hitems. injection Hitems as <-.
  rewrite map_app in Hadd. cbn [List.map] in Hadd.
  assert (Hids : forall l a, In (Shaped a) (List.map Shaped l) ->
                             In (addon_id a) (List.map addon_id l)).
  { intros l a Ha. apply in_map_iff in Ha. destruct Ha as (b & Eb & Hb).
    injection Eb as ->. apply in_map. exact Hb. }
  (* the repository add-on *)
  destruct (touches_process_repo_addon env [] _ _ _ _ Hs eq_refl)
    as (es0 & more0 & Hd0 & _ & Hl0).
  (* the projects before *)
  rewrite process_addons_app in Hadd.
  destruct (bind_ok _ _ _ _ _ Hadd) as (xsk & wk & Hbefore & Hrest).
  destruct (touches_process_addons env (List.map Shaped before)
              (List.map addon_id before) xs0
              (Hids before) _ _ _ _ Hbefore Hd0)
    as (esk & morek & Hdk & _ & Hlk).
  assert (Hnone : lookup (addon_id addon) esk = None).
  { rewrite Hlk, Hl0; [reflexivity | exact Hself|].
    intros Hin. apply Hothers. rewrite map_app. apply in_or_app.
    left. exact Hin. }
  (* the project itself *)
  cbn [process_addons] in Hrest.
  change (bind (lift (subscript (Shaped addon))) ?k wk) with (k addon wk)
    in Hrest.
  destruct (bind_ok _ _ _ _ _ Hrest) as (xsk1 & wk1 & Hstep & Hafter).
  destruct (process_addon_no_manifest env addon xsk wk esk release err
              written zip_name zip Hdk Hnone Hview Hdown Hzip Hfile Hxml)
    as (wk1' & Hstep' & Hdk1 & Hpk1).
  rewrite Hstep' in Hstep. injection Hstep as <- <-.
  (* the projects after *)
  destruct (touches_process_addons env (List.map Shaped after)
              (List.map addon_id after) xsk
              (Hids after) _ _ _ _ Hafter Hdk1)
    as (esn & moren & Hdn & Hpn & Hln).
  assert (Hfolder : lookup (addon_id addon) esn = Some (Dir folder)).
  { rewrite Hln.
    - apply lookup_put_same.
    - intros Hin. apply Hothers. rewrite map_app. apply in_or_app.
      right. exact Hin. }
  (* publishing *)
  destruct (publish_ok _ _ _ _ _ Hpub Hdn)
    as (esp & root' & morep & Hdirs & Hwalk & Hd' & Hp').
  specialize (Hdirs _ _ Hfolder).
  assert (Hat : node_at [addon_id addon] (Dir esp) = Some (Dir folder)).
  { cbn [node_at]. rewrite Hdirs. reflexivity. }
  assert (Hne : zip_name <> index_name).
  { intros E. apply first_zip_suffix in Hzip. rewrite E in Hzip.
    vm_compute in Hzip. discriminate. }
  destruct (walk_page_at [addon_id addon] true _ _ _ Hwalk Hat)
    as (page & Hpage & Hindex).
  exists root', page. repeat split.
  - exact Hd'.
  - rewrite Hp', Hpn, Hpk1. apply in_or_app. left. apply in_or_app. left.
    apply in_or_app. right. right. right. left. reflexivity.
  - apply (walk_file_at [addon_id addon] true _ _ zip_name zip Hwalk);
      [|exact Hne].
    cbn [app node_at]. rewrite Hdirs. unfold folder. rewrite Hfile.
    reflexivity.
  - intros Hmd5.
    exact (walk_none_at [addon_id addon] true _ _ _ _ Hwalk Hat Hmd5
             (md5_name_not_index zip_name)).
  - exact Hindex.
  - exact Hpage.
  - apply (proj1 (proj2 (index_entries_spec false (dirnames folder)
                           (filenames folder))) eq_refl).
    + exact (lookup_filenames _ _ _ Hfile).
    + exact Hne.
Qed.

Lemma archive_without_manifest_stays_witness :
  exists root page,
    dist (snd (main (env_no_manifest true) fresh)) = Some root
    /\ In (py "  WARNING: No addon.xml found in plugin.x-2.1.zip")
          (printed (snd (main (env_no_manifest true) fresh)))
    /\ node_at [py "plugin.x"; py "plugin.x-2.1.zip"] root
       = Some (File bare_zip)
    /\ (lookup (py "plugin.x-2.1.zip.md5")
               [(py "plugin.x-2.1.zip", File bare_zip)] = None ->
        node_at [py "plugin.x"; py "plugin.x-2.1.zip.md5"] root = None)
    /\ node_at [py "plugin.x"; index_name] root = Some (File (text_file page))
    /\ utf8_encode
         (py "<html><body>" ++ [LF]
          ++ join [LF] (index_entries false [] [py "plugin.x-2.1.zip"])
          ++ [LF] ++ py "</body></html>" ++ [LF]) = Some page
    /\ In (file_link (py "plugin.x-2.1.zip"))
          (index_entries false [] [py "plugin.x-2.1.zip"]).
Proof.
  refine (archive_without_manifest_stays
            (env_no_manifest true) fresh
            (snd (main (env_no_manifest true) fresh))
            [] [plugin_y] plugin_x {| tagName := py "v2.1" |} []
            [(py "plugin.x-2.1.zip", bare_zip)]
            (py "plugin.x-2.1.zip") bare_zip
            _ eq_refl _ _ _ eq_refl eq_refl eq_refl eq_refl
            (or_introl eq_refl)).
  - vm_compute. reflexivity.
  - repeat (apply Forall_cons; [reflexivity|]). apply Forall_nil.
  - intros [H|[]]. vm_compute in H. discriminate.
  - intros [].
Defined.

(** C10 as stated fails: when the project is all there is, the run ends
    at the test of the accumulated manifests; the archive is in its
    folder, but no page is ever written that could link it. *)
Lemma archive_unlinked_when_run_is_fatal :
  gh_release_download (env_no_manifest false) (repo plugin_x) (py "v2.1")
                      (asset_pattern plugin_x)
  = DownloadEnded 0 [(py "plugin.x-2.1.zip", bare_zip)]
  /\ extract_addon_xml bare_zip (addon_id plugin_x) = Ok None
  /\ fst (main (env_no_manifest false) fresh) = Raise (SystemExit 1)
  /\ exists root,
       dist (snd (main (env_no_manifest false) fresh)) = Some root
       /\ node_at [py "plugin.x"; py "plugin.x-2.1.zip"] root
          = Some (File bare_zip)
       /\ node_at [py "plugin.x"; index_name] root = None
       /\ node_at [index_name] root = None.
Proof.
  split; [reflexivity|]. split; [reflexivity|].
  split; [vm_compute; reflexivity|].
  eexists. split; [vm_compute; reflexivity|].
  repeat split; vm_compute; reflexivity.
Qed.

(** * Further properties *)

(** ** Digests *)

Lemma hex_length (content : bytes) :
  List.length (hex content) = (2 * List.length content)%nat.
Proof.
  unfold hex. induction content as [|b content IH]; [reflexivity|].
  cbn [flat_map hex_byte app List.length]. rewrite IH. lia.
Qed.

Lemma digest_length (msg : bytes) : List.length (MD5.digest msg) = 16%nat.
Proof.
  unfold MD5.digest.
  destruct (MD5.blocks _ _ MD5.init) as [[[a b] c] d].
  rewrite length_map, !length_app. reflexivity.
Qed.

(** Whatever the content, a digest is 32 characters long, from [md5sum]
    and from the hash object [md5_string] uses alike. *)
Theorem md5_digest_32_chars (content : bytes) :
  List.length (md5sum content) = 32%nat
  /\ List.length (md5_hexdigest (md5_update md5_new content)) = 32%nat.
Proof.
  rewrite md5sum_one_shot. unfold md5_hexdigest.
  rewrite hex_length, digest_length. split; reflexivity.
Qed.

(** ** Lines of the merged document *)

Lemma splitlines_no_linebreak (s : str) :
  forallb no_linebreak (splitlines s) = true.
Proof.
  induction s as [|c s IH IHtl] using str_pair_ind; [reflexivity|].
  cbn [splitlines]. destruct (is_linebreak c) eqn:Hc.
  - cbn [forallb no_linebreak andb].
    destruct s as [|d s']; [reflexivity|].
    destruct ((c =? CR) && (d =? LF)); [exact IHtl | exact IH].
  - destruct (splitlines s) as [|l ls].
    + cbn. rewrite Hc. reflexivity.
    + cbn [forallb] in *. apply andb_true_iff in IH as [Hl Hls].
      rewrite Hls, andb_true_r. unfold no_linebreak in *. cbn [forallb].
      rewrite Hc, Hl. reflexivity.
Qed.

Lemma splitlines_terminated (l t : str) :
  no_linebreak l = true ->
  splitlines (l ++ LF :: t) = l :: splitlines t.
Proof.
  induction l as [|c l IH]; intros Hl.
  - cbn [app splitlines]. change (is_linebreak LF) with true. cbv iota.
    destruct t as [|d t']; reflexivity.
  - unfold no_linebreak in Hl. cbn [forallb] in Hl.
    apply andb_true_iff in Hl as [Hc Hl]. apply negb_true_iff in Hc.
    cbn [app splitlines]. rewrite Hc, (IH Hl). reflexivity.
Qed.

Lemma splitlines_all_terminated (lines : list str) :
  forallb no_linebreak lines = true ->
  splitlines (flat_map (fun l => l ++ [LF]) lines) = lines.
Proof.
  induction lines as [|l lines IH]; [reflexivity|].
  cbn [forallb flat_map]. rewrite andb_true_iff. intros [Hl Hr].
  rewrite <- app_assoc. cbn [app].
  rewrite (splitlines_terminated _ _ Hl), (IH Hr). reflexivity.
Qed.

Lemma join_terminated (sep : str) (lines : list str) :
  lines <> [] ->
  join sep lines ++ sep = flat_map (fun l => l ++ sep) lines.
Proof.
  induction lines as [|l lines IH]; [congruence | intros _].
  destruct lines as [|l' lines].
  - cbn. rewrite app_nil_r. reflexivity.
  - rewrite join_cons by discriminate.
    change (flat_map (fun l => l ++ sep) (l :: l' :: lines))
      with ((l ++ sep) ++ flat_map (fun l => l ++ sep) (l' :: lines)).
    rewrite <- IH by discriminate. rewrite <- !app_assoc. reflexivity.
Qed.

Lemma merge_block_lines (xml_content : str) :
  merge_block xml_content ++ [LF]
  = flat_map (fun l => l ++ [LF]) (block_lines xml_content).
Proof.
  unfold merge_block, block_lines.
  destruct (filter keep_line (splitlines (strip xml_content))) as [|l ls].
  - reflexivity.
  - apply join_terminated. discriminate.
Qed.

Lemma block_lines_no_linebreak (xml_content : str) :
  forallb no_linebreak (block_lines xml_content) = true.
Proof.
  unfold block_lines.
  pose proof (splitlines_no_linebreak (strip xml_content)) as H.
  assert (F : forallb no_linebreak
                (filter keep_line (splitlines (strip xml_content))) = true).
  { rewrite forallb_forall in *. intros l Hl. apply H.
    apply filter_In in Hl. exact (proj1 Hl). }
  destruct (filter keep_line (splitlines (strip xml_content)));
    [reflexivity | exact F].
Qed.

Lemma generate_addons_xml_terminated (addon_xmls : list str) :
  generate_addons_xml addon_xmls
  = flat_map (fun l => l ++ [LF])
      ([xml_declaration; py "<addons>"]
       ++ flat_map block_lines addon_xmls ++ [py "</addons>"]).
Proof.
  assert (H : flat_map (fun b => b ++ [LF]) (List.map merge_block addon_xmls)
              = flat_map (fun l => l ++ [LF])
                         (flat_map block_lines addon_xmls)).
  { induction addon_xmls as [|x xs IH]; [reflexivity|].
    cbn [List.map flat_map].
    rewrite flat_map_app, IH, merge_block_lines. reflexivity. }
  rewrite generate_addons_xml_blocks, H, !flat_map_app.
  change (flat_map (fun l => l ++ [LF]) [xml_declaration; py "<addons>"])
    with (addons_open ++ [LF]).
  change (flat_map (fun l => l ++ [LF]) [py "</addons>"]) with addons_close.
  rewrite <- app_assoc. reflexivity.
Qed.

Lemma all_block_lines_no_linebreak (addon_xmls : list str) :
  forallb no_linebreak (flat_map block_lines addon_xmls) = true.
Proof.
  induction addon_xmls as [|x xs IH]; [reflexivity|].
  cbn [flat_map]. rewrite forallb_app, IH, block_lines_no_linebreak.
  reflexivity.
Qed.

(** The merged document read back line by line: the declaration, the
    opening tag, the lines kept of each manifest in order (one empty line
    for a manifest of which none is kept), the closing tag. *)
Theorem generate_addons_xml_lines (addon_xmls : list str) :
  splitlines (generate_addons_xml addon_xmls)
  = [xml_declaration; py "<addons>"]
    ++ flat_map block_lines addon_xmls ++ [py "</addons>"].
Proof.
  rewrite generate_addons_xml_terminated.
  apply splitlines_all_terminated.
  rewrite forallb_app, forallb_app, all_block_lines_no_linebreak.
  reflexivity.
Qed.

(** ** Entries of a listing page *)

(** What a page links, read both ways: in a subdirectory every
    subdirectory (with a trailing slash) and every file but the page
    itself; at the root no directory, and of the files exactly those whose
    names end in [.zip]. *)
Theorem index_entries_membership (is_root : bool) (dirs files : list str)
  (e : str) :
  In e (index_entries is_root dirs files)
  <-> (is_root = false /\ exists d, In d dirs /\ e = dir_link d)
      \/ (exists f, In f files /\ f <> index_name
                    /\ (is_root = true -> endswith f zip_ext = true)
                    /\ e = file_link f).
Proof.
  rewrite index_entries_links, in_app_iff. split.
  - intros [H|H].
    + left. destruct is_root; [destruct H|]. split; [reflexivity|].
      apply in_map_iff in H as (d & <- & Hd). exists d.
      rewrite In_sorted in Hd. split; [exact Hd | reflexivity].
    + right. apply in_map_iff in H as (f & <- & Hf).
      apply filter_In in Hf as [Hf Hl]. rewrite In_sorted in Hf.
      unfold listed in Hl. apply andb_true_iff in Hl as [Hi Hz].
      exists f. repeat split.
      * exact Hf.
      * apply str_eqb_neq. apply negb_true_iff. exact Hi.
      * intros ->. cbn [andb] in Hz. rewrite negb_involutive in Hz. exact Hz.
  - intros [[-> (d & Hd & ->)] | (f & Hf & Hne & Hz & ->)].
    + left. apply in_map. rewrite In_sorted. exact Hd.
    + right. apply in_map. apply filter_In. split.
      * rewrite In_sorted. exact Hf.
      * unfold listed. apply andb_true_iff. split.
        -- apply negb_true_iff, str_eqb_neq. exact Hne.
        -- destruct is_root; [|reflexivity]. cbn [andb].
           rewrite (Hz eq_refl). reflexivity.
Qed.

Lemma str_leb_total (a b : str) : str_leb a b = false -> str_leb b a = true.
Proof.
  revert b. induction a as [|x a IH]; intros [|y b]; cbn [str_leb];
    try discriminate; try reflexivity.
  intros H. apply orb_false_iff in H as [H1 H2].
  apply N.ltb_ge in H1.
  destruct (N.eqb_spec x y) as [->|Hne].
  - cbn [andb] in H2. rewrite N.ltb_irrefl, N.eqb_refl. cbn.
    exact (IH b H2).
  - assert (L : (y <? x) = true) by (apply N.ltb_lt; lia).
    rewrite L. reflexivity.
Qed.

Lemma str_leb_trans (a b c : str) :
  str_leb a b = true -> str_leb b c = true -> str_leb a c = true.
Proof.
  revert b c. induction a as [|x a IH]; intros [|y b] [|z c];
    cbn [str_leb]; try discriminate; try reflexivity.
  intros H1 H2.
  apply orb_true_iff in H1. apply orb_true_iff in H2.
  apply orb_true_iff.
  destruct H1 as [H1|H1], H2 as [H2|H2].
  - left. apply N.ltb_lt in H1, H2. apply N.ltb_lt. lia.
  - apply andb_true_iff in H2 as [E _]. apply N.eqb_eq in E. subst z.
    left. exact H1.
  - apply andb_true_iff in H1 as [E _]. apply N.eqb_eq in E. subst y.
    left. exact H2.
  - apply andb_true_iff in H1 as [E1 L1].
    apply andb_true_iff in H2 as [E2 L2].
    apply N.eqb_eq in E1, E2. subst y z. right.
    rewrite N.eqb_refl. exact (IH _ _ L1 L2).
Qed.

Lemma insert_sorted_ascending (x : str) (l : list str) :
  ascending l -> ascending (insert_sorted x l).
Proof.
  unfold ascending. induction l as [|y l IH]; intros Hl; cbn [insert_sorted].
  - constructor; constructor.
  - apply StronglySorted_inv in Hl as [Hl Hy].
    destruct (str_leb x y) eqn:E.
    + constructor; [constructor; assumption|].
      constructor; [exact E|].
      rewrite Forall_forall in *. intros z Hz.
      exact (str_leb_trans _ _ _ E (Hy z Hz)).
    + constructor; [exact (IH Hl)|].
      rewrite Forall_forall in *. intros z Hz.
      apply In_insert_sorted in Hz as [->|Hz].
      * exact (str_leb_total _ _ E).
      * exact (Hy z Hz).
Qed.

Lemma sorted_ascending (l : list str) : ascending (sorted l).
Proof.
  induction l as [|x l IH]; [constructor|].
  exact (insert_sorted_ascending x _ IH).
Qed.

Lemma filter_ascending (p : str -> bool) (l : list str) :
  ascending l -> ascending (filter p l).
Proof.
  unfold ascending. induction l as [|x l IH]; intros Hl; [constructor|].
  apply StronglySorted_inv in Hl as [Hl Hx]. cbn [filter].
  destruct (p x); [|exact (IH Hl)].
  constructor; [exact (IH Hl)|].
  rewrite Forall_forall in *. intros z Hz. apply filter_In in Hz as [Hz _].
  exact (Hx z Hz).
Qed.

Lemma insert_sorted_permuted (x : str) (l : list str) :
  Permutation (insert_sorted x l) (x :: l).
Proof.
  induction l as [|y l IH]; cbn [insert_sorted]; [apply Permutation_refl|].
  destruct (str_leb x y); [apply Permutation_refl|].
  apply perm_trans with (y :: x :: l); [|apply perm_swap].
  apply perm_skip. exact IH.
Qed.

Lemma sorted_permuted (l : list str) : Permutation (sorted l) l.
Proof.
  induction l as [|x l IH]; [apply perm_nil|].
  apply perm_trans with (x :: sorted l);
    [apply insert_sorted_permuted | apply perm_skip; exact IH].
Qed.

Lemma filter_permuted (p : str -> bool) (l l' : list str) :
  Permutation l l' -> Permutation (filter p l) (filter p l').
Proof.
  induction 1 as [|x l l' _ IH|x y l|l l' l'' _ IH1 _ IH2]; cbn [filter].
  - apply perm_nil.
  - destruct (p x); [apply perm_skip|]; exact IH.
  - destruct (p x), (p y);
      first [apply perm_swap | apply Permutation_refl].
  - exact (perm_trans IH1 IH2).
Qed.

(** The links of a page are its entries in order: first one link for each
    subdirectory (none at the root), the subdirectories in ascending order
    of their names, then one link for each file that is listed, the files
    in ascending order of theirs. *)
Theorem index_entries_order (is_root : bool) (dirs files : list str) :
  exists ds fs,
    index_entries is_root dirs files
    = List.map dir_link ds ++ List.map file_link fs
    /\ Permutation ds (if is_root then [] else dirs)
    /\ Permutation fs (filter (listed is_root) files)
    /\ ascending ds /\ ascending fs.
Proof.
  rewrite index_entries_links.
  exists (if is_root then [] else sorted dirs),
         (filter (listed is_root) (sorted files)).
  split; [destruct is_root; reflexivity|].
  split; [destruct is_root; [apply perm_nil | apply sorted_permuted]|].
  split; [apply filter_permuted, sorted_permuted|].
  split.
  - destruct is_root; [constructor | apply sorted_ascending].
  - apply filter_ascending, sorted_ascending.
Qed.

(** ** What the walk leaves alone *)

Lemma node_at_app (p q : list str) (n : node) :
  node_at (p ++ q) n
  = match node_at p n with
    | Some m => node_at q m
    | None => None
    end.
Proof.
  revert n. induction p as [|d p IH]; intros n; [reflexivity|].
  cbn [app node_at]. destruct n as [f|es]; [reflexivity|].
  destruct (lookup d es); [apply IH | reflexivity].
Qed.

(** A walk that did not fail keeps every directory a directory. *)
Lemma walk_dir_at (path : list str) :
  forall (is_root : bool) (n n' : node) (es : listing),
    walk is_root n = (Ok tt, n') ->
    node_at path n = Some (Dir es) ->
    exists es', node_at path n' = Some (Dir es').
Proof.
  induction path as [|d path IH]; intros is_root n n' es Hw Hn.
  - cbn [node_at] in Hn. injection Hn as ->.
    destruct (walk_ok_inv _ _ _ Hw) as (page & es' & _ & _ & _ & ->).
    eexists. reflexivity.
  - cbn [node_at] in Hn. destruct n as [f|es0]; [discriminate|].
    destruct (lookup d es0) as [child|] eqn:L; [|discriminate].
    destruct (walk_ok_inv _ _ _ Hw) as (page & es' & _ & Hidx & Hv & ->).
    pose proof (visit_ok _ _ _ _ _ Hv L) as Hc.
    destruct child as [f|sub].
    { destruct path; discriminate. }
    destruct Hc as (child' & Hwc & Hl').
    cbn [node_at]. rewrite lookup_put_other.
    + rewrite Hl'. exact (IH false _ _ _ Hwc Hn).
    + intros E. subst d. exact (Hidx sub L).
Qed.

(** Generating the pages touches nothing else: in every directory of the
    tree, an entry that is not called [index.html] is afterwards the file
    it was, or still a directory, and a name that was free is still
    free. *)
Theorem generate_index_pages_only_pages (root root' : node)
  (path : list str) (es : listing) (name : str) :
  walk true root = (Ok tt, root') ->
  node_at path root = Some (Dir es) ->
  name <> index_name ->
  match lookup name es with
  | Some (File f) => node_at (path ++ [name]) root' = Some (File f)
  | Some (Dir _) => exists es', node_at (path ++ [name]) root' = Some (Dir es')
  | None => node_at (path ++ [name]) root' = None
  end.
Proof.
  intros Hw Hn Hne.
  assert (Hat : node_at (path ++ [name]) root = lookup name es).
  { rewrite node_at_app, Hn. cbn [node_at].
    destruct (lookup name es); reflexivity. }
  destruct (lookup name es) as [[f|sub]|] eqn:L.
  - exact (walk_file_at path true _ _ _ _ Hw Hat Hne).
  - exact (walk_dir_at (path ++ [name]) true _ _ _ Hw Hat).
  - exact (walk_none_at path true _ _ _ _ Hw Hn L Hne).
Qed.

Lemma generate_index_pages_only_pages_witness :
  node_at [py "plugin.x"; py "plugin.x-2.1.zip"]
          (snd (walk true example_tree))
  = Some (File plugin_zip).
Proof.
  exact (generate_index_pages_only_pages
           example_tree (snd (walk true example_tree))
           [py "plugin.x"]
           [(py "plugin.x-2.1.zip", File plugin_zip);
            (py "plugin.x-2.1.zip.md5",
             File (text_file
                     (ascii_bytes "0f343b0931126a20f133d67c2b018a3b")));
            (py "index.html", File (text_file (ascii_bytes "old")))]
           (py "plugin.x-2.1.zip")
           eq_refl eq_refl
           (proj1 (str_eqb_neq (py "plugin.x-2.1.zip") index_name) eq_refl)).
Defined.

(** ** The UTF-8 codec *)

Ltac div_lia := zify; Z.to_euclidean_division_equations; lia.

Lemma byte_of_to_N (b : byte) : byte_of_N (Byte.to_N b) = b.
Proof.
  unfold byte_of_N. pose proof (Byte.to_N_bounded b) as B.
  rewrite N.mod_small by lia. rewrite Byte.of_to_N. reflexivity.
Qed.

Lemma to_of_N_byte (n : N) : n < 256 -> Byte.to_N (byte_of_N n) = n.
Proof.
  intros B. unfold byte_of_N. rewrite N.mod_small by lia.
  destruct (Byte.of_N n) as [b|] eqn:E.
  - apply Byte.to_of_N. exact E.
  - apply Byte.of_N_None_iff in E. lia.
Qed.

Lemma between_spec (lo x hi : N) :
  between lo x hi = true <-> lo <= x /\ x <= hi.
Proof.
  unfold between. rewrite andb_true_iff, !N.leb_le. reflexivity.
Qed.

Lemma utf8_encode_cons (c : char) (s : str) (ns : list N) (rest : bytes) :
  encode_char c = Some ns -> utf8_encode s = Some rest ->
  utf8_encode (c :: s) = Some (List.map byte_of_N ns ++ rest).
Proof. intros E R. cbn [utf8_encode]. rewrite E, R. reflexivity. Qed.

Lemma utf8_decode_N_encode (n : nat) :
  forall (bs : list N) (s : str),
    (List.length bs <= n)%nat ->
    utf8_decode_N bs = Some s ->
    utf8_encode s = Some (List.map byte_of_N bs).
Proof.
  induction n as [|n IH]; intros bs s L D.
  - destruct bs; [|cbn in L; lia]. cbn in D. injection D as <-. reflexivity.
  - destruct bs as [|b0 r0]; [cbn in D; injection D as <-; reflexivity|].
    cbn [utf8_decode_N] in D. cbn [List.length] in L.
    destruct (b0 <? 0x80) eqn:A.
    { destruct (utf8_decode_N r0) as [s'|] eqn:D'; [|discriminate].
      injection D as <-. apply N.ltb_lt in A.
      apply (utf8_encode_cons b0 s' [b0]).
      - unfold encode_char. apply N.ltb_lt in A. rewrite A. reflexivity.
      - apply IH; [lia | exact D']. }
    apply N.ltb_ge in A.
    destruct (between 0xc2 b0 0xdf) eqn:B2.
    { apply between_spec in B2.
      destruct r0 as [|b1 r1]; [discriminate|].
      destruct (is_cont b1) eqn:C1; [|discriminate].
      apply between_spec in C1.
      destruct (utf8_decode_N r1) as [s'|] eqn:D'; [|discriminate].
      injection D as <-. cbn [List.length] in L.
      apply (utf8_encode_cons _ s' [b0; b1]).
      - unfold encode_char.
        replace (_ <? 0x80) with false by (symmetry; apply N.ltb_ge; lia).
        replace (_ <? 0x800) with true by (symmetry; apply N.ltb_lt; lia).
        f_equal. f_equal; [|f_equal]; div_lia.
      - apply IH; [lia | exact D']. }
    destruct (between 0xe0 b0 0xef) eqn:B3.
    { apply between_spec in B3.
      destruct r0 as [|b1 [|b2 r2]]; try discriminate.
      destruct (between _ b1 _ && is_cont b2) eqn:C; [|discriminate].
      apply andb_true_iff in C. destruct C as [C1 C2].
      apply between_spec in C1. apply between_spec in C2.
      destruct (utf8_decode_N r2) as [s'|] eqn:D'; [|discriminate].
      injection D as <-. cbn [List.length] in L.
      assert (R1 : (if b0 =? 0xe0 then 0xa0 else 0x80) <= b1
                   /\ b1 <= (if b0 =? 0xed then 0x9f else 0xbf)) by exact C1.
      clear C1.
      assert (Q : (b0 = 0xe0 -> 0xa0 <= b1) /\ (b0 = 0xed -> b1 <= 0x9f)
                  /\ 0x80 <= b1 /\ b1 <= 0xbf).
      { destruct (N.eqb_spec b0 0xe0), (N.eqb_spec b0 0xed); lia. }
      clear R1.
      apply (utf8_encode_cons _ s' [b0; b1; b2]).
      - unfold encode_char.
        replace (_ <? 0x80) with false by (symmetry; apply N.ltb_ge; lia).
        replace (_ <? 0x800) with false by (symmetry; apply N.ltb_ge; lia).
        replace (_ <? 0x10000) with true by (symmetry; apply N.ltb_lt; lia).
        replace ((0xd800 <=? _) && (_ <=? 0xdfff)) with false.
        + f_equal. f_equal; [|f_equal; [|f_equal]]; div_lia.
        + symmetry. apply andb_false_iff.
          rewrite N.leb_gt, N.leb_gt. lia.
      - apply IH; [lia | exact D']. }
    destruct (between 0xf0 b0 0xf4) eqn:B4; [|discriminate].
    apply between_spec in B4.
    destruct r0 as [|b1 [|b2 [|b3 r3]]]; try discriminate.
    destruct (between _ b1 _ && is_cont b2 && is_cont b3) eqn:C;
      [|discriminate].
    apply andb_true_iff in C. destruct C as [C C3].
    apply andb_true_iff in C. destruct C as [C1 C2].
    apply between_spec in C1. apply between_spec in C2.
    apply between_spec in C3.
    destruct (utf8_decode_N r3) as [s'|] eqn:D'; [|discriminate].
    injection D as <-. cbn [List.length] in L.
    assert (Q : (b0 = 0xf0 -> 0x90 <= b1) /\ (b0 = 0xf4 -> b1 <= 0x8f)
                /\ 0x80 <= b1 /\ b1 <= 0xbf).
    { destruct (N.eqb_spec b0 0xf0), (N.eqb_spec b0 0xf4); lia. }
    clear C1.
    apply (utf8_encode_cons _ s' [b0; b1; b2; b3]).
    + unfold encode_char.
      replace (_ <? 0x80) with false by (symmetry; apply N.ltb_ge; lia).
      replace (_ <? 0x800) with false by (symmetry; apply N.ltb_ge; lia).
      replace (_ <? 0x10000) with false by (symmetry; apply N.ltb_ge; lia).
      replace (_ <? 0x110000) with true by (symmetry; apply N.ltb_lt; lia).
      f_equal. f_equal; [|f_equal; [|f_equal; [|f_equal]]]; div_lia.
    + apply IH; [lia | exact D'].
Qed.

Lemma some_inj {A} (a b : A) : Some a = Some b -> a = b.
Proof. congruence. Qed.

Lemma encode_char_bytes (c : char) (ns : list N) :
  encode_char c = Some ns -> Forall (fun n => n < 256) ns.
Proof.
  unfold encode_char. intros E.
  destruct (N.ltb_spec c 0x80).
  { assert (E' := some_inj _ _ E); subst ns; clear E. repeat (apply Forall_cons; [lia|]); apply Forall_nil. }
  destruct (N.ltb_spec c 0x800).
  { assert (E' := some_inj _ _ E); subst ns; clear E. repeat (apply Forall_cons; [div_lia|]); apply Forall_nil. }
  destruct (N.ltb_spec c 0x10000).
  { destruct ((0xd800 <=? c) && (c <=? 0xdfff)); [discriminate|].
    assert (E' := some_inj _ _ E); subst ns; clear E. repeat (apply Forall_cons; [div_lia|]); apply Forall_nil. }
  destruct (N.ltb_spec c 0x110000); [|discriminate].
  assert (E' := some_inj _ _ E); subst ns; clear E. repeat (apply Forall_cons; [div_lia|]); apply Forall_nil.
Qed.

Lemma map_to_of_N (ns : list N) :
  Forall (fun n => n < 256) ns ->
  List.map Byte.to_N (List.map byte_of_N ns) = ns.
Proof.
  induction 1 as [|n ns B _ IH]; [reflexivity|].
  cbn [List.map]. rewrite to_of_N_byte by exact B. rewrite IH. reflexivity.
Qed.

Lemma utf8_decode_N_char (c : char) (ns rest : list N) :
  encode_char c = Some ns ->
  utf8_decode_N (ns ++ rest) = option_map (cons c) (utf8_decode_N rest).
Proof.
  unfold encode_char. intros E.
  destruct (N.ltb_spec c 0x80) as [A|A].
  { assert (E' := some_inj _ _ E); subst ns; clear E. cbn [app utf8_decode_N].
    apply N.ltb_lt in A. rewrite A. reflexivity. }
  destruct (N.ltb_spec c 0x800) as [B|B].
  { assert (E' := some_inj _ _ E); subst ns; clear E. cbn [app utf8_decode_N].
    replace (_ <? 0x80) with false by (symmetry; apply N.ltb_ge; div_lia).
    replace (between 0xc2 _ 0xdf) with true
      by (symmetry; apply between_spec; div_lia).
    replace (is_cont _) with true
      by (symmetry; apply between_spec; div_lia).
    f_equal. f_equal. div_lia. }
  destruct (N.ltb_spec c 0x10000) as [C|C].
  { destruct ((0xd800 <=? c) && (c <=? 0xdfff)) eqn:S; [discriminate|].
    apply andb_false_iff in S. rewrite !N.leb_gt in S.
    assert (E' := some_inj _ _ E); subst ns; clear E. cbn [app utf8_decode_N].
    replace (_ <? 0x80) with false by (symmetry; apply N.ltb_ge; div_lia).
    replace (between 0xc2 _ 0xdf) with false.
    2:{ symmetry. apply not_true_is_false. rewrite between_spec. div_lia. }
    replace (between 0xe0 _ 0xef) with true
      by (symmetry; apply between_spec; div_lia).
    replace (between _ _ _ && is_cont _) with true.
    - f_equal. f_equal. div_lia.
    - symmetry. apply andb_true_iff. split; apply between_spec.
      + destruct (N.eqb_spec (0xe0 + c / 4096) 0xe0),
                 (N.eqb_spec (0xe0 + c / 4096) 0xed); div_lia.
      + div_lia. }
  destruct (N.ltb_spec c 0x110000) as [D|D]; [|discriminate].
  assert (E' := some_inj _ _ E); subst ns; clear E. cbn [app utf8_decode_N].
  replace (_ <? 0x80) with false by (symmetry; apply N.ltb_ge; div_lia).
  replace (between 0xc2 _ 0xdf) with false.
  2:{ symmetry. apply not_true_is_false. rewrite between_spec. div_lia. }
  replace (between 0xe0 _ 0xef) with false.
  2:{ symmetry. apply not_true_is_false. rewrite between_spec. div_lia. }
  replace (between 0xf0 _ 0xf4) with true
    by (symmetry; apply between_spec; div_lia).
  replace (between _ _ _ && is_cont _ && is_cont _) with true.
  - f_equal. f_equal. div_lia.
  - symmetry. rewrite !andb_true_iff. repeat split; apply between_spec.
    + destruct (N.eqb_spec (0xf0 + c / 262144) 0xf0),
               (N.eqb_spec (0xf0 + c / 262144) 0xf4); div_lia.
    + div_lia.
    + div_lia.
Qed.

Lemma utf8_encode_decode (s : str) :
  forall data, utf8_encode s = Some data -> utf8_decode data = Some s.
Proof.
  induction s as [|c s IH]; intros data E.
  - injection E as <-. reflexivity.
  - cbn [utf8_encode] in E.
    destruct (encode_char c) as [ns|] eqn:Ec; [|discriminate].
    destruct (utf8_encode s) as [rest|] eqn:Er; [|discriminate].
    injection E as <-. unfold utf8_decode.
    rewrite map_app, map_to_of_N by (eapply encode_char_bytes; eassumption).
    rewrite (utf8_decode_N_char c ns _ Ec).
    specialize (IH rest eq_refl). unfold utf8_decode in IH. rewrite IH.
    reflexivity.
Qed.

Lemma utf8_decode_encode (data : bytes) (s : str) :
  utf8_decode data = Some s -> utf8_encode s = Some data.
Proof.
  unfold utf8_decode. intros D.
  rewrite (utf8_decode_N_encode _ _ _ (le_n _) D).
  rewrite map_map. f_equal.
  rewrite <- (map_id data) at 2. apply map_ext. apply byte_of_to_N.
Qed.

(** ** Member names that count as the manifest *)

Lemma repeat_snoc {A} (x : A) (k : nat) : repeat x k ++ [x] = x :: repeat x k.
Proof. induction k as [|k IH]; [reflexivity|]. cbn. rewrite IH. reflexivity. Qed.

Lemma rev_repeat_same {A} (x : A) (k : nat) : rev (repeat x k) = repeat x k.
Proof.
  induction k as [|k IH]; [reflexivity|]. cbn [repeat rev].
  rewrite IH. apply repeat_snoc.
Qed.

Lemma lstrip_char_spec (x : char) (s : str) :
  exists k, s = repeat x k ++ lstrip_char x s
            /\ match lstrip_char x s with
               | [] => True
               | c :: _ => c <> x
               end.
Proof.
  induction s as [|c s IH].
  - exists 0%nat. split; [reflexivity | exact I].
  - cbn [lstrip_char]. destruct (N.eqb_spec c x) as [->|Hc].
    + destruct IH as (k & E & H). exists (S k). cbn [repeat app].
      rewrite <- E. auto.
    + exists 0%nat. split; [reflexivity | exact Hc].
Qed.

Lemma lstrip_char_repeat (x : char) (k : nat) (t : str) :
  lstrip_char x (repeat x k ++ t) = lstrip_char x t.
Proof.
  induction k as [|k IH]; [reflexivity|]. cbn [repeat app lstrip_char].
  rewrite N.eqb_refl. exact IH.
Qed.

Lemma rstrip_char_spec (x : char) (s : str) :
  exists k, s = rstrip_char x s ++ repeat x k
            /\ ends_clear x (rstrip_char x s).
Proof.
  unfold rstrip_char. destruct (lstrip_char_spec x (rev s)) as (k & E & H).
  exists k. split.
  - apply (f_equal (@rev char)) in E.
    rewrite rev_involutive, rev_app_distr, rev_repeat_same in E. exact E.
  - destruct (lstrip_char x (rev s)) as [|c r]; [left; reflexivity|].
    right. exists (rev r), c. split; [reflexivity | exact H].
Qed.

Lemma rstrip_char_clear (x : char) (d : str) (k : nat) :
  ends_clear x d -> rstrip_char x (d ++ repeat x k) = d.
Proof.
  intros H. unfold rstrip_char.
  rewrite rev_app_distr, rev_repeat_same, lstrip_char_repeat.
  destruct H as [-> | (r & c & -> & Hc)]; [reflexivity|].
  rewrite rev_app_distr. cbn [rev app lstrip_char].
  apply N.eqb_neq in Hc. rewrite Hc. cbn [rev].
  rewrite rev_involutive. reflexivity.
Qed.

Lemma rstrip_char_same (x : char) (d : str) :
  ends_clear x d -> rstrip_char x d = d.
Proof.
  intros H. rewrite <- (app_nil_r d) at 1.
  exact (rstrip_char_clear x d 0 H).
Qed.

Lemma split_last_slash_spec (p : str) :
  p = fst (split_last_slash p) ++ snd (split_last_slash p)
  /\ no_slash (snd (split_last_slash p)) = true
  /\ (fst (split_last_slash p) = []
      \/ exists r, fst (split_last_slash p) = r ++ [SLASH]).
Proof.
  induction p as [|c p IH]; [cbn; auto|].
  cbn [split_last_slash].
  destruct (split_last_slash p) as [head tail]. cbn [fst snd] in IH.
  destruct IH as (E & Ht & Hh). destruct head as [|h head].
  - destruct (N.eqb_spec c SLASH) as [->|Hc]; cbn [fst snd].
    + split; [rewrite E; reflexivity|]. split; [exact Ht|].
      right. exists []. reflexivity.
    + split; [rewrite E; reflexivity|]. split; [|left; reflexivity].
      unfold no_slash. cbn [forallb]. apply N.eqb_neq in Hc.
      rewrite Hc. exact Ht.
  - cbn [fst snd]. split; [rewrite E; reflexivity|]. split; [exact Ht|].
    right. destruct Hh as [Hh | (r & Hr)]; [discriminate|].
    exists (c :: r). cbn [app]. rewrite <- Hr. reflexivity.
Qed.

Lemma split_last_slash_tail (t : str) :
  no_slash t = true -> split_last_slash t = ([], t).
Proof.
  induction t as [|c t IH]; [reflexivity|]. unfold no_slash.
  cbn [forallb]. intros H. apply andb_true_iff in H. destruct H as [Hc Ht].
  cbn [split_last_slash]. rewrite (IH Ht).
  apply negb_true_iff in Hc. rewrite Hc. reflexivity.
Qed.

Lemma split_last_slash_app (r t : str) :
  no_slash t = true ->
  split_last_slash ((r ++ [SLASH]) ++ t) = (r ++ [SLASH], t).
Proof.
  intros Ht. induction r as [|c r IH].
  - cbn [app split_last_slash]. rewrite (split_last_slash_tail t Ht).
    reflexivity.
  - cbn [app split_last_slash]. cbn [app] in IH. rewrite IH.
    destruct r; reflexivity.
Qed.

Lemma split_last_slash_repeat (d : str) (k : nat) (t : str) :
  no_slash t = true ->
  split_last_slash (d ++ repeat SLASH (S k) ++ t)
  = (d ++ repeat SLASH (S k), t).
Proof.
  intros Ht.
  assert (E : d ++ repeat SLASH (S k) = (d ++ repeat SLASH k) ++ [SLASH]).
  { change (repeat SLASH (S k)) with (SLASH :: repeat SLASH k).
    rewrite <- repeat_snoc, app_assoc. reflexivity. }
  rewrite app_assoc, E. apply split_last_slash_app. exact Ht.
Qed.

Lemma dirname_rstrip (p : str) :
  rstrip_char SLASH (dirname p)
  = rstrip_char SLASH (fst (split_last_slash p)).
Proof.
  unfold dirname. destruct (forallb _ _); [reflexivity|].
  destruct (rstrip_char_spec SLASH (fst (split_last_slash p)))
    as (k & _ & H).
  apply rstrip_char_same. exact H.
Qed.

(** The members that count as the manifest are exactly those called
    [addon.xml] after any number of slashes, and those called so after the
    identifier and at least one slash. *)
Theorem is_addon_xml_names (addon_id name : str) :
  is_addon_xml addon_id name = true
  <-> exists k,
        name = repeat SLASH k ++ addon_xml_name
        \/ (rstrip_char SLASH addon_id = addon_id
            /\ name = addon_id ++ repeat SLASH (S k) ++ addon_xml_name).
Proof.
  unfold is_addon_xml, basename. rewrite dirname_rstrip.
  rewrite andb_true_iff, orb_true_iff, !str_eqb_eq. split.
  - intros [Hb Hd].
    destruct (split_last_slash_spec name) as (E & _ & Hh).
    destruct (rstrip_char_spec SLASH (fst (split_last_slash name)))
      as (k & Ek & Hc).
    rewrite Hb in E. rewrite Ek in E.
    destruct Hd as [Hd | Hd]; rewrite Hd in *.
    + exists k. left. exact E.
    + destruct k as [|k].
      * destruct Hh as [Hh | (r & Hr)].
        { exists 0%nat. left. rewrite Hh in Ek. cbn [repeat] in Ek.
          rewrite app_nil_r in Ek. rewrite <- Ek in E. exact E. }
        exfalso. cbn [repeat] in Ek. rewrite app_nil_r in Ek.
        rewrite Hr in Ek. destruct Hc as [Hc | (r' & c & Hc & Hne)].
        { rewrite Hc in Ek. destruct r; discriminate. }
        rewrite Hc in Ek. apply app_inj_tail in Ek. destruct Ek as [_ Ec].
        congruence.
      * exists k. right. split; [|rewrite <- app_assoc in E; exact E].
        apply rstrip_char_same. exact Hc.
  - intros (k & [-> | [Hid ->]]).
    + destruct k as [|k].
      * cbn [repeat app]. split; [reflexivity | left; reflexivity].
      * pose proof (split_last_slash_repeat [] k addon_xml_name eq_refl)
          as Sp. cbn [app] in Sp. cbn [app]. rewrite Sp.
        cbn [fst snd]. split; [reflexivity|]. left.
        exact (rstrip_char_clear SLASH [] (S k) (or_introl eq_refl)).
    + rewrite (split_last_slash_repeat addon_id k addon_xml_name eq_refl).
      cbn [fst snd]. split; [reflexivity|]. right.
      apply rstrip_char_clear. rewrite <- Hid.
      destruct (rstrip_char_spec SLASH addon_id) as (k' & _ & H). exact H.
Qed.

(** ** Steps of the run *)

Lemma print_ok (line : str) (w w' : world) (u : unit) :
  print line w = (Ok u, w') ->
  w' = {| dist := dist w; printed := printed w ++ [line] |}.
Proof. unfold print. intros H. injection H as _ <-. reflexivity. Qed.

Lemma ret_ok {A} (a b : A) (w w' : world) :
  ret a w = (Ok b, w') -> b = a /\ w' = w.
Proof. unfold ret. intros H. injection H as <- <-. split; reflexivity. Qed.

Lemma in_dir_dist (path : list str) (f : listing -> result listing)
  (w w' : world) (u : unit) :
  in_dir path f w = (Ok u, w') -> exists es, dist w = Some (Dir es).
Proof.
  unfold in_dir. destruct (dist w) as [[x|es]|]; try discriminate.
  - destruct path; discriminate.
  - intros _. exists es. reflexivity.
Qed.

Lemma in_dir_root_inv (f : listing -> result listing) (w w' : world) :
  in_dir [] f w = (Ok tt, w') ->
  exists es es',
    dist w = Some (Dir es) /\ f es = Ok es'
    /\ w' = {| dist := Some (Dir es'); printed := printed w |}.
Proof.
  intros H. destruct (in_dir_dist _ _ _ _ _ H) as (es & Hd).
  destruct (in_dir_root_ok _ _ _ _ H Hd) as (es' & F & E).
  exists es, es'. auto.
Qed.

Lemma in_dir_sub_inv (d : str) (f : listing -> result listing)
  (w w' : world) :
  in_dir [d] f w = (Ok tt, w') ->
  exists es sub sub',
    dist w = Some (Dir es) /\ lookup d es = Some (Dir sub) /\ f sub = Ok sub'
    /\ w' = {| dist := Some (Dir (put d (Dir sub') es));
               printed := printed w |}.
Proof.
  intros H. destruct (in_dir_dist _ _ _ _ _ H) as (es & Hd).
  destruct (in_dir_sub_ok _ _ _ _ _ H Hd) as (sub & sub' & L & F & E).
  exists es, sub, sub'. auto.
Qed.

Lemma open_file_ok (path : list str) (w w' : world) (f : file) :
  open_file path w = (Ok f, w') ->
  w' = w /\ exists root, dist w = Some root
                         /\ node_at path root = Some (File f).
Proof.
  unfold open_file. destruct (dist w) as [root|]; [|discriminate].
  destruct (node_at path root) as [[g|es]|] eqn:N; try discriminate.
  intros H. injection H as <- <-. split; [reflexivity|].
  exists root. auto.
Qed.

Lemma listing_of_ok (path : list str) (w w' : world) (es : listing) :
  listing_of path w = (Ok es, w') ->
  w' = w /\ exists root, dist w = Some root
                         /\ node_at path root = Some (Dir es).
Proof.
  unfold listing_of. destruct (dist w) as [root|]; [|discriminate].
  destruct (node_at path root) as [[g|es0]|] eqn:N; try discriminate.
  intros H. injection H as <- <-. split; [reflexivity|].
  exists root. auto.
Qed.

Lemma node_at_sub (d name : str) (sub es : listing) :
  node_at [d; name] (Dir (put d (Dir sub) es)) = lookup name sub.
Proof.
  cbn [node_at]. rewrite lookup_put_same.
  destruct (lookup name sub); reflexivity.
Qed.

Lemma node_at_sub_lookup (d name : str) (es sub : listing) :
  lookup d es = Some (Dir sub) ->
  node_at [d; name] (Dir es) = lookup name sub.
Proof.
  intros L. cbn [node_at]. rewrite L.
  destruct (lookup name sub); reflexivity.
Qed.

Lemma node_at_root (name : str) (es : listing) :
  node_at [name] (Dir es) = lookup name es.
Proof. cbn [node_at]. destruct (lookup name es); reflexivity. Qed.

Lemma md5_name_not_zip (zip_name : str) : zip_name ++ py ".md5" <> zip_name.
Proof.
  intros H. apply (f_equal (@List.length char)) in H.
  rewrite length_app in H. cbn in H. lia.
Qed.

Lemma put_sub_put (d : str) (x y : listing) (es : listing) :
  put d (Dir x) (put d (Dir y) es) = put d (Dir x) es.
Proof. apply put_put. Qed.

(** What [write_md5] leaves behind. *)
Lemma write_md5_ok (d zip_name : str) (w w' : world) :
  write_md5 d zip_name w = (Ok tt, w') ->
  exists es sub zip digest,
    dist w = Some (Dir es) /\ lookup d es = Some (Dir sub)
    /\ lookup zip_name sub = Some (File zip)
    /\ utf8_encode (md5sum (data zip)) = Some digest
    /\ w' = {| dist := Some (Dir (put d
                 (Dir (put (zip_name ++ py ".md5")
                           (File (text_file digest)) sub)) es));
               printed := printed w |}.
Proof.
  unfold write_md5, open_w, write. intros H.
  apply bind_ok in H. destruct H as ([] & w1 & Hc & H).
  apply in_dir_sub_inv in Hc.
  destruct Hc as (es & sub & sub1 & Hd & L & F & ->).
  apply write_file_ok in F. destruct F as [-> _].
  apply bind_ok in H. destruct H as (zip & w2 & Ho & H).
  apply open_file_ok in Ho. destruct Ho as (-> & root & Hr & Hn).
  cbn [dist] in Hr. injection Hr as <-.
  rewrite node_at_sub in Hn.
  rewrite lookup_put_other in Hn by apply md5_name_not_zip.
  destruct (utf8_encode (md5sum (data zip))) as [digest|] eqn:E;
    [|discriminate].
  apply in_dir_sub_inv in H.
  destruct H as (es' & sub' & sub2 & Hd' & L' & F & ->).
  cbn [dist] in Hd'. injection Hd' as <-.
  rewrite lookup_put_same in L'. injection L' as <-.
  apply write_file_ok in F. destruct F as [-> _].
  exists es, sub, zip, digest. rewrite put_put, put_put. cbn [printed].
  auto.
Qed.

Lemma download_asset_ok (env : environment) (repo tag pattern d : str)
  (w w' : world) (r : option str) :
  download_asset env repo tag pattern d w = (Ok r, w') ->
  exists es es1 sub returncode written,
    dist w = Some (Dir es)
    /\ mkdir d es = Ok es1
    /\ lookup d es1 = Some (Dir sub)
    /\ gh_release_download env repo tag pattern
       = DownloadEnded returncode written
    /\ w' = {| dist := Some (Dir (put d (Dir (written_to written sub)) es1));
               printed := printed w |}
    /\ r = if negb (returncode =? 0)%Z then None
           else first_zip (written_to written sub).
Proof.
  unfold download_asset. intros H.
  apply bind_ok in H. destruct H as ([] & w1 & Hm & H).
  apply in_dir_root_inv in Hm. destruct Hm as (es & es1 & Hd & Hm & ->).
  destruct (gh_release_download env repo tag pattern)
    as [|returncode written]; [discriminate|].
  apply bind_ok in H. destruct H as ([] & w2 & Hw & H).
  apply in_dir_sub_inv in Hw.
  destruct Hw as (es' & sub & sub' & Hd' & L & F & ->).
  cbn [dist] in Hd'. injection Hd' as <-. injection F as <-.
  exists es, es1, sub, returncode, written.
  do 4 (split; [auto|]).
  destruct (negb (returncode =? 0)%Z).
  - apply ret_ok in H. destruct H as [-> ->]. split; reflexivity.
  - apply bind_ok in H. destruct H as (l & w3 & Hl & H).
    apply listing_of_ok in Hl. destruct Hl as (-> & root & Hr & Hn).
    cbn [dist] in Hr. injection Hr as <-.
    cbn [node_at] in Hn. rewrite lookup_put_same in Hn.
    cbn [node_at] in Hn. injection Hn as <-.
    apply ret_ok in H. destruct H as [-> ->]. split; reflexivity.
Qed.

(** The two ways the loop body ends without exception: the list is as it
    was, or one manifest was added and archive and checksum are in the
    folder of the add-on. *)
Lemma process_addon_ok (env : environment) (addon : addon_entry)
  (xs xs' : list str) (w w' : world) :
  process_addon env addon xs w = (Ok xs', w') ->
  xs' = xs
  \/ exists es folder zip_name zip text digest,
       dist w' = Some (Dir es)
       /\ lookup (addon_id addon) es = Some (Dir folder)
       /\ suffix zip_name = zip_ext
       /\ lookup zip_name folder = Some (File zip)
       /\ extract_addon_xml zip (addon_id addon) = Ok (Some text)
       /\ text <> []
       /\ xs' = xs ++ [text]
       /\ utf8_encode (md5sum (data zip)) = Some digest
       /\ lookup (zip_name ++ py ".md5") folder
          = Some (File (text_file digest)).
Proof.
  unfold process_addon. intros H.
  apply bind_ok in H. destruct H as ([] & w1 & Hp & H).
  apply print_ok in Hp. subst w1.
  destruct (fetch_latest_release env (repo addon)) as [release|e].
  2:{ destruct e; try discriminate.
      apply bind_ok in H. destruct H as ([] & w2 & _ & H).
      apply ret_ok in H. left. apply H. }
  apply bind_ok in H. destruct H as ([] & w2 & Hp & H).
  apply print_ok in Hp. subst w2.
  apply bind_ok in H. destruct H as (zip_path & w3 & Hdl & H).
  apply download_asset_ok in Hdl.
  destruct Hdl as (es & es1 & sub & rc & written & Hd & Hm & L & _ & -> & Hz).
  destruct zip_path as [zip_name|].
  2:{ apply bind_ok in H. destruct H as ([] & w4 & _ & H).
      apply ret_ok in H. left. apply H. }
  destruct (negb (rc =? 0)%Z); [discriminate|]. symmetry in Hz.
  apply bind_ok in H. destruct H as (zip & w4 & Ho & H).
  apply open_file_ok in Ho. destruct Ho as (-> & root & Hr & Hn).
  cbn [dist] in Hr. injection Hr as <-. rewrite node_at_sub in Hn.
  apply bind_ok in H. destruct H as (xml & w5 & Hx & H).
  unfold lift in Hx. injection Hx as Hx <-.
  destruct xml as [[|c text]|].
  1,3: apply bind_ok in H; destruct H as ([] & w6 & _ & H);
       apply ret_ok in H; left; apply H.
  apply bind_ok in H. destruct H as ([] & w6 & Hmd & H).
  apply write_md5_ok in Hmd.
  destruct Hmd as (es2 & sub2 & zip2 & digest & Hd2 & L2 & Lz & E & ->).
  cbn [dist] in Hd2. injection Hd2 as <-.
  rewrite lookup_put_same in L2. injection L2 as <-.
  apply bind_ok in H. destruct H as ([] & w7 & Hp & H).
  apply print_ok in Hp. subst w7. apply ret_ok in H. destruct H as [-> ->].
  right. cbn [dist].
  assert (zip2 = zip) by congruence. subst zip2.
  eexists _, _, zip_name, zip, (c :: text), digest.
  split; [reflexivity|]. split; [apply lookup_put_same|].
  split; [eapply first_zip_suffix; exact Hz|].
  split.
  { rewrite lookup_put_other by apply md5_name_not_zip. exact Lz. }
  split; [exact Hx|]. split; [discriminate|]. split; [reflexivity|].
  split; [exact E|]. apply lookup_put_same.
Qed.

Lemma first_zip_lookup (es : listing) (name : str) :
  first_zip es = Some name -> exists x, lookup name es = Some x.
Proof.
  induction es as [|[n y] es IH]; [discriminate|]. cbn [first_zip lookup].
  destruct (str_eqb (suffix n) zip_ext).
  - intros H. injection H as <-. rewrite str_eqb_refl. eexists. reflexivity.
  - intros H. destruct (str_eqb n name); [eexists; reflexivity | auto].
Qed.

Lemma first_zip_none (es : listing) (name : str) (x : node) :
  first_zip es = None -> lookup name es = Some x -> suffix name <> zip_ext.
Proof.
  induction es as [|[n y] es IH]; [discriminate|]. cbn [first_zip lookup].
  destruct (str_eqb (suffix n) zip_ext) eqn:S; [discriminate|].
  intros H. destruct (str_eqb n name) eqn:E; [|auto].
  intros _. apply str_eqb_eq in E. subst n. apply str_eqb_neq. exact S.
Qed.

(** What [download_asset] returns: a name only when the download ended
    with return code 0, and then the name of an entry of the destination
    folder whose suffix is [.zip]; nothing when the return code is another
    or the folder has no entry with that suffix. *)
Theorem download_asset_result (env : environment)
  (repo tag pattern dest_dir : str) (w w' : world) (r : option str) :
  download_asset env repo tag pattern dest_dir w = (Ok r, w') ->
  exists returncode written root,
    gh_release_download env repo tag pattern
    = DownloadEnded returncode written
    /\ dist w' = Some root
    /\ match r with
       | Some zip_name =>
           returncode = 0%Z
           /\ suffix zip_name = zip_ext
           /\ exists x, node_at [dest_dir; zip_name] root = Some x
       | None =>
           returncode <> 0%Z
           \/ forall name x,
                node_at [dest_dir; name] root = Some x ->
                suffix name <> zip_ext
       end.
Proof.
  intros H. apply download_asset_ok in H.
  destruct H as (es & es1 & sub & rc & written & Hd & Hm & L & Hg & -> & ->).
  exists rc, written, (Dir (put dest_dir (Dir (written_to written sub)) es1)).
  split; [exact Hg|]. split; [reflexivity|].
  destruct (Z.eqb_spec rc 0) as [->|Hrc]; cbn [negb].
  - destruct (first_zip (written_to written sub)) as [zip_name|] eqn:F.
    + split; [reflexivity|]. split; [eapply first_zip_suffix; exact F|].
      rewrite node_at_sub. eapply first_zip_lookup. exact F.
    + right. intros name x. rewrite node_at_sub. apply first_zip_none.
      exact F.
  - left. exact Hrc.
Qed.

Lemma download_asset_result_witness :
  exists returncode written root,
    gh_release_download (env_no_manifest true) (repo plugin_y) (py "v2.1")
                        (asset_pattern plugin_y)
    = DownloadEnded returncode written
    /\ dist (snd (download_asset (env_no_manifest true) (repo plugin_y)
                    (py "v2.1") (asset_pattern plugin_y) (py "plugin.y")
                    {| dist := Some (Dir []); printed := [] |}))
       = Some root
    /\ returncode = 0%Z
    /\ suffix (py "plugin.y-2.1.zip") = zip_ext
    /\ exists x, node_at [py "plugin.y"; py "plugin.y-2.1.zip"] root = Some x.
Proof.
  refine (download_asset_result (env_no_manifest true) (repo plugin_y)
            (py "v2.1") (asset_pattern plugin_y) (py "plugin.y")
            {| dist := Some (Dir []); printed := [] |} _
            (Some (py "plugin.y-2.1.zip")) _).
  vm_compute. reflexivity.
Defined.

(** A manifest is added for a project only together with its archive and
    the checksum of that archive: when the loop body adds to the list, the
    folder of the add-on holds an entry with suffix [.zip], the manifest
    added is the non-empty one read from it, and the file beside it named
    with [.md5] appended holds the MD5 of the archive's bytes. *)
Theorem process_addon_pairs_archive_and_checksum (env : environment)
  (addon : addon_entry) (xs xs' : list str) (w w' : world) :
  process_addon env addon xs w = (Ok xs', w') ->
  xs' <> xs ->
  exists root zip_name zip text digest,
    dist w' = Some root
    /\ suffix zip_name = zip_ext
    /\ node_at [addon_id addon; zip_name] root = Some (File zip)
    /\ extract_addon_xml zip (addon_id addon) = Ok (Some text)
    /\ text <> []
    /\ xs' = xs ++ [text]
    /\ utf8_encode (md5sum (data zip)) = Some digest
    /\ node_at [addon_id addon; zip_name ++ py ".md5"] root
       = Some (File (text_file digest)).
Proof.
  intros H Hne. apply process_addon_ok in H.
  destruct H as [H | (es & folder & zip_name & zip & text & digest & Hd & L
                      & Hs & Lz & Hx & Ht & Hxs & E & Lm)];
    [contradiction|].
  exists (Dir es), zip_name, zip, text, digest.
  rewrite !(node_at_sub_lookup _ _ _ _ L). auto 10.
Qed.

Lemma process_addon_pairs_archive_and_checksum_witness :
  exists root zip_name zip text digest,
    dist (snd (process_addon (env_no_manifest true) plugin_y []
                 {| dist := Some (Dir []); printed := [] |})) = Some root
    /\ suffix zip_name = zip_ext
    /\ node_at [addon_id plugin_y; zip_name] root = Some (File zip)
    /\ extract_addon_xml zip (addon_id plugin_y) = Ok (Some text)
    /\ text <> []
    /\ [py "<addon id='plugin.y'/>"] = [] ++ [text]
    /\ utf8_encode (md5sum (data zip)) = Some digest
    /\ node_at [addon_id plugin_y; zip_name ++ py ".md5"] root
       = Some (File (text_file digest)).
Proof.
  refine (process_addon_pairs_archive_and_checksum
            (env_no_manifest true) plugin_y [] [py "<addon id='plugin.y'/>"]
            {| dist := Some (Dir []); printed := [] |} _ _ _).
  - vm_compute. reflexivity.
  - discriminate.
Defined.

(** The loop body for a project whose folder is new. *)
Lemma process_addon_fresh (env : environment) (addon : addon_entry)
  (xs xs' : list str) (w w' : world) (es : listing) :
  dist w = Some (Dir es) ->
  lookup (addon_id addon) es = None ->
  process_addon env addon xs w = (Ok xs', w') ->
  xs' = xs ++ manifest_of env addon.
Proof.
  intros Hd Hl H. unfold process_addon in H. unfold manifest_of.
  apply bind_ok in H. destruct H as ([] & w1 & Hp & H).
  apply print_ok in Hp. subst w1.
  destruct (fetch_latest_release env (repo addon)) as [release|e].
  2:{ destruct e; try discriminate.
      apply bind_ok in H. destruct H as ([] & w2 & _ & H).
      apply ret_ok in H. destruct H as [-> _].
      rewrite app_nil_r. reflexivity. }
  apply bind_ok in H. destruct H as ([] & w2 & Hp & H).
  apply print_ok in Hp. subst w2.
  apply bind_ok in H. destruct H as (zip_path & w3 & Hdl & H).
  apply download_asset_ok in Hdl.
  destruct Hdl as (es0 & es1 & sub & rc & written & Hd0 & Hm & L & Hg & ->
                   & Hz).
  cbn [dist] in Hd0. rewrite Hd in Hd0. injection Hd0 as <-.
  unfold mkdir in Hm. rewrite Hl in Hm. injection Hm as <-.
  rewrite (lookup_app_new _ _ _ Hl) in L. injection L as <-.
  rewrite Hg. cbv zeta.
  destruct (negb (rc =? 0)%Z).
  { subst zip_path. apply bind_ok in H. destruct H as ([] & w4 & _ & H).
    apply ret_ok in H. destruct H as [-> _].
    rewrite app_nil_r. reflexivity. }
  rewrite <- Hz. destruct zip_path as [zip_name|].
  2:{ apply bind_ok in H. destruct H as ([] & w4 & _ & H).
      apply ret_ok in H. destruct H as [-> _].
      rewrite app_nil_r. reflexivity. }
  apply bind_ok in H. destruct H as (zip & w4 & Ho & H).
  apply open_file_ok in Ho. destruct Ho as (-> & root & Hr & Hn).
  cbn [dist] in Hr. injection Hr as <-. rewrite node_at_sub in Hn.
  rewrite Hn.
  apply bind_ok in H. destruct H as (xml & w5 & Hx & H).
  unfold lift in Hx. injection Hx as Hx <-. rewrite Hx.
  destruct xml as [[|c text]|].
  1,3: apply bind_ok in H; destruct H as ([] & w6 & _ & H);
       apply ret_ok in H; destruct H as [-> _];
       rewrite app_nil_r; reflexivity.
  apply bind_ok in H. destruct H as ([] & w6 & _ & H).
  apply bind_ok in H. destruct H as ([] & w7 & _ & H).
  apply ret_ok in H. destruct H as [-> _]. reflexivity.
Qed.

(** The loop over projects with folders of their own, all new. *)
Lemma process_addons_fresh (env : environment) (config : list addon_entry) :
  forall (xs xs' : list str) (w w' : world) (es : listing),
    dist w = Some (Dir es) ->
    NoDup (List.map addon_id config) ->
    (forall a, In a config -> lookup (addon_id a) es = None) ->
    process_addons env (List.map Shaped config) xs w = (Ok xs', w') ->
    xs' = xs ++ flat_map (manifest_of env) config.
Proof.
  induction config as [|a config IH]; intros xs xs' w w' es Hd Hn Hl H.
  - apply ret_ok in H. destruct H as [-> _].
    rewrite app_nil_r. reflexivity.
  - cbn [List.map process_addons] in H.
    change (bind (lift (subscript (Shaped a))) ?k w) with (k a w) in H.
    apply bind_ok in H. destruct H as (xs1 & w1 & H1 & H).
    cbn [List.map] in Hn. apply NoDup_cons_iff in Hn.
    destruct Hn as [Hna Hn].
    pose proof (process_addon_fresh _ _ _ _ _ _ _ Hd
                  (Hl a (or_introl eq_refl)) H1) as E1.
    destruct (touches_process_addon [addon_id a] env a xs
                (or_introl eq_refl) _ _ _ _ H1 Hd)
      as (es1 & more & Hd1 & _ & K).
    assert (Hl1 : forall b, In b config -> lookup (addon_id b) es1 = None).
    { intros b Hb. rewrite K.
      - apply Hl. right. exact Hb.
      - intros [X|[]]. apply Hna. rewrite X. apply in_map. exact Hb. }
    rewrite (IH _ _ _ _ es1 Hd1 Hn Hl1 H), E1, <- app_assoc. reflexivity.
Qed.

Lemma process_repo_addon_decoded (env : environment) (xs xs' : list str)
  (w w' : world) :
  process_repo_addon env xs w = (Ok xs', w') ->
  xs' = xs ++ own_manifest env.
Proof.
  unfold process_repo_addon, own_manifest. intros H.
  destruct (repo_addon env) as [sp|].
  2:{ apply ret_ok in H. destruct H as [-> _].
      rewrite app_nil_r. reflexivity. }
  destruct (sp_root sp) as [[id version]|]; [|discriminate].
  apply bind_ok in H. destruct H as ([] & w1 & _ & H).
  apply bind_ok in H. destruct H as ([] & w2 & _ & H).
  apply bind_ok in H. destruct H as (zip & w3 & _ & H).
  apply bind_ok in H. destruct H as ([] & w4 & _ & H).
  destruct (read_text (sp_addon_xml sp)) as [text|]; [|discriminate].
  apply bind_ok in H. destruct H as ([] & w5 & _ & H).
  apply bind_ok in H. destruct H as ([] & w6 & _ & H).
  apply ret_ok in H. destruct H as [-> _]. reflexivity.
Qed.

Lemma collect_inv (env : environment) (w w' : world) (xs : list str) :
  collect env w = (Ok xs, w') ->
  exists config items xs0 w0,
    config_file env = Ok config
    /\ addons config = Shaped items
    /\ process_repo_addon env []
         {| dist := Some (Dir []); printed := printed w |} = (Ok xs0, w0)
    /\ process_addons env items xs0 w0 = (Ok xs, w').
Proof.
  unfold collect, load_config. intros H.
  apply bind_ok in H. destruct H as (config & wa & Hc & H).
  unfold lift in Hc. injection Hc as Hc <-.
  apply bind_ok in H. destruct H as ([] & wc & Hclean & H).
  assert (Ewc : wc = {| dist := Some (Dir []); printed := printed w |}).
  { unfold clean_output in Hclean.
    destruct (dist w) as [[f|es]|]; congruence. }
  subst wc.
  apply bind_ok in H. destruct H as (xs0 & w0 & H0 & H).
  apply bind_ok in H. destruct H as (items & w0' & Hs & H).
  destruct (addons config) as [l|why] eqn:Ea; [|discriminate].
  injection Hs as <- <-.
  exists config, l, xs0, w0. auto.
Qed.

(** The manifests are collected in the order of the sources: when the
    names the repository add-on is published under and the identifiers of
    the configured projects are single path components, all different,
    the list is the manifest of the repository add-on, if it is there,
    and then, project by project in the order of the configuration, the
    manifest found in the first archive among the files downloaded for
    it, where there is one. *)
Theorem collect_order (env : environment) (w wn : world)
  (config : list addon_entry) (xs : list str) :
  collect env w = (Ok xs, wn) ->
  config_file env = Ok (documented config) ->
  Forall (fun name => is_component name = true)
         (self_names env ++ List.map addon_id config) ->
  NoDup (List.map addon_id config) ->
  (forall a, In a config -> ~ In (addon_id a) (self_names env)) ->
  xs = own_manifest env ++ flat_map (manifest_of env) config.
Proof.
  intros H Hc _ Hn Hs. apply collect_inv in H.
  destruct H as (c & items & xs0 & w0 & Hc' & Hi & H0 & H1).
  rewrite Hc in Hc'. injection Hc' as <-.
  cbn [documented addons] in Hi. injection Hi as <-.
  destruct (touches_process_repo_addon env [] _ _ _ [] H0 eq_refl)
    as (es0 & more0 & Hd0 & _ & K0).
  apply process_repo_addon_decoded in H0. cbn [app] in H0. subst xs0.
  refine (process_addons_fresh env config _ _ _ _ es0 Hd0 Hn _ H1).
  intros a Ha. rewrite K0; [reflexivity | exact (Hs a Ha)].
Qed.

Lemma collect_order_witness :
  [py "<addon id='plugin.y'/>"]
  = own_manifest (env_no_manifest true)
    ++ flat_map (manifest_of (env_no_manifest true)) [plugin_x; plugin_y].
Proof.
  refine (collect_order (env_no_manifest true) fresh
            (snd (collect (env_no_manifest true) fresh))
            [plugin_x; plugin_y] [py "<addon id='plugin.y'/>"] _ eq_refl
            _ _ _).
  - vm_compute. reflexivity.
  - repeat (apply Forall_cons; [reflexivity|]). apply Forall_nil.
  - repeat constructor; intros H; vm_compute in H; intuition discriminate.
  - intros a Ha [].
Defined.

Lemma zip_name_not_id (addon_id version : str) :
  addon_id ++ py "-" ++ version ++ zip_ext <> addon_id.
Proof.
  intros H. apply (f_equal (@List.length char)) in H.
  rewrite !length_app in H. cbn in H. lia.
Qed.

(** The repository's own add-on is published twice, when the names it is
    published under are single path components: the archive made from its
    directory is in its folder and, the same file, at the top of the
    output; the checksum beside the copy in the folder is the MD5 of the
    archive's bytes, and the manifest added is the directory's
    [addon.xml] as [read_text] gives it, decoded and with its line ends
    turned into newlines. *)
Theorem process_repo_addon_publishes_twice (env : environment)
  (sp : self_package) (xs xs' : list str) (w w' : world) :
  repo_addon env = Some sp ->
  Forall (fun name => is_component name = true) (self_names env) ->
  process_repo_addon env xs w = (Ok xs', w') ->
  exists id version root text digest,
    sp_root sp = Some (id, version)
    /\ let addon_id := default self_id id in
       let zip_name :=
         addon_id ++ py "-" ++ default (py "1.0.0") version ++ zip_ext in
       dist w' = Some root
       /\ node_at [addon_id; zip_name] root
          = Some (File (self_zip sp addon_id))
       /\ node_at [zip_name] root = Some (File (self_zip sp addon_id))
       /\ utf8_encode (md5sum (sp_zip_data sp)) = Some digest
       /\ node_at [addon_id; zip_name ++ py ".md5"] root
          = Some (File (text_file digest))
       /\ read_text (sp_addon_xml sp) = Some text
       /\ xs' = xs ++ [text].
Proof.
  intros Hsp _ H. unfold process_repo_addon in H. rewrite Hsp in H.
  destruct (sp_root sp) as [[id version]|]; [|discriminate].
  exists id, version.
  set (addon_id := default self_id id) in *.
  set (zip_name := addon_id ++ py "-" ++ default (py "1.0.0") version
                   ++ zip_ext) in *.
  apply bind_ok in H. destruct H as ([] & w1 & Hm & H).
  apply in_dir_root_inv in Hm. destruct Hm as (es & es1 & Hd & Hm & ->).
  apply bind_ok in H. destruct H as ([] & w2 & Hw & H).
  apply in_dir_sub_inv in Hw.
  destruct Hw as (es' & sub & sub1 & Hd' & L & F & ->).
  cbn [dist] in Hd'. injection Hd' as <-.
  apply write_file_ok in F. destruct F as [-> _].
  apply bind_ok in H. destruct H as (zip & w3 & Ho & H).
  apply open_file_ok in Ho. destruct Ho as (-> & root & Hr & Hn).
  cbn [dist] in Hr. injection Hr as <-.
  rewrite node_at_sub, lookup_put_same in Hn. injection Hn as <-.
  apply bind_ok in H. destruct H as ([] & w4 & Hc & H).
  apply in_dir_root_inv in Hc. destruct Hc as (es2 & es3 & Hd2 & Hc & ->).
  cbn [dist] in Hd2. injection Hd2 as <-.
  apply write_file_ok in Hc. destruct Hc as [-> _].
  destruct (read_text (sp_addon_xml sp)) as [text|] eqn:D;
    [|discriminate].
  apply bind_ok in H. destruct H as ([] & w5 & Hmd & H).
  apply write_md5_ok in Hmd.
  destruct Hmd as (es4 & sub4 & zip4 & digest & Hd4 & L4 & Lz & E & ->).
  cbn [dist] in Hd4. injection Hd4 as <-.
  assert (Hne : zip_name <> addon_id) by apply zip_name_not_id.
  rewrite lookup_put_other, lookup_put_same in L4 by exact Hne.
  injection L4 as <-. rewrite lookup_put_same in Lz. injection Lz as <-.
  apply bind_ok in H. destruct H as ([] & w6 & Hp & H).
  apply print_ok in Hp. subst w6. apply ret_ok in H. destruct H as [-> ->].
  exists (Dir (put addon_id
                 (Dir (put (zip_name ++ py ".md5") (File (text_file digest))
                           (put zip_name (File (self_zip sp addon_id)) sub)))
                 (put zip_name (File (self_zip sp addon_id))
                      (put addon_id
                         (Dir (put zip_name (File (self_zip sp addon_id))
                                   sub)) es1)))), text, digest.
  split; [reflexivity|]. cbv zeta. cbn [dist].
  split; [reflexivity|].
  split.
  { rewrite node_at_sub, lookup_put_other by apply md5_name_not_zip.
    apply lookup_put_same. }
  split.
  { rewrite node_at_root, lookup_put_other
      by (intros X; apply Hne; symmetry; exact X).
    apply lookup_put_same. }
  split; [exact E|].
  split; [rewrite node_at_sub; apply lookup_put_same|].
  split; reflexivity.
Qed.

Lemma process_repo_addon_publishes_twice_witness :
  exists id version root text digest,
    sp_root own_addon = Some (id, version)
    /\ let addon_id := default self_id id in
       let zip_name :=
         addon_id ++ py "-" ++ default (py "1.0.0") version ++ zip_ext in
       dist (snd (process_repo_addon env_no_release []
                    {| dist := Some (Dir []); printed := [] |})) = Some root
       /\ node_at [addon_id; zip_name] root
          = Some (File (self_zip own_addon addon_id))
       /\ node_at [zip_name] root = Some (File (self_zip own_addon addon_id))
       /\ utf8_encode (md5sum (sp_zip_data own_addon)) = Some digest
       /\ node_at [addon_id; zip_name ++ py ".md5"] root
          = Some (File (text_file digest))
       /\ read_text (sp_addon_xml own_addon) = Some text
       /\ [py "<addon id='repository.x' version='1.0.0'/>"] = [] ++ [text].
Proof.
  refine (process_repo_addon_publishes_twice env_no_release own_addon []
            [py "<addon id='repository.x' version='1.0.0'/>"]
            {| dist := Some (Dir []); printed := [] |} _ eq_refl _ _).
  - repeat (apply Forall_cons; [reflexivity|]). apply Forall_nil.
  - vm_compute. reflexivity.
Defined.

(** An archive that cannot be read is no skip: when reading the manifest
    from the file found for a project raises (the file is no zip archive,
    the member cannot be read, its content is not UTF-8), the exception
    ends the loop; the projects after it are not processed, nothing is
    added to the list, and the download stays in the output without a
    checksum.  The project's folder is new, and its identifier and the
    names of the files downloaded are single path components. *)
Theorem unreadable_archive_ends_the_loop (env : environment)
  (addon : addon_entry) (rest : list (shaped addon_entry))
  (addon_xmls : list str) (w : world) (es : listing) (release : release)
  (err : str) (written : list (str * file)) (zip_name : str) (zip : file)
  (e : exn) :
  Forall (fun name => is_component name = true)
         (addon_id addon :: List.map fst written) ->
  dist w = Some (Dir es) ->
  lookup (addon_id addon) es = None ->
  gh_release_view env (repo addon) = ViewEnded 0 (Some release) err ->
  gh_release_download env (repo addon) (tagName release)
                      (asset_pattern addon) = DownloadEnded 0 written ->
  first_zip (written_to written []) = Some zip_name ->
  lookup zip_name (written_to written []) = Some (File zip) ->
  extract_addon_xml zip (addon_id addon) = Raise e ->
  process_addons env (Shaped addon :: rest) addon_xmls w
  = (Raise e,
     {| dist := Some (Dir (put (addon_id addon)
                               (Dir (written_to written []))
                               (es ++ [(addon_id addon, Dir [])])));
        printed :=
          printed w
          ++ [py "  Fetching latest release from " ++ repo addon
              ++ py "...";
              py "  Found " ++ tagName release] |}).
Proof.
  intros _ Hd Hl Hview Hdown Hzip Hfile Hxml.
  cbn [process_addons].
  change (bind (lift (subscript (Shaped addon))) ?k w) with (k addon w).
  unfold bind at 1. unfold process_addon, fetch_latest_release.
  rewrite Hview. change (0 =? 0)%Z with true. cbv iota.
  unfold download_asset, bind, print, in_dir, listing_of, open_file, lift,
    ret.
  cbn [dist printed]. rewrite Hd. cbn [update_at]. unfold mkdir.
  rewrite Hl. cbn [dist printed]. rewrite Hdown.
  cbn [update_at dist printed].
  rewrite (lookup_app_new _ _ _ Hl). cbn [update_at dist printed].
  change (0 =? 0)%Z with true. cbn [negb node_at dist printed].
  rewrite lookup_put_same. rewrite Hzip. cbn [node_at dist printed].
  rewrite lookup_put_same, Hfile, Hxml.
  rewrite <- !app_assoc. reflexivity.
Qed.

Lemma unreadable_archive_ends_the_loop_witness :
  process_addons env_broken_zip [Shaped plugin_x; Shaped plugin_y]
    [py "<own/>"] {| dist := Some (Dir []); printed := [] |}
  = (Raise BadZipFile,
     {| dist := Some (Dir (put (addon_id plugin_x)
                               (Dir (written_to
                                       [(py "plugin.x-2.1.zip",
                                         broken_zip)] []))
                               ([] ++ [(addon_id plugin_x, Dir [])])));
        printed :=
          [] ++ [py "  Fetching latest release from " ++ repo plugin_x
                 ++ py "...";
                 py "  Found " ++ py "v2.1"] |}).
Proof.
  refine (unreadable_archive_ends_the_loop env_broken_zip plugin_x
            [Shaped plugin_y]
            [py "<own/>"] {| dist := Some (Dir []); printed := [] |} []
            {| tagName := py "v2.1" |} []
            [(py "plugin.x-2.1.zip", broken_zip)] (py "plugin.x-2.1.zip")
            broken_zip BadZipFile
            _ eq_refl eq_refl eq_refl eq_refl eq_refl eq_refl eq_refl).
  repeat (apply Forall_cons; [reflexivity|]). apply Forall_nil.
Defined.

(** ** Manifests can be encoded again *)

Lemma utf8_encode_app (s t : str) (a b : bytes) :
  utf8_encode s = Some a -> utf8_encode t = Some b ->
  utf8_encode (s ++ t) = Some (a ++ b).
Proof.
  revert a. induction s as [|c s IH]; intros a Hs Ht.
  - injection Hs as <-. exact Ht.
  - cbn [utf8_encode app] in *.
    destruct (encode_char c) as [ns|]; [|discriminate].
    destruct (utf8_encode s) as [r|]; [|discriminate].
    injection Hs as <-. rewrite (IH r eq_refl Ht), app_assoc. reflexivity.
Qed.

Lemma utf8_encode_chars (s : str) :
  (exists data, utf8_encode s = Some data)
  <-> Forall (fun c => encode_char c <> None) s.
Proof.
  induction s as [|c s IH].
  - split; [constructor | exists []; reflexivity].
  - cbn [utf8_encode]. split.
    + intros (data & H).
      destruct (encode_char c) as [ns|] eqn:E; [|discriminate].
      destruct (utf8_encode s) as [r|]; [|discriminate].
      constructor; [rewrite E; discriminate|]. apply IH. eauto.
    + intros H. inversion H as [|? ? Hc Hs]; subst.
      apply IH in Hs. destruct Hs as (r & ->).
      destruct (encode_char c); [eauto | contradiction].
Qed.

Lemma In_lstrip (c : char) (s : str) : In c (lstrip s) -> In c s.
Proof.
  induction s as [|d s IH]; [auto|]. cbn [lstrip].
  destruct (is_space d); [right; auto | auto].
Qed.

Lemma In_strip (c : char) (s : str) : In c (strip s) -> In c s.
Proof.
  unfold strip, rstrip. intros H. apply In_lstrip.
  apply in_rev in H. apply In_lstrip in H. apply in_rev. exact H.
Qed.

Lemma In_splitlines (c : char) (s : str) :
  forall l, In l (splitlines s) -> In c l -> In c s.
Proof.
  induction s as [|d s IH IHtl] using str_pair_ind; [contradiction|].
  intros l. cbn [splitlines]. destruct (is_linebreak d).
  - intros [<- | H]; [contradiction|]. intros Hc. right.
    destruct s as [|e s']; [contradiction|].
    destruct ((d =? CR) && (e =? LF)).
    + right. exact (IHtl l H Hc).
    + exact (IH l H Hc).
  - destruct (splitlines s) as [|l0 ls] eqn:E.
    + intros [<- | []]. intros [<- | []]. left. reflexivity.
    + intros [<- | H].
      * intros [<- | Hc]; [left; reflexivity|]. right.
        apply (IH l0); [left; reflexivity | exact Hc].
      * intros Hc. right. apply (IH l); [right; exact H | exact Hc].
Qed.

Lemma In_block_lines (c : char) (xml_content l : str) :
  In l (block_lines xml_content) -> In c l -> In c xml_content.
Proof.
  unfold block_lines. intros Hl Hc.
  destruct (filter keep_line (splitlines (strip xml_content)))
    as [|l0 ls] eqn:E.
  - destruct Hl as [<- | []]. contradiction.
  - rewrite <- E in Hl. apply filter_In in Hl. destruct Hl as [Hl _].
    apply In_strip. exact (In_splitlines c _ l Hl Hc).
Qed.

(** The merged document can be encoded when every manifest can. *)
Lemma generate_addons_xml_encodes (addon_xmls : list str) :
  (forall x, In x addon_xmls -> exists data, utf8_encode x = Some data) ->
  exists data, utf8_encode (generate_addons_xml addon_xmls) = Some data.
Proof.
  intros H. apply utf8_encode_chars.
  rewrite generate_addons_xml_terminated.
  apply Forall_forall. intros c Hc.
  apply in_flat_map in Hc. destruct Hc as (l & Hl & Hc).
  assert (A : forall s, (exists data, utf8_encode s = Some data) ->
                        In c s -> encode_char c <> None).
  { intros s Hs. apply utf8_encode_chars in Hs.
    rewrite Forall_forall in Hs. apply Hs. }
  apply in_app_iff in Hc. destruct Hc as [Hc | Hc].
  2:{ apply (A [LF]); [eexists; reflexivity | exact Hc]. }
  cbn [app] in Hl. destruct Hl as [<- | [<- | Hl]].
  - apply (A xml_declaration); [eexists; reflexivity | exact Hc].
  - apply (A (py "<addons>")); [eexists; reflexivity | exact Hc].
  - apply in_app_iff in Hl. destruct Hl as [Hl | [<- | []]].
    + apply in_flat_map in Hl. destruct Hl as (x & Hx & Hl).
      apply (A x (H x Hx)). exact (In_block_lines c x l Hl Hc).
    + apply (A (py "</addons>")); [eexists; reflexivity | exact Hc].
Qed.

Lemma find_addon_xml_decoded (zf : ZipFile) (addon_id : str)
  (names : list str) (text : str) :
  find_addon_xml zf addon_id names = Ok (Some text) ->
  exists name content,
    In name names /\ is_addon_xml addon_id name = true
    /\ read zf name = Ok content
    /\ utf8_decode content = Some text.
Proof.
  induction names as [|name rest IH]; [discriminate|].
  cbn [find_addon_xml]. destruct (is_addon_xml addon_id name) eqn:E.
  - destruct (read zf name) as [content|e] eqn:R; [|discriminate].
    destruct (utf8_decode content) as [t|] eqn:D; [|discriminate].
    intros H. injection H as <-. exists name, content.
    split; [left; reflexivity | auto].
  - intros H. destruct (IH H) as (n & c & Hn & Hq). exists n, c.
    split; [right; exact Hn | exact Hq].
Qed.

Lemma md5_string_encoded (s : str) (data : bytes) :
  utf8_encode s = Some data -> md5_string s = Some (md5sum data).
Proof.
  intros E. unfold md5_string. rewrite E, md5sum_one_shot. reflexivity.
Qed.

(** The manifest returned is a faithful copy of the member it was read
    from: the member is called [addon.xml] at the top of the archive or in
    the folder named by the identifier, encoding the text again gives the
    member's bytes back, and so the MD5 of the text is the MD5 of the
    member. *)
Theorem extract_addon_xml_round_trip (zip : file) (addon_id text : str) :
  extract_addon_xml zip addon_id = Ok (Some text) ->
  exists zf name content,
    as_zip zip = Some zf
    /\ In name (namelist zf)
    /\ is_addon_xml addon_id name = true
    /\ read zf name = Ok content
    /\ utf8_decode content = Some text
    /\ utf8_encode text = Some content
    /\ md5_string text = Some (md5sum content).
Proof.
  unfold extract_addon_xml. destruct (as_zip zip) as [zf|]; [|discriminate].
  intros H. apply find_addon_xml_decoded in H.
  destruct H as (name & content & Hn & Hq & R & D).
  exists zf, name, content. pose proof (utf8_decode_encode _ _ D) as E.
  do 6 (split; [auto|]). apply md5_string_encoded. exact E.
Qed.

Lemma extract_addon_xml_round_trip_witness :
  exists zf name content,
    as_zip plugin_zip = Some zf
    /\ In name (namelist zf)
    /\ is_addon_xml (py "plugin.x") name = true
    /\ read zf name = Ok content
    /\ utf8_decode content = Some (py "<addon id='plugin.x'/>")
    /\ utf8_encode (py "<addon id='plugin.x'/>") = Some content
    /\ md5_string (py "<addon id='plugin.x'/>") = Some (md5sum content).
Proof.
  apply (extract_addon_xml_round_trip plugin_zip (py "plugin.x")).
  reflexivity.
Defined.

Lemma extract_addon_xml_encodes (zip : file) (addon_id text : str) :
  extract_addon_xml zip addon_id = Ok (Some text) ->
  exists data, utf8_encode text = Some data.
Proof.
  unfold extract_addon_xml. destruct (as_zip zip) as [zf|]; [|discriminate].
  intros H. apply find_addon_xml_decoded in H.
  destruct H as (name & content & _ & _ & _ & D).
  exists content. exact (utf8_decode_encode _ _ D).
Qed.

Lemma In_universal_newlines (c : char) (s : str) :
  In c (universal_newlines s) -> c = LF \/ In c s.
Proof.
  induction s as [|d s IH IHtl] using str_pair_ind; [contradiction|].
  cbn [universal_newlines]. destruct (d =? CR).
  - intros [<- | H]; [left; reflexivity|].
    destruct s as [|e s]; [contradiction|].
    destruct (e =? LF).
    + destruct (IHtl H) as [-> | Hc]; [left; reflexivity|].
      right. right. right. exact Hc.
    + destruct (IH H) as [-> | Hc]; [left; reflexivity|].
      right. right. exact Hc.
  - intros [<- | H]; [right; left; reflexivity|].
    destruct (IH H) as [-> | Hc]; [left; reflexivity|].
    right. right. exact Hc.
Qed.

Lemma read_text_encodes (content : bytes) (text : str) :
  read_text content = Some text -> exists data, utf8_encode text = Some data.
Proof.
  unfold read_text. destruct (utf8_decode content) as [t|] eqn:D;
    [|discriminate].
  intros H. injection H as <-. apply utf8_encode_chars.
  pose proof (utf8_decode_encode _ _ D) as E.
  assert (F : Forall (fun c => encode_char c <> None) t)
    by (apply utf8_encode_chars; eauto).
  rewrite Forall_forall in *. intros c Hc.
  apply In_universal_newlines in Hc. destruct Hc as [-> | Hc].
  - discriminate.
  - exact (F c Hc).
Qed.

Lemma process_addons_all (env : environment) (P : str -> Prop) :
  (forall zip addon_id text,
     extract_addon_xml zip addon_id = Ok (Some text) -> P text) ->
  forall (items : list (shaped addon_entry)) (xs xs' : list str)
         (w w' : world),
    process_addons env items xs w = (Ok xs', w') ->
    Forall P xs -> Forall P xs'.
Proof.
  intros HP. induction items as [|v items IH]; intros xs xs' w w' H Hxs.
  - apply ret_ok in H. destruct H as [-> _]. exact Hxs.
  - cbn [process_addons] in H.
    apply bind_ok in H. destruct H as (a & w0 & _ & H).
    apply bind_ok in H. destruct H as (xs1 & w1 & H1 & H).
    apply (IH _ _ _ _ H). apply process_addon_ok in H1.
    destruct H1 as [-> | (_ & _ & _ & zip & text & _ & _ & _ & _ & _ & Hx & _
                          & -> & _)]; [exact Hxs|].
    apply Forall_app. split; [exact Hxs|].
    constructor; [exact (HP _ _ _ Hx) | constructor].
Qed.

(** The run cannot fail at encoding its index: every manifest collected
    was decoded from UTF-8, so each can be encoded again, and so can the
    document merged from them; [md5_string] of the document is the MD5 of
    those bytes. *)
Theorem collected_manifests_encode (env : environment) (w wn : world)
  (xs : list str) :
  collect env w = (Ok xs, wn) ->
  (forall x, In x xs -> exists data, utf8_encode x = Some data)
  /\ exists data,
       utf8_encode (generate_addons_xml xs) = Some data
       /\ md5_string (generate_addons_xml xs) = Some (md5sum data).
Proof.
  intros H. apply collect_inv in H.
  destruct H as (config & items & xs0 & w0 & _ & _ & H0 & H1).
  assert (A : forall x, In x xs -> exists data, utf8_encode x = Some data).
  { apply Forall_forall.
    apply (process_addons_all env _ extract_addon_xml_encodes _ _ _ _ _ H1).
    apply process_repo_addon_decoded in H0. subst xs0. cbn [app].
    unfold own_manifest. destruct (repo_addon env) as [sp|]; [|constructor].
    destruct (read_text (sp_addon_xml sp)) as [text|] eqn:R; [|constructor].
    constructor; [exact (read_text_encodes _ _ R) | constructor]. }
  split; [exact A|].
  destruct (generate_addons_xml_encodes xs A) as (data & E).
  exists data. split; [exact E | apply md5_string_encoded; exact E].
Qed.

Lemma collected_manifests_encode_witness :
  (forall x, In x [py "<addon id='plugin.y'/>"] ->
             exists data, utf8_encode x = Some data)
  /\ exists data,
       utf8_encode (generate_addons_xml [py "<addon id='plugin.y'/>"])
       = Some data
       /\ md5_string (generate_addons_xml [py "<addon id='plugin.y'/>"])
          = Some (md5sum data).
Proof.
  refine (collected_manifests_encode (env_no_manifest true) fresh
            (snd (collect (env_no_manifest true) fresh)) _ _).
  vm_compute. reflexivity.
Defined.

(** ** What a run publishes *)

Lemma generate_index_pages_ok (w w' : world) (root : node) :
  generate_index_pages w = (Ok tt, w') ->
  dist w = Some root ->
  exists root', walk true root = (Ok tt, root') /\ dist w' = Some root'
                /\ printed w' = printed w.
Proof.
  unfold generate_index_pages. intros H Hd. rewrite Hd in H.
  destruct (walk true root) as [r root'].
  injection H as -> <-. exists root'. auto.
Qed.

(** What [publish] writes, when it ends without exception. *)
Lemma publish_inv (env : environment) (xs : list str) (wn w' : world) :
  publish env xs wn = (Ok tt, w') ->
  exists es content digest root',
    dist wn = Some (Dir es)
    /\ utf8_encode (generate_addons_xml xs) = Some content
    /\ utf8_encode (md5sum content) = Some digest
    /\ walk true
         (Dir (put (py "addons.xml.md5") (File (text_file digest))
                   (put (py "addons.xml") (File (text_file content)) es)))
       = (Ok tt, root')
    /\ dist w' = Some root'.
Proof.
  unfold publish. intros H.
  apply bind_ok in H. destruct H as ([] & w1 & Hx & H).
  assert (Hd : exists es, dist wn = Some (Dir es)).
  { unfold write_text in Hx. apply bind_ok in Hx.
    destruct Hx as ([] & w0 & Hx & _). exact (in_dir_dist _ _ _ _ _ Hx). }
  destruct Hd as (es & Hd).
  destruct (write_text_root_ok _ _ _ _ _ Hx Hd) as (content & Ec & _ & ->).
  unfold md5_string in H. rewrite Ec in H.
  rewrite <- md5sum_one_shot in H.
  apply bind_ok in H. destruct H as ([] & w2 & Hm & H).
  destruct (write_text_root_ok _ _ _ _ _ Hm eq_refl)
    as (digest & Em & _ & ->).
  apply bind_ok in H. destruct H as ([] & w3 & Hg & H).
  destruct (generate_index_pages_ok _ _ _ Hg eq_refl) as (root' & Hw & Hr & _).
  apply bind_ok in H. destruct H as ([] & w4 & Hp & H).
  apply print_ok in Hp. subst w4.
  apply bind_ok in H. destruct H as ([] & w5 & Hp & H).
  apply print_ok in Hp. subst w5.
  apply bind_ok in H. destruct H as ([] & w6 & Hp & H).
  apply print_ok in Hp. subst w6.
  apply print_ok in H. subst w'. cbn [dist].
  exists es, content, digest, root'. auto.
Qed.

Lemma main_inv (env : environment) (w w' : world) :
  main env w = (Ok tt, w') ->
  exists xs wn,
    collect env w = (Ok xs, wn) /\ xs <> []
    /\ publish env xs wn = (Ok tt, w').
Proof.
  unfold main. intros H.
  apply bind_ok in H. destruct H as (xs & wn & Hc & H).
  exists xs, wn. destruct xs as [|x xs].
  - apply bind_ok in H. destruct H as (? & ? & _ & H). discriminate.
  - split; [exact Hc|]. split; [discriminate | exact H].
Qed.

(** The checksum published for the index is the checksum of the index
    published: after a run that ends well, [addons.xml] holds the merged
    document of the manifests collected, encoded as UTF-8, so that reading
    the file as UTF-8 gives the document back, and [addons.xml.md5] holds
    the MD5 of exactly those bytes. *)
Theorem main_publishes_checksum_of_index (env : environment)
  (w w' : world) :
  main env w = (Ok tt, w') ->
  exists xs wn root content digest,
    collect env w = (Ok xs, wn)
    /\ xs <> []
    /\ dist w' = Some root
    /\ utf8_encode (generate_addons_xml xs) = Some content
    /\ utf8_decode content = Some (generate_addons_xml xs)
    /\ node_at [py "addons.xml"] root = Some (File (text_file content))
    /\ utf8_encode (md5sum content) = Some digest
    /\ node_at [py "addons.xml.md5"] root = Some (File (text_file digest)).
Proof.
  intros H. apply main_inv in H. destruct H as (xs & wn & Hc & Hne & H).
  apply publish_inv in H.
  destruct H as (es & content & digest & root' & Hd & Ec & Em & Hw & Hr).
  exists xs, wn, root', content, digest.
  do 4 (split; [assumption|]).
  split; [apply utf8_encode_decode; exact Ec|].
  split.
  - apply (walk_file_at [] true _ _ _ _ Hw).
    + cbn [app]. rewrite node_at_root.
      rewrite lookup_put_other by (intros X; vm_compute in X; discriminate).
      apply lookup_put_same.
    + intros X. vm_compute in X. discriminate.
  - split; [exact Em|].
    apply (walk_file_at [] true _ _ _ _ Hw).
    + cbn [app]. rewrite node_at_root. apply lookup_put_same.
    + intros X. vm_compute in X. discriminate.
Qed.

Lemma main_publishes_checksum_of_index_witness :
  exists xs wn root content digest,
    collect env_no_release fresh = (Ok xs, wn)
    /\ xs <> []
    /\ dist (snd (main env_no_release fresh)) = Some root
    /\ utf8_encode (generate_addons_xml xs) = Some content
    /\ utf8_decode content = Some (generate_addons_xml xs)
    /\ node_at [py "addons.xml"] root = Some (File (text_file content))
    /\ utf8_encode (md5sum content) = Some digest
    /\ node_at [py "addons.xml.md5"] root = Some (File (text_file digest)).
Proof.
  refine (main_publishes_checksum_of_index env_no_release fresh _ _).
  vm_compute. reflexivity.
Defined.

(** The output is rebuilt from nothing: after a run that ends well, where
    the names the repository add-on is published under and the identifiers
    of the configured projects are single path components, the top of
    [dist/] has no entry but the folder and the archive copy of the
    repository add-on, the folders of the configured projects,
    [addons.xml], [addons.xml.md5] and [index.html]; whatever was there
    before the run is gone. *)
Theorem main_rebuilds_output (env : environment) (w w' : world)
  (config : list addon_entry) (name : str) :
  main env w = (Ok tt, w') ->
  config_file env = Ok (documented config) ->
  Forall (fun name => is_component name = true)
         (self_names env ++ List.map addon_id config) ->
  ~ In name (self_names env ++ List.map addon_id config
             ++ [py "addons.xml"; py "addons.xml.md5"; index_name]) ->
  exists root, dist w' = Some root /\ node_at [name] root = None.
Proof.
  intros H Hc _ Hn.
  destruct (main_ok _ _ _ _ H Hc)
    as (items & xs0 & w0 & xs & wn & Hi & H0 & H1 & H2).
  cbn [documented addons] in Hi. injection Hi as <-.
  rewrite !in_app_iff in Hn.
  destruct (touches_process_repo_addon env [] _ _ _ [] H0 eq_refl)
    as (es0 & more0 & Hd0 & _ & K0).
  assert (T : touches (List.map addon_id config)
                      (process_addons env (List.map Shaped config) xs0)).
  { apply touches_process_addons. intros a Ha.
    apply in_map_iff in Ha. destruct Ha as (b & Eb & Hb).
    injection Eb as ->. apply in_map. exact Hb. }
  destruct (T _ _ _ _ H1 Hd0) as (es1 & more1 & Hd1 & _ & K1).
  apply publish_inv in H2.
  destruct H2 as (es & content & digest & root' & Hd & _ & _ & Hw & Hr).
  rewrite Hd1 in Hd. injection Hd as <-.
  exists root'. split; [exact Hr|].
  apply (walk_none_at [] true _ _ _ name Hw eq_refl).
  - rewrite !lookup_put_other.
    + rewrite K1, K0 by tauto. reflexivity.
    + intros X. apply Hn. right. right. left. exact X.
    + intros X. apply Hn. right. right. right. left. exact X.
  - intros X. apply Hn. right. right. right. right. left. symmetry. exact X.
Qed.

Lemma main_rebuilds_output_witness :
  node_at [py "repository.x-1.0.0.zip"] example_tree = Some (File bare_zip)
  /\ exists root,
       dist (snd (main (env_no_manifest true) published)) = Some root
       /\ node_at [py "repository.x-1.0.0.zip"] root = None.
Proof.
  split; [reflexivity|].
  refine (main_rebuilds_output (env_no_manifest true) published _
            [plugin_x; plugin_y] (py "repository.x-1.0.0.zip") _ eq_refl
            _ _).
  - vm_compute. reflexivity.
  - repeat (apply Forall_cons; [reflexivity|]). apply Forall_nil.
  - vm_compute. intuition discriminate.
Defined.

(** ** The archive offered at the top *)

Lemma keeps_files_same {A} (m : M A) :
  (forall w a w', m w = (Ok a, w') -> dist w' = dist w) -> keeps_files m.
Proof.
  intros Hm w a w' es H Hd. exists es. rewrite (Hm _ _ _ H). auto.
Qed.

Lemma keeps_files_ret {A} (a : A) : keeps_files (ret a).
Proof.
  apply keeps_files_same. intros w x w' H. apply ret_ok in H.
  destruct H as [_ ->]. reflexivity.
Qed.

Lemma keeps_files_raise {A} (e : exn) : keeps_files (@raise A e).
Proof. apply keeps_files_same. intros w x w' H. discriminate. Qed.

Lemma keeps_files_lift {A} (r : result A) : keeps_files (lift r).
Proof.
  apply keeps_files_same. intros w x w' H. injection H as _ <-. reflexivity.
Qed.

Lemma keeps_files_print (line : str) : keeps_files (print line).
Proof.
  apply keeps_files_same. intros w [] w' H. apply print_ok in H.
  subst w'. reflexivity.
Qed.

Lemma keeps_files_open_file (path : list str) : keeps_files (open_file path).
Proof.
  apply keeps_files_same. intros w f w' H. apply open_file_ok in H.
  destruct H as [-> _]. reflexivity.
Qed.

Lemma keeps_files_listing_of (path : list str) :
  keeps_files (listing_of path).
Proof.
  apply keeps_files_same. intros w f w' H. apply listing_of_ok in H.
  destruct H as [-> _]. reflexivity.
Qed.

Lemma keeps_files_bind {A B} (m : M A) (k : A -> M B) :
  keeps_files m -> (forall a, keeps_files (k a)) -> keeps_files (bind m k).
Proof.
  intros Hm Hk w b w' es H Hd.
  apply bind_ok in H. destruct H as (a & w1 & H1 & H2).
  destruct (Hm _ _ _ _ H1 Hd) as (es1 & Hd1 & K1).
  destruct (Hk a _ _ _ _ H2 Hd1) as (es2 & Hd2 & K2).
  exists es2. split; [exact Hd2|]. intros x f L. apply K2, K1, L.
Qed.

Lemma keeps_files_mkdir (d : str) : keeps_files (in_dir [] (mkdir d)).
Proof.
  intros w [] w' es H Hd.
  destruct (in_dir_root_ok _ _ _ _ H Hd) as (es' & E & ->).
  exists es'. split; [reflexivity|]. intros x f L.
  unfold mkdir in E. destruct (lookup d es) as [[g|sub]|] eqn:Ld;
    try discriminate; injection E as <-; [exact L|].
  rewrite lookup_app_other; [exact L|]. intros X. subst x. congruence.
Qed.

Lemma keeps_files_in_dir_sub (d : str) (f : listing -> result listing) :
  keeps_files (in_dir [d] f).
Proof.
  intros w [] w' es H Hd.
  destruct (in_dir_sub_ok _ _ _ _ _ H Hd) as (sub & sub' & L & _ & ->).
  eexists. split; [reflexivity|]. intros x g Lx.
  rewrite lookup_put_other; [exact Lx|]. intros X. subst x. congruence.
Qed.

Lemma keeps_files_write_md5 (d zip_name : str) :
  keeps_files (write_md5 d zip_name).
Proof.
  unfold write_md5, open_w, write.
  apply keeps_files_bind; [apply keeps_files_in_dir_sub|]. intros _.
  apply keeps_files_bind; [apply keeps_files_open_file|]. intros zip.
  destruct (utf8_encode (md5sum (data zip)));
    [apply keeps_files_in_dir_sub | apply keeps_files_raise].
Qed.

Lemma keeps_files_download_asset (env : environment)
  (repo tag pattern d : str) :
  keeps_files (download_asset env repo tag pattern d).
Proof.
  unfold download_asset. apply keeps_files_bind; [apply keeps_files_mkdir|].
  intros _. destruct (gh_release_download env repo tag pattern).
  { apply keeps_files_raise. }
  apply keeps_files_bind; [apply keeps_files_in_dir_sub|].
  intros _. destruct (negb _); [apply keeps_files_ret|].
  apply keeps_files_bind; [apply keeps_files_listing_of|].
  intros es. apply keeps_files_ret.
Qed.

Lemma keeps_files_process_addon (env : environment) (addon : addon_entry)
  (addon_xmls : list str) :
  keeps_files (process_addon env addon addon_xmls).
Proof.
  unfold process_addon. apply keeps_files_bind; [apply keeps_files_print|].
  intros _. destruct (fetch_latest_release env (repo addon)) as [release|e].
  2:{ destruct e; try apply keeps_files_raise.
      apply keeps_files_bind; [apply keeps_files_print|]. intros _.
      apply keeps_files_ret. }
  apply keeps_files_bind; [apply keeps_files_print|]. intros _.
  apply keeps_files_bind; [apply keeps_files_download_asset|].
  intros [zip_name|].
  2:{ apply keeps_files_bind; [apply keeps_files_print|]. intros _.
      apply keeps_files_ret. }
  apply keeps_files_bind; [apply keeps_files_open_file|]. intros zip.
  apply keeps_files_bind; [apply keeps_files_lift|].
  intros [[|c text]|].
  1,3: apply keeps_files_bind; [apply keeps_files_print|]; intros _;
       apply keeps_files_ret.
  apply keeps_files_bind; [apply keeps_files_write_md5|]. intros _.
  apply keeps_files_bind; [apply keeps_files_print|]. intros _.
  apply keeps_files_ret.
Qed.

Lemma keeps_files_process_addons (env : environment)
  (addons : list (shaped addon_entry)) :
  forall addon_xmls, keeps_files (process_addons env addons addon_xmls).
Proof.
  induction addons as [|addon rest IH]; intros addon_xmls.
  - apply keeps_files_ret.
  - cbn [process_addons]. apply keeps_files_bind; [apply keeps_files_lift|].
    intros a. apply keeps_files_bind.
    + apply keeps_files_process_addon.
    + exact IH.
Qed.

(** The copy of the repository add-on's archive at the top of [dist/]. *)
Lemma process_repo_addon_root_copy (env : environment) (sp : self_package)
  (id version : option str) (xs xs' : list str) (w w' : world) :
  repo_addon env = Some sp ->
  sp_root sp = Some (id, version) ->
  process_repo_addon env xs w = (Ok xs', w') ->
  exists es',
    dist w' = Some (Dir es')
    /\ lookup (default self_id id ++ py "-" ++ default (py "1.0.0") version
               ++ zip_ext) es'
       = Some (File (self_zip sp (default self_id id))).
Proof.
  intros Hsp Hroot H. unfold process_repo_addon in H.
  rewrite Hsp, Hroot in H.
  set (addon_id := default self_id id) in *.
  set (zip_name := addon_id ++ py "-" ++ default (py "1.0.0") version
                   ++ zip_ext) in *.
  apply bind_ok in H. destruct H as ([] & w1 & Hm & H).
  apply in_dir_root_inv in Hm. destruct Hm as (es & es1 & Hd & Hm & ->).
  apply bind_ok in H. destruct H as ([] & w2 & Hw & H).
  apply in_dir_sub_inv in Hw.
  destruct Hw as (es' & sub & sub1 & Hd' & L & F & ->).
  cbn [dist] in Hd'. injection Hd' as <-.
  apply write_file_ok in F. destruct F as [-> _].
  apply bind_ok in H. destruct H as (zip & w3 & Ho & H).
  apply open_file_ok in Ho. destruct Ho as (-> & root & Hr & Hn).
  cbn [dist] in Hr. injection Hr as <-.
  rewrite node_at_sub, lookup_put_same in Hn. injection Hn as <-.
  apply bind_ok in H. destruct H as ([] & w4 & Hc & H).
  apply in_dir_root_inv in Hc. destruct Hc as (es2 & es3 & Hd2 & Hc & ->).
  cbn [dist] in Hd2. injection Hd2 as <-.
  apply write_file_ok in Hc. destruct Hc as [-> _].
  destruct (read_text (sp_addon_xml sp)) as [text|]; [|discriminate].
  apply bind_ok in H. destruct H as ([] & w5 & Hmd & H).
  destruct (keeps_files_write_md5 addon_id zip_name _ _ _ _ Hmd eq_refl)
    as (es4 & Hd4 & K).
  apply bind_ok in H. destruct H as ([] & w6 & Hp & H).
  apply print_ok in Hp. subst w6. apply ret_ok in H. destruct H as [_ ->].
  exists es4. split; [exact Hd4|]. apply K. apply lookup_put_same.
Qed.

Lemma startswith_app (p s : str) : startswith (p ++ s) p = true.
Proof.
  induction p as [|c p IH]; [destruct s; reflexivity|].
  cbn [app startswith]. rewrite N.eqb_refl. exact IH.
Qed.

Lemma endswith_app (s x : str) : endswith (s ++ x) x = true.
Proof. unfold endswith. rewrite rev_app_distr. apply startswith_app. Qed.

Lemma zip_name_not (stem other : str) :
  endswith other zip_ext = false -> stem ++ zip_ext <> other.
Proof.
  intros H E. rewrite <- E, endswith_app in H. discriminate.
Qed.

(** The repository's own archive is offered at the top: after a run that
    ends well, where the names the repository add-on is published under
    and the identifiers of the configured projects are single path
    components, the copy of the archive at the top of [dist/] is still
    the archive built from the add-on's directory, and the page at the top
    links it. *)
Theorem main_offers_repository_archive (env : environment) (w w' : world)
  (config : list addon_entry) (sp : self_package)
  (id version : option str) :
  main env w = (Ok tt, w') ->
  config_file env = Ok (documented config) ->
  Forall (fun name => is_component name = true)
         (self_names env ++ List.map addon_id config) ->
  repo_addon env = Some sp ->
  sp_root sp = Some (id, version) ->
  let addon_id := default self_id id in
  let zip_name :=
    addon_id ++ py "-" ++ default (py "1.0.0") version ++ zip_ext in
  exists root page entries,
    dist w' = Some root
    /\ node_at [zip_name] root = Some (File (self_zip sp addon_id))
    /\ node_at [index_name] root = Some (File (text_file page))
    /\ utf8_encode (py "<html><body>" ++ [LF] ++ join [LF] entries ++ [LF]
                    ++ py "</body></html>" ++ [LF]) = Some page
    /\ In (file_link zip_name) entries.
Proof.
  intros H Hc _ Hsp Hroot addon_id zip_name.
  assert (Z : zip_name
              = (addon_id ++ py "-" ++ default (py "1.0.0") version)
                ++ zip_ext).
  { unfold zip_name. rewrite <- !app_assoc. reflexivity. }
  destruct (main_ok _ _ _ _ H Hc)
    as (items & xs0 & w0 & xs & wn & Hi & H0 & H1 & H2).
  destruct (process_repo_addon_root_copy _ _ _ _ _ _ _ _ Hsp Hroot H0)
    as (es0 & Hd0 & L0).
  fold addon_id in L0. fold zip_name in L0.
  destruct (keeps_files_process_addons env items xs0 _ _ _ _ H1 Hd0)
    as (es1 & Hd1 & K1).
  apply K1 in L0.
  apply publish_inv in H2.
  destruct H2 as (es & content & digest & root' & Hd & _ & _ & Hw & Hr).
  rewrite Hd1 in Hd. injection Hd as <-.
  set (es2 := put (py "addons.xml.md5") (File (text_file digest))
                  (put (py "addons.xml") (File (text_file content)) es1))
    in *.
  assert (L2 : lookup zip_name es2 = Some (File (self_zip sp addon_id))).
  { unfold es2. rewrite !lookup_put_other; [exact L0| |];
      intros X; symmetry in X; revert X; rewrite Z; apply zip_name_not;
      reflexivity. }
  assert (Hni : zip_name <> index_name).
  { rewrite Z. apply zip_name_not. reflexivity. }
  destruct (walk_page_at [] true _ _ _ Hw eq_refl) as (page & Ep & Np).
  exists root', page,
    (index_entries true (dirnames es2) (filenames es2)).
  split; [exact Hr|]. split.
  { apply (walk_file_at [] true _ _ _ _ Hw); [|exact Hni].
    cbn [app]. rewrite node_at_root. exact L2. }
  split; [exact Np|]. split; [exact Ep|].
  rewrite index_entries_links. cbn [app]. apply in_map.
  apply filter_In. split.
  - apply In_sorted. eapply lookup_filenames. exact L2.
  - unfold listed. apply str_eqb_neq in Hni. rewrite Hni.
    rewrite Z, endswith_app. reflexivity.
Qed.

Lemma main_offers_repository_archive_witness :
  let addon_id := default self_id (Some (py "repository.x")) in
  let zip_name :=
    addon_id ++ py "-" ++ default (py "1.0.0") (Some (py "1.0.0"))
    ++ zip_ext in
  exists root page entries,
    dist (snd (main env_no_release fresh)) = Some root
    /\ node_at [zip_name] root = Some (File (self_zip own_addon addon_id))
    /\ node_at [index_name] root = Some (File (text_file page))
    /\ utf8_encode (py "<html><body>" ++ [LF] ++ join [LF] entries ++ [LF]
                    ++ py "</body></html>" ++ [LF]) = Some page
    /\ In (file_link zip_name) entries.
Proof.
  refine (main_offers_repository_archive env_no_release fresh _
            [plugin_x] own_addon
            (Some (py "repository.x")) (Some (py "1.0.0"))
            _ eq_refl _ eq_refl eq_refl).
  - vm_compute. reflexivity.
  - repeat (apply Forall_cons; [reflexivity|]). apply Forall_nil.
Defined.

(** ** The exit status *)

Lemma no_exit_ret {A} (a : A) : no_exit (ret a).
Proof. intros w e w' H. discriminate. Qed.

Lemma no_exit_print (line : str) : no_exit (print line).
Proof. intros w e w' H. discriminate. Qed.

Lemma no_exit_raise {A} (e : exn) : plain e -> no_exit (@raise A e).
Proof. intros He w e' w' H. injection H as <- _. exact He. Qed.

Lemma no_exit_lift {A} (r : result A) : plain_result r -> no_exit (lift r).
Proof. intros Hr w e w' H. injection H as H _. exact (Hr e H). Qed.

Lemma no_exit_bind {A B} (m : M A) (k : A -> M B) :
  no_exit m -> (forall a, no_exit (k a)) -> no_exit (bind m k).
Proof.
  intros Hm Hk w e w' H. unfold bind in H.
  destruct (m w) as [[a|e1] w1] eqn:E.
  - exact (Hk a _ _ _ H).
  - injection H as <- <-. exact (Hm _ _ _ E).
Qed.

Lemma plain_OSError : plain OSError.
Proof. intros code. discriminate. Qed.

Lemma no_exit_open_file (path : list str) : no_exit (open_file path).
Proof.
  intros w e w' H. unfold open_file in H.
  destruct (dist w) as [root|].
  - destruct (node_at path root) as [[f|es]|]; try discriminate;
      injection H as <- _; exact plain_OSError.
  - injection H as <- _. exact plain_OSError.
Qed.

Lemma no_exit_listing_of (path : list str) : no_exit (listing_of path).
Proof.
  intros w e w' H. unfold listing_of in H.
  destruct (dist w) as [root|].
  - destruct (node_at path root) as [[f|es]|]; try discriminate;
      injection H as <- _; exact plain_OSError.
  - injection H as <- _. exact plain_OSError.
Qed.

Lemma plain_update_at (f : listing -> result listing) (path : list str) :
  (forall es, plain_result (f es)) ->
  forall n, plain_result (update_at path f n).
Proof.
  intros Hf. induction path as [|d path IH]; intros n e H.
  - destruct n as [g|es]; cbn [update_at] in H.
    + injection H as <-. exact plain_OSError.
    + destruct (f es) as [es'|e'] eqn:F; [discriminate|].
      injection H as <-. exact (Hf es e' F).
  - destruct n as [g|es]; cbn [update_at] in H.
    + injection H as <-. exact plain_OSError.
    + destruct (lookup d es) as [child|].
      * destruct (update_at path f child) as [c'|e'] eqn:U; [discriminate|].
        injection H as <-. exact (IH child e' U).
      * injection H as <-. exact plain_OSError.
Qed.

Lemma no_exit_in_dir (path : list str) (f : listing -> result listing) :
  (forall es, plain_result (f es)) -> no_exit (in_dir path f).
Proof.
  intros Hf w e w' H. unfold in_dir in H.
  destruct (dist w) as [root|].
  - destruct (update_at path f root) as [root'|e'] eqn:U; [discriminate|].
    injection H as <- _. exact (plain_update_at f path Hf root e' U).
  - injection H as <- _. exact plain_OSError.
Qed.

Lemma plain_mkdir (name : str) (es : listing) : plain_result (mkdir name es).
Proof.
  intros e H. unfold mkdir in H.
  destruct (lookup name es) as [[f|sub]|]; try discriminate.
  injection H as <-. exact plain_OSError.
Qed.

Lemma plain_write_file (name : str) (f : file) (es : listing) :
  plain_result (write_file name f es).
Proof.
  intros e H. unfold write_file in H.
  destruct (lookup name es) as [[g|sub]|]; try discriminate.
  injection H as <-. exact plain_OSError.
Qed.

Lemma no_exit_open_w (path : list str) (name : str) :
  no_exit (open_w path name).
Proof.
  unfold open_w. apply no_exit_in_dir. intros es. apply plain_write_file.
Qed.

Lemma no_exit_write (path : list str) (name content : str) :
  no_exit (write path name content).
Proof.
  unfold write. destruct (utf8_encode content).
  - apply no_exit_in_dir. intros es. apply plain_write_file.
  - apply no_exit_raise. intros code. discriminate.
Qed.

Lemma no_exit_write_text (path : list str) (name content : str) :
  no_exit (write_text path name content).
Proof.
  unfold write_text. apply no_exit_bind; [apply no_exit_open_w|].
  intros _. apply no_exit_write.
Qed.

Lemma no_exit_write_md5 (d zip_name : str) : no_exit (write_md5 d zip_name).
Proof.
  unfold write_md5. apply no_exit_bind; [apply no_exit_open_w|]. intros _.
  apply no_exit_bind; [apply no_exit_open_file|].
  intros zip. apply no_exit_write.
Qed.

Lemma no_exit_download_asset (env : environment)
  (repo tag pattern d : str) :
  no_exit (download_asset env repo tag pattern d).
Proof.
  unfold download_asset. apply no_exit_bind.
  { apply no_exit_in_dir. intros es. apply plain_mkdir. }
  intros _. destruct (gh_release_download env repo tag pattern).
  { apply no_exit_raise. exact plain_OSError. }
  apply no_exit_bind.
  { apply no_exit_in_dir. intros es e H. discriminate. }
  intros _. destruct (negb _); [apply no_exit_ret|].
  apply no_exit_bind; [apply no_exit_listing_of|].
  intros es. apply no_exit_ret.
Qed.

Lemma plain_extract_addon_xml (zip : file) (addon_id : str) :
  plain_result (extract_addon_xml zip addon_id).
Proof.
  intros e H. unfold extract_addon_xml in H.
  destruct (as_zip zip) as [zf|].
  2:{ injection H as <-. intros code. discriminate. }
  induction (namelist zf) as [|name names IH]; [discriminate|].
  cbn [find_addon_xml] in H.
  destruct (is_addon_xml addon_id name); [|exact (IH H)].
  unfold read in H. destruct (getinfo zf name) as [[content|why]|].
  - destruct (utf8_decode content); [discriminate|].
    injection H as <-. intros code. discriminate.
  - injection H as <-. destruct why; intros code; discriminate.
  - injection H as <-. intros code. discriminate.
Qed.

Lemma plain_subscript {A} (v : shaped A) : plain_result (subscript v).
Proof.
  intros e H. destruct v as [a|why]; [discriminate|].
  injection H as <-. destruct why; intros code; discriminate.
Qed.

Lemma no_exit_process_addon (env : environment) (addon : addon_entry)
  (addon_xmls : list str) :
  no_exit (process_addon env addon addon_xmls).
Proof.
  unfold process_addon. apply no_exit_bind; [apply no_exit_print|].
  intros _. unfold fetch_latest_release.
  destruct (gh_release_view env (repo addon)) as [|rc stdout stderr].
  { apply no_exit_raise. exact plain_OSError. }
  destruct (rc =? 0)%Z.
  2:{ apply no_exit_bind; [apply no_exit_print|]. intros _.
      apply no_exit_ret. }
  destruct stdout as [release|].
  2:{ apply no_exit_raise. intros code. discriminate. }
  apply no_exit_bind; [apply no_exit_print|]. intros _.
  apply no_exit_bind; [apply no_exit_download_asset|]. intros [zip_name|].
  2:{ apply no_exit_bind; [apply no_exit_print|]. intros _.
      apply no_exit_ret. }
  apply no_exit_bind; [apply no_exit_open_file|]. intros zip.
  apply no_exit_bind.
  { apply no_exit_lift. apply plain_extract_addon_xml. }
  intros [[|c text]|].
  1,3: apply no_exit_bind; [apply no_exit_print|]; intros _;
       apply no_exit_ret.
  apply no_exit_bind; [apply no_exit_write_md5|]. intros _.
  apply no_exit_bind; [apply no_exit_print|]. intros _. apply no_exit_ret.
Qed.

Lemma no_exit_process_addons (env : environment)
  (addons : list (shaped addon_entry)) :
  forall addon_xmls, no_exit (process_addons env addons addon_xmls).
Proof.
  induction addons as [|addon rest IH]; intros addon_xmls.
  - apply no_exit_ret.
  - cbn [process_addons]. apply no_exit_bind.
    { apply no_exit_lift. apply plain_subscript. }
    intros a. apply no_exit_bind.
    + apply no_exit_process_addon.
    + exact IH.
Qed.

Lemma no_exit_process_repo_addon (env : environment)
  (addon_xmls : list str) :
  no_exit (process_repo_addon env addon_xmls).
Proof.
  unfold process_repo_addon. destruct (repo_addon env) as [sp|].
  2: apply no_exit_ret.
  destruct (sp_root sp) as [[id version]|].
  2:{ apply no_exit_raise. intros code. discriminate. }
  apply no_exit_bind.
  { apply no_exit_in_dir. intros es. apply plain_mkdir. }
  intros _. apply no_exit_bind.
  { apply no_exit_in_dir. intros es. apply plain_write_file. }
  intros _. apply no_exit_bind; [apply no_exit_open_file|]. intros zip.
  apply no_exit_bind.
  { apply no_exit_in_dir. intros es. apply plain_write_file. }
  intros _. destruct (read_text (sp_addon_xml sp)).
  2:{ apply no_exit_raise. intros code. discriminate. }
  apply no_exit_bind; [apply no_exit_write_md5|]. intros _.
  apply no_exit_bind; [apply no_exit_print|]. intros _. apply no_exit_ret.
Qed.

Lemma no_exit_clean_output : no_exit clean_output.
Proof.
  intros w e w' H. unfold clean_output in H.
  destruct (dist w) as [[f|es]|]; try discriminate.
  injection H as <- _. exact plain_OSError.
Qed.

Lemma plain_walk : forall (n : node) (is_root : bool),
  plain_result (fst (walk is_root n)).
Proof.
  fix IH 1. intros [f|es] is_root; [discriminate|].
  cbn [walk].
  destruct (write_file index_name (text_file []) es) as [x|e0] eqn:W0.
  2:{ cbn [fst]. intros e H. injection H as <-.
      exact (plain_write_file _ _ _ e0 W0). }
  destruct (utf8_encode _) as [page|].
  2:{ cbn [fst]. intros e H. injection H as <-. intros code.
      discriminate. }
  assert (V : plain_result (fst (visit (walk false) es))).
  { clear W0 x. induction es as [|[name child] l IHl]; [discriminate|].
    cbn [visit]. pose proof (IH child false) as Hs.
    destruct child as [f|sub].
    - destruct (visit (walk false) l) as [r l'']. exact IHl.
    - destruct (walk false (Dir sub)) as [[u|e'] child'].
      + destruct (visit (walk false) l) as [r l'']. exact IHl.
      + exact Hs. }
  destruct (visit (walk false) es) as [r es']. exact V.
Qed.

Lemma no_exit_generate_index_pages : no_exit generate_index_pages.
Proof.
  intros w e w' H. unfold generate_index_pages in H.
  destruct (dist w) as [root|]; [|discriminate].
  pose proof (plain_walk root true) as P.
  destruct (walk true root) as [r root']. injection H as -> _.
  exact (P e eq_refl).
Qed.

Lemma no_exit_collect (env : environment) :
  plain_result (config_file env) -> no_exit (collect env).
Proof.
  intros Hc. unfold collect, load_config.
  apply no_exit_bind; [apply no_exit_lift; exact Hc|]. intros config.
  apply no_exit_bind; [apply no_exit_clean_output|]. intros _.
  apply no_exit_bind; [apply no_exit_process_repo_addon|]. intros xs.
  apply no_exit_bind; [apply no_exit_lift; apply plain_subscript|].
  intros items. apply no_exit_process_addons.
Qed.

Lemma no_exit_publish (env : environment) (addon_xmls : list str) :
  no_exit (publish env addon_xmls).
Proof.
  unfold publish. apply no_exit_bind; [apply no_exit_write_text|].
  intros _. destruct (md5_string _).
  2:{ apply no_exit_raise. intros code. discriminate. }
  apply no_exit_bind; [apply no_exit_write_text|].
  intros _. apply no_exit_bind; [apply no_exit_generate_index_pages|].
  intros _. repeat (apply no_exit_bind; [apply no_exit_print|]; intros _).
  apply no_exit_print.
Qed.

(** The exit status tells how the run ended: it is 0 exactly when [main]
    ends without exception, and 1 in every other case, whether the run
    stops itself for want of manifests or an exception escapes.  The
    configuration is taken to fail, if it does, with an exception other
    than [SystemExit]. *)
Theorem main_exit_status (env : environment) (w : world) :
  plain_result (config_file env) ->
  (exit_status (fst (main env w)) = 0%Z <-> fst (main env w) = Ok tt)
  /\ (fst (main env w) <> Ok tt -> exit_status (fst (main env w)) = 1%Z).
Proof.
  intros Hc.
  assert (A : forall e w', main env w = (Raise e, w') ->
                           exit_status (Raise e) = 1%Z).
  { intros e w' H. unfold main, bind in H.
    pose proof (no_exit_collect env Hc w) as Pc.
    destruct (collect env w) as [[xs|e0] wn].
    - destruct xs as [|x xs].
      + unfold print, raise in H. injection H as <- _. reflexivity.
      + pose proof (no_exit_publish env (x :: xs) _ _ _ H) as P.
        destruct e; try reflexivity. exfalso. exact (P code eq_refl).
    - injection H as <- _. specialize (Pc e0 wn eq_refl).
      destruct e0; try reflexivity. exfalso. exact (Pc code eq_refl). }
  destruct (main env w) as [[[]|e] w'] eqn:E; cbn [fst].
  - split; [split; reflexivity | congruence].
  - rewrite (A e w' eq_refl). split; [split; discriminate | reflexivity].
Qed.

Lemma main_exit_status_witness :
  (exit_status (fst (main env_broken_zip fresh)) = 0%Z
   <-> fst (main env_broken_zip fresh) = Ok tt)
  /\ (fst (main env_broken_zip fresh) <> Ok tt ->
      exit_status (fst (main env_broken_zip fresh)) = 1%Z).
Proof.
  apply (main_exit_status env_broken_zip fresh).
  intros e H. discriminate H.
Defined.

(** ** When the pages can be written *)

Lemma encodable_app (s t : str) :
  encodable s -> encodable t -> encodable (s ++ t).
Proof.
  intros (a & Ha) (b & Hb). exists (a ++ b).
  apply utf8_encode_app; assumption.
Qed.

Lemma encodable_py (s : string) :
  forallb (fun c => c <? 0x80) (py s) = true -> encodable (py s).
Proof.
  intros H. apply utf8_encode_chars. apply Forall_forall. intros c Hc.
  rewrite forallb_forall in H. specialize (H c Hc).
  unfold encode_char. rewrite H. discriminate.
Qed.

Lemma encodable_join (sep : str) (parts : list str) :
  encodable sep -> Forall encodable parts -> encodable (join sep parts).
Proof.
  intros Hs H. induction H as [|p ps Hp Hps IH]; [exists []; reflexivity|].
  cbn [join]. destruct ps as [|q ps]; [exact Hp|].
  apply encodable_app; [exact Hp|]. apply encodable_app; assumption.
Qed.

Lemma encodable_char (c : char) : c < 0x80 -> encodable [c].
Proof.
  intros H. apply utf8_encode_chars. constructor; [|constructor].
  unfold encode_char. apply N.ltb_lt in H. rewrite H. discriminate.
Qed.

Lemma encodable_dir_link (d : str) : encodable d -> encodable (dir_link d).
Proof.
  intros H. unfold dir_link.
  repeat (apply encodable_app;
          [first [exact H | apply encodable_py; reflexivity
                 | apply encodable_char; reflexivity]|]).
  apply encodable_py. reflexivity.
Qed.

Lemma encodable_file_link (f : str) : encodable f -> encodable (file_link f).
Proof.
  intros H. unfold file_link.
  repeat (apply encodable_app;
          [first [exact H | apply encodable_py; reflexivity
                 | apply encodable_char; reflexivity]|]).
  apply encodable_py. reflexivity.
Qed.

Lemma encodable_index_html (is_root : bool) (dirs files : list str) :
  Forall encodable dirs -> Forall encodable files ->
  encodable (index_html is_root dirs files).
Proof.
  intros Hd Hf. unfold index_html. cbv zeta.
  apply encodable_app; [apply encodable_py; reflexivity|].
  apply encodable_app; [apply encodable_char; reflexivity|].
  apply encodable_app.
  2:{ apply encodable_app; [apply encodable_char; reflexivity|].
      apply encodable_app; [apply encodable_py; reflexivity|].
      apply encodable_char; reflexivity. }
  apply encodable_join; [apply encodable_char; reflexivity|].
  rewrite index_entries_links. apply Forall_app. split.
  - destruct is_root; [constructor|]. apply Forall_forall. intros e He.
    apply in_map_iff in He. destruct He as (d & <- & Hin).
    apply encodable_dir_link. rewrite Forall_forall in Hd. apply Hd.
    apply In_sorted. exact Hin.
  - apply Forall_forall. intros e He.
    apply in_map_iff in He. destruct He as (f & <- & Hin).
    apply filter_In in Hin. destruct Hin as [Hin _].
    apply encodable_file_link. rewrite Forall_forall in Hf. apply Hf.
    apply In_sorted. exact Hin.
Qed.

Lemma In_dirnames (name : str) (es : listing) :
  In name (dirnames es) -> In name (List.map fst es).
Proof.
  induction es as [|[n [f|sub]] es IH]; cbn [dirnames List.map fst In];
    [auto | auto | intros [H | H]; auto].
Qed.

Lemma In_filenames (name : str) (es : listing) :
  In name (filenames es) -> In name (List.map fst es).
Proof.
  induction es as [|[n [f|sub]] es IH]; cbn [filenames List.map fst In];
    [auto | intros [H | H]; auto | auto].
Qed.

Lemma visit_names (w : node -> result unit * node) (l l' : listing) :
  visit w l = (Ok tt, l') -> List.map fst l' = List.map fst l.
Proof.
  revert l'. induction l as [|[name child] l IH]; intros l' H.
  - injection H as <-. reflexivity.
  - cbn [visit] in H. destruct child as [f|sub].
    + destruct (visit w l) as [r l'']. injection H as -> <-.
      cbn [List.map fst]. rewrite (IH l'' eq_refl). reflexivity.
    + destruct (w (Dir sub)) as [[u|e] child']; [|discriminate].
      destruct (visit w l) as [r l'']. injection H as -> <-.
      cbn [List.map fst]. rewrite (IH l'' eq_refl). reflexivity.
Qed.

Lemma write_file_succeeds (name : str) (f : file) (es : listing) :
  (forall sub, lookup name es <> Some (Dir sub)) ->
  exists es', write_file name f es = Ok es'.
Proof.
  intros H. unfold write_file.
  destruct (lookup name es) as [[g|sub]|]; try (eexists; reflexivity).
  exfalso. exact (H sub eq_refl).
Qed.

(** Generating the pages cannot fail on a tree in which no directory
    holds a directory called [index.html] and every name can be encoded as
    UTF-8. *)
Theorem generate_index_pages_succeeds :
  forall (n : node) (is_root : bool),
    indexable n -> exists n', walk is_root n = (Ok tt, n').
Proof.
  fix IH 1. intros [f|es] is_root H.
  - exists (File f). reflexivity.
  - cbn [indexable] in H. destruct H as (Hidx & Hnames & Heach).
    assert (V : exists es', visit (walk false) es = (Ok tt, es')).
    { clear Hidx Hnames. induction es as [|[name child] l IHl].
      - exists []. reflexivity.
      - destruct Heach as [Hc Hl]. destruct (IHl Hl) as (l' & El).
        destruct (IH child false Hc) as (child' & Ec).
        cbn [visit]. destruct child as [f|sub].
        + rewrite El. eexists. reflexivity.
        + rewrite Ec, El. eexists. reflexivity. }
    destruct V as (es' & V).
    assert (Hhtml : encodable (index_html is_root (dirnames es)
                                          (filenames es))).
    { rewrite Forall_forall in Hnames.
      apply encodable_index_html; apply Forall_forall; intros x Hx;
        apply Hnames; [apply In_dirnames | apply In_filenames]; exact Hx. }
    destruct Hhtml as (page & Hpage).
    cbn [walk].
    destruct (write_file_succeeds index_name (text_file []) es Hidx)
      as (x & ->).
    rewrite Hpage, V. eexists. reflexivity.
Qed.

Lemma generate_index_pages_succeeds_witness :
  exists n', walk true example_tree = (Ok tt, n').
Proof.
  apply (generate_index_pages_succeeds example_tree true).
  assert (E : forall s : string,
             forallb (fun c => c <? 0x80) (py s) = true ->
             encodable (py s)) by exact encodable_py.
  cbn [indexable example_tree].
  split; [intros sub H; vm_compute in H; discriminate H|].
  split.
  { cbn [List.map fst]. repeat (apply Forall_cons; [apply E; reflexivity|]).
    apply Forall_nil. }
  split; [exact I|]. split; [exact I|]. split; [|exact I].
  split; [intros sub H; vm_compute in H; discriminate H|].
  split; [|repeat split].
  cbn [List.map fst]. repeat (apply Forall_cons; [apply E; reflexivity|]).
  apply Forall_nil.
Defined.
